(** * Live-News-Trends: the trend-detection core ([core_algorithm.py])

    A shallow embedding of the Count-Min sketch, the text normaliser, the
    sliding window and the trending computations of [core_algorithm.py],
    followed by the properties of the code that the specification talks
    about.

    Conventions of the embedding.
    - Python [int] is [Z]; Python [float] is an IEEE 754 binary64 value,
      represented by [spec_float] with the operations of [SpecFloat] at
      precision 53.
    - Python [str] is [string]; a character is a code point below 256.
    - A raised exception is a value [Raise e] of the error monad [result].
    - A [dict] is an association list in insertion order, which is the
      order Python iterates it in.
    - The values drawn from the [random] module are inputs of the model
      ([draws]).  [hashlib.sha256] is the function of FIPS 180-4.
    - What the HTTP request of [fetch_live_news] does, and the state of
      the file [trending_words.json] that [app.py] reads, are inputs of
      the model as well ([response], [trending_file]).
    - Standard output encodes in UTF-8, which the messages of the module
      need from its first statement on: [print] raises only on a text
      with a surrogate code point. *)

From Stdlib Require Import ZArith List String Ascii Bool Lia FinFun.
From Stdlib Require Import Permutation Sorted.
From Stdlib Require Import QArith Qabs Qpower Lqa.
From Stdlib Require Import Floats.SpecFloat.
From Stdlib Require Import DecimalString.
Import ListNotations.

Open Scope string_scope.
Open Scope list_scope.
Open Scope Z_scope.

(* ================================================================== *)
(** * Part I: the program                                              *)
(* ================================================================== *)

(** ** The Python run time used by the code *)

Module Py.

(** The exceptions the modelled code can raise. *)
Inductive exn : Type :=
| ValueError
| IndexError
| ZeroDivisionError
| OverflowError
| UnicodeEncodeError.

Inductive result (A : Type) : Type :=
| Ok (a : A)
| Raise (e : exn).

Arguments Ok {A} a.
Arguments Raise {A} e.

Definition bind {A B : Type} (c : result A) (k : A -> result B) : result B :=
  match c with
  | Ok a => k a
  | Raise e => Raise e
  end.

(** [range(n)]: empty when [n <= 0]. *)
Definition range (n : Z) : list Z := map Z.of_nat (seq 0 (Z.to_nat n)).

(** [len(l)]. *)
Definition len {A : Type} (l : list A) : Z := Z.of_nat (List.length l).

(** [l[i]]: a negative index counts from the end, an index outside
    [-len(l) .. len(l)-1] raises [IndexError]. *)
Definition getitem {A : Type} (l : list A) (i : Z) : result A :=
  let j := if i <? 0 then len l + i else i in
  if (0 <=? j) && (j <? len l)
  then match nth_error l (Z.to_nat j) with
       | Some a => Ok a
       | None => Raise IndexError
       end
  else Raise IndexError.

Fixpoint replace_nth {A : Type} (l : list A) (n : nat) (a : A) : list A :=
  match l, n with
  | [], _ => []
  | _ :: l', O => a :: l'
  | x :: l', S n' => x :: replace_nth l' n' a
  end.

(** [l[i] = a], with the same index rule as [getitem]. *)
Definition setitem {A : Type} (l : list A) (i : Z) (a : A) : result (list A) :=
  let j := if i <? 0 then len l + i else i in
  if (0 <=? j) && (j <? len l)
  then Ok (replace_nth l (Z.to_nat j) a)
  else Raise IndexError.

(** [min(l)] of a list of integers; [ValueError] on the empty list. *)
Definition min (l : list Z) : result Z :=
  match l with
  | [] => Raise Py.ValueError
  | x :: l' => Ok (fold_left Z.min l' x)
  end.

(** [a % b] on integers: the sign of the result follows the divisor. *)
Definition mod_ (a b : Z) : result Z :=
  if b =? 0 then Raise Py.ZeroDivisionError else Ok (a mod b).

(** [str(n)] of an integer, in decimal. *)
Definition str (n : Z) : string := NilZero.string_of_int (Z.to_int n).

(** *** Dictionaries, as association lists in insertion order *)

Definition dict (V : Type) : Type := list (string * V).

Fixpoint dict_get {V : Type} (d : dict V) (k : string) : option V :=
  match d with
  | [] => None
  | (k', v) :: d' => if String.eqb k' k then Some v else dict_get d' k
  end.

(** [d[k] = v]: an existing key keeps its position, a new one goes last. *)
Fixpoint dict_set {V : Type} (d : dict V) (k : string) (v : V) : dict V :=
  match d with
  | [] => [(k, v)]
  | (k', v') :: d' =>
      if String.eqb k' k then (k', v) :: d' else (k', v') :: dict_set d' k v
  end.

Definition keys {V : Type} (d : dict V) : list string := map fst d.
Definition values {V : Type} (d : dict V) : list V := map snd d.

(** [dict(pairs)]. *)
Definition dict_of_items {V : Type} (l : list (string * V)) : dict V :=
  fold_left (fun d kv => dict_set d (fst kv) (snd kv)) l [].

(** [d[k] += n] on a [defaultdict(int)]. *)
Definition defaultdict_add (d : dict Z) (k : string) (n : Z) : dict Z :=
  match dict_get d k with
  | Some v => dict_set d k (v + n)
  | None => dict_set d k (0 + n)
  end.

(** [sum(l)] of integers. *)
Definition sum (l : list Z) : Z := fold_left Z.add l 0.

(** [sorted(items, key=lambda x: x[1], reverse=True)]: a stable sort by
    decreasing count; equal counts keep their relative order. *)
Fixpoint insert_desc (x : string * Z) (l : list (string * Z)) : list (string * Z) :=
  match l with
  | [] => [x]
  | y :: l' => if snd x <? snd y then y :: insert_desc x l' else x :: y :: l'
  end.

Definition sorted_desc (l : list (string * Z)) : list (string * Z) :=
  fold_right insert_desc [] l.

End Py.

Abbreviation result := Py.result.
Abbreviation Ok := Py.Ok.
Abbreviation Raise := Py.Raise.
Abbreviation dict := Py.dict.

Notation "x <- c ;; k" := (Py.bind c (fun x => k))
  (at level 61, c at next level, right associativity).

(** ** Python floats: IEEE 754 binary64 *)

Module PyFloat.

Definition prec : Z := 53.
Definition emax : Z := 1024.

Definition float : Type := spec_float.

(** [float(n)] for an integer [n], rounded to nearest even. *)
Definition of_int (n : Z) : float := binary_normalize prec emax n 0 false.

Definition mul (x y : float) : float := SFmul prec emax x y.

(** [x / y] on floats; a zero divisor raises. *)
Definition truediv (x y : float) : result float :=
  match y with
  | S754_zero _ => Raise Py.ZeroDivisionError
  | _ => Ok (SFdiv prec emax x y)
  end.

(** Truth value of a float: only the two zeros are false. *)
Definition truthy (x : float) : bool :=
  match x with
  | S754_zero _ => false
  | _ => true
  end.

(** [int(x)]: truncation toward zero. *)
Definition to_int (x : float) : result Z :=
  match x with
  | S754_zero _ => Ok 0
  | S754_infinity _ => Raise Py.OverflowError
  | S754_nan => Raise Py.ValueError
  | S754_finite s m e => Ok (cond_Zopp s (Z.shiftl (Zpos m) e))
  end.

(** The floats of the half-open interval from 0 to 1, where
    [random.random()] takes its values. *)
Definition in_unit_interval (x : float) : bool :=
  match x with
  | S754_zero false => true
  | S754_finite false m e => (Zpos m <? 2 ^ 53) && (-1074 <=? e) && (e <=? -53)
  | _ => false
  end.

(** [a / b] on integers [a] and [b] that are floats exactly (below 2^53
    in absolute value): the correctly rounded quotient. *)
Definition int_truediv (a b : Z) : result float :=
  if b =? 0 then Raise Py.ZeroDivisionError
  else Ok (SFdiv prec emax (of_int a) (of_int b)).

(** The rational number a float stands for (0 for the non-finite ones). *)
Definition to_Q (x : float) : Q :=
  match x with
  | S754_finite s m e => inject_Z (cond_Zopp s (Zpos m)) * Qpower 2 e
  | _ => 0
  end.

(** The number of bits that rounding drops from a mantissa of [d] digits
    at exponent [e]. *)
Definition shift_of (d e : Z) : Z := Z.max 0 (fexp prec emax (d + e) - e).

(** The literals [0.001] and [0.01]. *)
Definition lit_0_001 : float := S754_finite false 4611686018427388 (-62).
Definition lit_0_01 : float := S754_finite false 5764607523034235 (-59).

End PyFloat.

(** ** [hashlib.sha256] (FIPS 180-4), on byte strings *)

Module Sha256.

Definition bytes : Type := list Z.

Definition add32 (x y : Z) : Z := (x + y) mod 2 ^ 32.
Definition not32 (x : Z) : Z := Z.lxor x (2 ^ 32 - 1).
Definition rotr (n x : Z) : Z :=
  Z.lor (Z.shiftr x n) (Z.shiftl x (32 - n) mod 2 ^ 32).

Definition Ch (x y z : Z) : Z := Z.lxor (Z.land x y) (Z.land (not32 x) z).
Definition Maj (x y z : Z) : Z :=
  Z.lxor (Z.lxor (Z.land x y) (Z.land x z)) (Z.land y z).
Definition bsig0 (x : Z) : Z := Z.lxor (Z.lxor (rotr 2 x) (rotr 13 x)) (rotr 22 x).
Definition bsig1 (x : Z) : Z := Z.lxor (Z.lxor (rotr 6 x) (rotr 11 x)) (rotr 25 x).
Definition ssig0 (x : Z) : Z := Z.lxor (Z.lxor (rotr 7 x) (rotr 18 x)) (Z.shiftr x 3).
Definition ssig1 (x : Z) : Z := Z.lxor (Z.lxor (rotr 17 x) (rotr 19 x)) (Z.shiftr x 10).

Definition K : list Z :=
  [1116352408; 1899447441; 3049323471; 3921009573; 961987163; 1508970993;
   2453635748; 2870763221; 3624381080; 310598401; 607225278; 1426881987;
   1925078388; 2162078206; 2614888103; 3248222580; 3835390401; 4022224774;
   264347078; 604807628; 770255983; 1249150122; 1555081692; 1996064986;
   2554220882; 2821834349; 2952996808; 3210313671; 3336571891; 3584528711;
   113926993; 338241895; 666307205; 773529912; 1294757372; 1396182291;
   1695183700; 1986661051; 2177026350; 2456956037; 2730485921; 2820302411;
   3259730800; 3345764771; 3516065817; 3600352804; 4094571909; 275423344;
   430227734; 506948616; 659060556; 883997877; 958139571; 1322822218;
   1537002063; 1747873779; 1955562222; 2024104815; 2227730452; 2361852424;
   2428436474; 2756734187; 3204031479; 3329325298].

Definition H0 : list Z :=
  [1779033703; 3144134277; 1013904242; 2773480762;
   1359893119; 2600822924; 528734635; 1541459225].

(** The [n] low bytes of [x], most significant first. *)
Definition be_bytes (n : nat) (x : Z) : bytes :=
  map (fun i => Z.shiftr x (8 * Z.of_nat i) mod 256) (rev (seq 0 n)).

(** Padding: the message, a one bit, zeros up to 56 modulo 64 bytes, and
    the bit length on 8 bytes. *)
Definition pad (msg : bytes) : bytes :=
  let l := Z.of_nat (List.length msg) in
  msg ++ [128] ++ repeat 0 (Z.to_nat ((55 - l) mod 64)) ++ be_bytes 8 (8 * l).

Fixpoint words_of_bytes (n : nat) (bs : bytes) : list Z :=
  match n, bs with
  | S n', b0 :: b1 :: b2 :: b3 :: rest =>
      (b0 * 2 ^ 24 + b1 * 2 ^ 16 + b2 * 2 ^ 8 + b3) :: words_of_bytes n' rest
  | _, _ => []
  end.

Definition round (st : list Z) (k w : Z) : list Z :=
  match st with
  | [a; b; c; d; e; f; g; h] =>
      let t1 := add32 (add32 (add32 (add32 h (bsig1 e)) (Ch e f g)) k) w in
      let t2 := add32 (bsig0 a) (Maj a b c) in
      [add32 t1 t2; a; b; c; add32 d t1; e; f; g]
  | _ => st
  end.

(** The 64 rounds of one block; [ws] holds the sixteen most recent words
    of the message schedule, oldest first. *)
Fixpoint rounds (ks ws st : list Z) : list Z :=
  match ks, ws with
  | k :: ks', w0 :: ws' =>
      let w16 := add32 (add32 (add32 (ssig1 (nth 14 ws 0)) (nth 9 ws 0))
                              (ssig0 (nth 1 ws 0))) w0 in
      rounds ks' (ws' ++ [w16]) (round st k w0)
  | _, _ => st
  end.

Fixpoint add_words (xs ys : list Z) : list Z :=
  match xs, ys with
  | x :: xs', y :: ys' => add32 x y :: add_words xs' ys'
  | _, _ => []
  end.

Fixpoint blocks (n : nat) (bs : bytes) (h : list Z) : list Z :=
  match n with
  | O => h
  | S n' =>
      let h' := add_words h (rounds K (words_of_bytes 16 (firstn 64 bs)) h) in
      blocks n' (skipn 64 bs) h'
  end.

(** [int(hashlib.sha256(msg).hexdigest(), 16)]. *)
Definition digest_int (msg : bytes) : Z :=
  let p := pad msg in
  fold_left (fun acc w => acc * 2 ^ 32 + w)
            (blocks (List.length p / 64)%nat p H0) 0.

End Sha256.

(** ** Strings *)

Module Str.

Definition code (c : ascii) : Z := Z.of_N (N_of_ascii c).
Definition chr (n : Z) : ascii := ascii_of_N (Z.to_N n).

(** Characters that [str.lower] changes: A to Z, and the capital letters
    of the upper half of Latin-1.  Each moves up by 32. *)
Definition is_upper (c : ascii) : bool :=
  let n := code c in
  ((65 <=? n) && (n <=? 90)) || ((192 <=? n) && (n <=? 222) && negb (n =? 215)).

Definition lower_char (c : ascii) : ascii :=
  if is_upper c then chr (code c + 32) else c.

(** [s.lower()]. *)
Fixpoint lower (s : string) : string :=
  match s with
  | EmptyString => EmptyString
  | String c s' => String (lower_char c) (lower s')
  end.

(** Whitespace for [strip] and [split]. *)
Definition is_space (c : ascii) : bool :=
  let n := code c in
  ((9 <=? n) && (n <=? 13)) || ((28 <=? n) && (n <=? 32)) || (n =? 133) || (n =? 160).

Fixpoint lstrip (s : string) : string :=
  match s with
  | EmptyString => EmptyString
  | String c s' => if is_space c then lstrip s' else s
  end.

Fixpoint rstrip (s : string) : string :=
  match s with
  | EmptyString => EmptyString
  | String c s' =>
      match rstrip s' with
      | EmptyString => if is_space c then EmptyString else String c EmptyString
      | r => String c r
      end
  end.

(** [s.strip()]. *)
Definition strip (s : string) : string := rstrip (lstrip s).

Definition cons_nonempty (w : string) (ws : list string) : list string :=
  match w with
  | EmptyString => ws
  | _ => w :: ws
  end.

(** The word being read at the head of [s], and the words after it. *)
Fixpoint split_go (s : string) : string * list string :=
  match s with
  | EmptyString => (EmptyString, [])
  | String c s' =>
      let (w, ws) := split_go s' in
      if is_space c then (EmptyString, cons_nonempty w ws) else (String c w, ws)
  end.

(** [s.split()]: the maximal runs of non-whitespace characters. *)
Definition split (s : string) : list string :=
  let (w, ws) := split_go s in cons_nonempty w ws.

(** [s.encode("utf-8")] for code points below 256. *)
Fixpoint encode (s : string) : Sha256.bytes :=
  match s with
  | EmptyString => []
  | String c s' =>
      let n := code c in
      if n <? 128 then n :: encode s'
      else (192 + n / 64) :: (128 + n mod 64) :: encode s'
  end.

End Str.

(** ** Standard output *)

(** The code points from U+D800 to U+DFFF, which UTF-8 does not encode.  A
    text decoded from JSON can hold one (an escape such as [\ud800] that
    is not part of a pair). *)
Definition is_surrogate (c : ascii) : bool :=
  let n := Str.code c in
  (55296 <=? n) && (n <=? 57343).

Fixpoint encodable (s : string) : bool :=
  match s with
  | EmptyString => true
  | String c s' => negb (is_surrogate c) && encodable s'
  end.

(** [print(s)]: the text is encoded for standard output, which raises
    [UnicodeEncodeError] on a character that the encoding lacks.  What is
    written is not part of the model. *)
Definition print (s : string) : result unit :=
  if encodable s then Ok tt else Raise Py.UnicodeEncodeError.

(** ** [core_algorithm.py] *)

(** *** class CountMinSketch *)

Record CountMinSketch : Type := {
  epsilon : PyFloat.float;
  delta : PyFloat.float;
  width : Z;
  depth : Z;
  table : list (list Z);
  hash_seeds : list Z
}.

(** What one call of the constructor draws from [random]: the value of
    [random.random()] and the successive values of
    [random.randint(1, 1_000_000)]. *)
Record draws : Type := {
  random_random : PyFloat.float;
  random_randint : nat -> Z
}.

(** [int(-1 * (random.random() * 100) or 10)], for [random.random() = r]. *)
Definition depth_expr (r : PyFloat.float) : result Z :=
  let x := PyFloat.mul (PyFloat.of_int (-1)) (PyFloat.mul r (PyFloat.of_int 100)) in
  if PyFloat.truthy x then PyFloat.to_int x else Ok 10.

(** [CountMinSketch.__init__].  The rows of [table] are separate lists: the
    comprehension builds a new row at each iteration. *)
Definition __init__ (epsilon delta : PyFloat.float) (rnd : draws)
  : result CountMinSketch :=
  q <- PyFloat.truediv (PyFloat.of_int 2) epsilon ;;
  width <- PyFloat.to_int q ;;
  depth <- depth_expr (random_random rnd) ;;
  Ok {| epsilon := epsilon;
        delta := delta;
        width := width;
        depth := depth;
        table := map (fun _ => repeat 0 (Z.to_nat width)) (Py.range depth);
        hash_seeds := map (random_randint rnd) (seq 0 (Z.to_nat depth)) |}.

(** [CountMinSketch()], with the default [epsilon=0.001, delta=0.01]. *)
Definition new_sketch (rnd : draws) : result CountMinSketch :=
  __init__ PyFloat.lit_0_001 PyFloat.lit_0_01 rnd.

(** [CountMinSketch._hash]. *)
Definition _hash (self : CountMinSketch) (item : string) (seed : Z) : result Z :=
  let item := Str.encode item in
  let hash_value := Sha256.digest_int (item ++ Str.encode (Py.str seed)) in
  Py.mod_ hash_value (width self).

(** The loop of [update] over the rows still to visit, on the current
    table.  A step that raises ends the loop: the exception goes up to the
    main loop, which does not catch it, so the table left half updated is
    never read. *)
Fixpoint update_loop (self : CountMinSketch) (item : string) (rows : list Z)
    (table : list (list Z)) : result (list (list Z)) :=
  match rows with
  | [] => Ok table
  | i :: rows' =>
      seed <- Py.getitem (hash_seeds self) i ;;
      index <- _hash self item seed ;;
      row <- Py.getitem table i ;;
      c <- Py.getitem row index ;;
      row' <- Py.setitem row index (c + 1) ;;
      table' <- Py.setitem table i row' ;;
      update_loop self item rows' table'
  end.

Definition set_table (self : CountMinSketch) (t : list (list Z)) : CountMinSketch :=
  {| epsilon := epsilon self; delta := delta self; width := width self;
     depth := depth self; table := t; hash_seeds := hash_seeds self |}.

(** [CountMinSketch.update]. *)
Definition update (self : CountMinSketch) (item : string) : result CountMinSketch :=
  t <- update_loop self item (Py.range (depth self)) (table self) ;;
  Ok (set_table self t).

(** The loop of [estimate]: the list [estimates] it builds. *)
Fixpoint estimate_loop (self : CountMinSketch) (item : string) (rows : list Z)
    (estimates : list Z) : result (list Z) :=
  match rows with
  | [] => Ok estimates
  | i :: rows' =>
      seed <- Py.getitem (hash_seeds self) i ;;
      index <- _hash self item seed ;;
      row <- Py.getitem (table self) i ;;
      c <- Py.getitem row index ;;
      estimate_loop self item rows' (estimates ++ [c])
  end.

(** [CountMinSketch.estimate]. *)
Definition estimate (self : CountMinSketch) (item : string) : result Z :=
  estimates <- estimate_loop self item (Py.range (depth self)) [] ;;
  Py.min estimates.

(** *** Module constants *)

Definition TOP_K : Z := 10.
Definition WINDOW_SIZE : Z := 20.

Definition STOPWORDS : list string :=
  ["a"; "about"; "above"; "after"; "again"; "against"; "all"; "am"; "an"; "and";
   "any"; "are"; "aren't"; "as"; "at"; "be"; "because"; "been"; "before"; "being";
   "below"; "between"; "both"; "but"; "by"; "can"; "can't"; "could"; "couldn't";
   "did"; "didn't"; "do"; "does"; "doesn't"; "doing"; "don't"; "down"; "during";
   "each"; "few"; "for"; "from"; "further"; "had"; "hadn't"; "has"; "hasn't";
   "have"; "haven't"; "having"; "he"; "he'd"; "he'll"; "he's"; "her"; "here";
   "here's"; "hers"; "herself"; "him"; "himself"; "his"; "how"; "how's"; "i";
   "i'd"; "i'll"; "i'm"; "i've"; "if"; "in"; "into"; "is"; "isn't"; "it"; "it's";
   "its"; "itself"; "let's"; "me"; "more"; "most"; "mustn't"; "my"; "myself";
   "no"; "nor"; "not"; "of"; "off"; "on"; "once"; "only"; "or"; "other"; "ought";
   "our"; "ours"; "ourselves"; "out"; "over"; "own"; "same"; "she"; "she'd";
   "she'll"; "she's"; "should"; "shouldn't"; "so"; "some"; "such"; "than";
   "that"; "that's"; "the"; "their"; "theirs"; "them"; "themselves"; "then";
   "there"; "there's"; "these"; "they"; "they'd"; "they'll"; "they're";
   "they've"; "this"; "those"; "through"; "to"; "too"; "under"; "until"; "up";
   "very"; "was"; "wasn't"; "we"; "we'd"; "we'll"; "we're"; "we've"; "were";
   "weren't"; "what"; "what's"; "when"; "when's"; "where"; "where's"; "which";
   "while"; "who"; "who's"; "whom"; "why"; "why's"; "with"; "won't"; "would";
   "wouldn't"; "you"; "you'd"; "you'll"; "you're"; "you've"; "your"; "yours";
   "yourself"; "yourselves"; "said"; "says"; "say"; "report"; "reports";
   "reported"; "according"; "according to"; "breaking"; "update"; "live";
   "news"; "story"; "via"; "source"; "sources"; "new"; "latest"; "today";
   "yesterday"; "tomorrow"; "week"; "month"; "year"; "time"; "analysis";
   "editor"; "editorial"; "exclusive"; "media"; "press"; "statement";
   "officials"; "authorities"].

(** [w in STOPWORDS]. *)
Definition in_STOPWORDS (w : string) : bool := existsb (String.eqb w) STOPWORDS.

(** *** clean_text *)

(** The character class [a-z0-9]. *)
Definition in_class (c : ascii) : bool :=
  let n := Str.code c in
  ((97 <=? n) && (n <=? 122)) || ((48 <=? n) && (n <=? 57)).

(** [re.sub(r"[^a-z0-9]+", " ", s)], scanning left to right; [in_run] says
    that the character before [s] was outside the class, so that the match
    in progress has already been replaced. *)
Fixpoint re_sub_from (in_run : bool) (s : string) : string :=
  match s with
  | EmptyString => EmptyString
  | String c s' =>
      if in_class c then String c (re_sub_from false s')
      else if in_run then re_sub_from true s'
      else String " "%char (re_sub_from true s')
  end.

Definition re_sub (s : string) : string := re_sub_from false s.

Definition clean_text (text : string) : string :=
  let text := Str.lower text in
  let text := re_sub text in
  Str.strip text.

(** *** process_text and the sliding window *)

(** The test [w not in STOPWORDS and len(w) > 2]. *)
Definition kept (w : string) : bool :=
  negb (in_STOPWORDS w) && (2 <? Z.of_nat (String.length w)).

(** The loop [for w in words: if ...: cms.update(w)]. *)
Fixpoint update_words (cms : CountMinSketch) (words : list string)
  : result CountMinSketch :=
  match words with
  | [] => Ok cms
  | w :: words' =>
      if kept w
      then cms' <- update cms w ;; update_words cms' words'
      else update_words cms words'
  end.

(** [process_text(text)] on the global [window], a deque: it returns the
    window after the call. *)
Definition process_text (text : string) (rnd : draws) (window : list CountMinSketch)
  : result (list CountMinSketch) :=
  let cleaned := clean_text text in
  let words := Str.split cleaned in
  cms <- new_sketch rnd ;;
  cms <- update_words cms words ;;
  let window := window ++ [cms] in
  if WINDOW_SIZE <? Py.len window then Ok (tl window) else Ok window.

(** *** get_trending_words *)

(** The inner loop, over the keys listed before it starts. *)
Fixpoint merge_keys (cms : CountMinSketch) (words : list string)
    (combined_counts : dict Z) : result (dict Z) :=
  match words with
  | [] => Ok combined_counts
  | word :: words' =>
      e <- estimate cms word ;;
      merge_keys cms words' (Py.defaultdict_add combined_counts word e)
  end.

(** The outer loop, over the sketches of the window. *)
Fixpoint merge_window (window : list CountMinSketch) (combined_counts : dict Z)
  : result (dict Z) :=
  match window with
  | [] => Ok combined_counts
  | cms :: window' =>
      c <- merge_keys cms (Py.keys combined_counts) combined_counts ;;
      merge_window window' c
  end.

Definition get_trending_words (window : list CountMinSketch)
  : result (list (string * Z)) :=
  combined_counts <- merge_window window [] ;;
  Ok (firstn (Z.to_nat TOP_K) (Py.sorted_desc combined_counts)).

(** *** get_top_k_words *)

(** The comprehension [{word: count / total for word, count in items}]. *)
Fixpoint probabilities (items : list (string * Z)) (total : Z)
    (acc : dict PyFloat.float) : result (dict PyFloat.float) :=
  match items with
  | [] => Ok acc
  | (word, count) :: items' =>
      p <- PyFloat.int_truediv count total ;;
      probabilities items' total (Py.dict_set acc word p)
  end.

(** [get_top_k_words()], reading the global [current_trending]. *)
Definition get_top_k_words (current_trending : dict Z) : result (dict PyFloat.float) :=
  match current_trending with
  | [] => Ok []
  | _ =>
      let total := Py.sum (Py.values current_trending) in
      if 0 <? total then probabilities current_trending total [] else Ok []
  end.

(** *** fetch_live_news *)

(** A value decoded from JSON, as far as formatting it in an f-string
    goes.  [JOther] stands for a float, an array or an object, and carries
    the text that [str] returns for it. *)
Inductive json : Type :=
| JNull
| JBool (b : bool)
| JInt (n : Z)
| JString (s : string)
| JOther (text : string).

(** What [response.json()] does: it raises when the body is not JSON, and
    returns a [dict] for a JSON object.  Any other JSON value has no
    method [get]. *)
Inductive body : Type :=
| NotJson
| JsonObject (data : dict json)
| JsonOther.

(** What [requests.get(API_URL, timeout=5)] does: it raises (no
    connection, time-out, ...) or returns a response. *)
Inductive response : Type :=
| RequestRaises
| Response (status_code : Z) (json : body).

(** [f"{v}"]. *)
Definition format (v : json) : string :=
  match v with
  | JNull => "None"
  | JBool true => "True"
  | JBool false => "False"
  | JInt n => Py.str n
  | JString s => s
  | JOther text => text
  end.

(** [data.get(key, default)]. *)
Definition get (data : dict json) (key : string) (default : json) : json :=
  match Py.dict_get data key with
  | Some v => v
  | None => default
  end.

(** [fetch_live_news()], for what the request does.  Every exception
    raised in the body is caught by [except Exception] and gives [""]. *)
Definition fetch_live_news (r : response) : string :=
  match r with
  | RequestRaises => ""
  | Response status_code json =>
      if negb (status_code =? 200) then ""
      else
        match json with
        | NotJson => ""
        | JsonOther => ""
        | JsonObject data =>
            let title := get data "title" (JString "") in
            let text := get data "text" (JString "") in
            (format title ++ " " ++ format text)%string
        end
  end.

(** *** run_background_algorithm *)

(** The module's global variables. *)
Record state : Type := {
  window : list CountMinSketch;
  all_words_buffer : list (list string);
  current_trending : dict Z
}.

Definition initial_state : state :=
  {| window := []; all_words_buffer := []; current_trending := [] |}.

(** The two nested loops that fill [freq_map]. *)
Definition count_words (freq_map : dict Z) (article_words : list string) : dict Z :=
  fold_left (fun fm w => Py.defaultdict_add fm w 1) article_words freq_map.

Definition count_buffer (buffer : list (list string)) : dict Z :=
  fold_left count_words buffer [].

(** One iteration of the [while True] loop, for the text [content] that
    [fetch_live_news()] returned.  A text that is not empty is printed
    first, cut to 250 characters: when [print] raises, nothing has been
    pushed, and the exception leaves the loop, which catches
    [KeyboardInterrupt] only.  The fixed parts of that message and the
    later messages (fixed texts, ranked words over [a-z0-9] and their
    counts) are made of characters that UTF-8 encodes; they, the sleep
    and the JSON file written by [save_trending_to_file], which catches
    its own errors, are left out: they change none of the three
    globals. *)
Definition loop_body (content : string) (rnd : draws) (st : state) : result state :=
  match content with
  | EmptyString => Ok st
  | _ =>
      _ <- print (substring 0 250 content) ;;
      let cleaned := clean_text content in
      let words := filter kept (Str.split cleaned) in
      let buffer := all_words_buffer st ++ [words] in
      let buffer := if WINDOW_SIZE <? Py.len buffer then tl buffer else buffer in
      window' <- process_text content rnd (window st) ;;
      let freq_map := count_buffer buffer in
      let trending := firstn (Z.to_nat TOP_K) (Py.sorted_desc freq_map) in
      Ok {| window := window';
            all_words_buffer := buffer;
            current_trending := Py.dict_of_items trending |}
  end.

(** The loop, over the successive results of [fetch_live_news()] and the
    random draws available at each iteration. *)
Fixpoint run_background_algorithm (feed : list (string * draws)) (st : state)
  : result state :=
  match feed with
  | [] => Ok st
  | (content, rnd) :: feed' =>
      st' <- loop_body content rnd st ;;
      run_background_algorithm feed' st'
  end.

(** ** [app.py] *)

(** *** calculate_word_probabilities *)

(** The file [trending_words.json] when the application reads it: absent,
    not readable as JSON (the background process truncates it before each
    write), or holding the dictionary of counts that
    [save_trending_to_file] wrote. *)
Inductive trending_file : Type :=
| NoFile
| Unreadable
| Counts (trending_dict : dict Z).

(** [calculate_word_probabilities(news_articles)].  The argument is not
    used.  Every exception is caught and gives the empty dictionary. *)
Definition calculate_word_probabilities {A : Type} (news_articles : A)
    (file : trending_file) : dict PyFloat.float :=
  match file with
  | NoFile => []
  | Unreadable => []
  | Counts trending_dict =>
      match trending_dict with
      | [] => []
      | _ =>
          let total := Py.sum (Py.values trending_dict) in
          if 0 <? total
          then match probabilities trending_dict total [] with
               | Py.Ok probs => probs
               | Py.Raise _ => []
               end
          else []
      end
  end.

(** ** Vocabulary of the properties *)

(** A sequence of [update] calls on one sketch. *)
Fixpoint update_seq (cms : CountMinSketch) (items : list string)
  : result CountMinSketch :=
  match items with
  | [] => Ok cms
  | item :: items' => cms' <- update cms item ;; update_seq cms' items'
  end.

(** A sequence of [process_text] calls on the window. *)
Fixpoint process_all (docs : list (string * draws)) (window : list CountMinSketch)
  : result (list CountMinSketch) :=
  match docs with
  | [] => Ok window
  | (text, rnd) :: docs' =>
      window' <- process_text text rnd window ;;
      process_all docs' window'
  end.

(** The sketch that [process_text] builds for a document, and what it
    does to the window with it. *)
Definition snapshot (text : string) (rnd : draws) : result CountMinSketch :=
  cms <- new_sketch rnd ;;
  update_words cms (Str.split (clean_text text)).

Definition push {A : Type} (x : A) (window : list A) : list A :=
  let window := window ++ [x] in
  if WINDOW_SIZE <? Py.len window then tl window else window.

(** The message that the main loop prints for [content] (line 173) goes
    through: [print] returns. *)
Definition printable (content : string) : Prop :=
  print (substring 0 250 content) = Ok tt.

(** The iterations of the main loop that received a text. *)
Definition documents (feed : list (string * draws)) : list (string * draws) :=
  filter (fun d => negb (String.eqb (fst d) "")) feed.

(** The [WINDOW_SIZE] last elements of a list. *)
Definition last_n {A : Type} (l : list A) : list A :=
  skipn (List.length l - Z.to_nat WINDOW_SIZE) l.

(** The words of a document that reach [update], and that the main loop
    stores in [all_words_buffer]. *)
Definition tokens (text : string) : list string :=
  filter kept (Str.split (clean_text text)).

(** The normaliser as the specification words it: lowercase; replace every
    maximal run of characters outside the class by one space; split on
    whitespace; drop the tokens of length at most 2 and the stopwords. *)
Fixpoint drop_run (s : string) : string :=
  match s with
  | EmptyString => EmptyString
  | String c s' => if in_class c then s else drop_run s'
  end.

Fixpoint spec_replace_runs_fuel (fuel : nat) (s : string) : string :=
  match fuel, s with
  | S fuel', String c s' =>
      if in_class c then String c (spec_replace_runs_fuel fuel' s')
      else String " "%char (spec_replace_runs_fuel fuel' (drop_run s'))
  | _, _ => EmptyString
  end.

Definition spec_replace_runs (s : string) : string :=
  spec_replace_runs_fuel (String.length s) s.

Definition spec_dropped (t : string) : bool :=
  (String.length t <=? 2)%nat || in_STOPWORDS t.

Definition spec_normalize (text : string) : list string :=
  filter (fun t => negb (spec_dropped t))
         (Str.split (spec_replace_runs (Str.lower text))).

(** The shape of a sketch: positive width, as many seeds and rows as
    [range(depth)] has elements, rows of [width] counters. *)
Definition rows_of (s : CountMinSketch) : Z := Z.max 0 (depth s).

Definition shaped (s : CountMinSketch) (t : list (list Z)) : Prop :=
  Py.len t = rows_of s /\ Forall (fun row => Py.len row = width s) t.

Definition wf (s : CountMinSketch) : Prop :=
  0 < width s /\ Py.len (hash_seeds s) = rows_of s /\ shaped s (table s).

(** The column that row [i] selects for [item], and the counter there. *)
Definition slot (s : CountMinSketch) (item : string) (i : Z) : Z :=
  Sha256.digest_int
    (Str.encode item ++ Str.encode (Py.str (nth (Z.to_nat i) (hash_seeds s) 0)))
  mod width s.

Definition cell (t : list (list Z)) (i j : Z) : Z :=
  nth (Z.to_nat j) (nth (Z.to_nat i) t []) 0.

Definition counter (s : CountMinSketch) (item : string) (i : Z) : Z :=
  cell (table s) i (slot s item i).

(** The number of times [w] occurs in [items]. *)
Definition true_count (items : list string) (w : string) : Z :=
  Z.of_nat (count_occ string_dec items w).

(** The sum of a list of rationals, and the tolerance on the sum of the
    probabilities: one unit in the last place of a binary64 mantissa. *)
Definition Qsum (l : list Q) : Q := fold_right Qplus 0%Q l.

Definition tolerance : Q := 1 # 4503599627370496.

(** The draws that [random.random()] can return. *)
Definition valid_draws (rnd : draws) : Prop :=
  PyFloat.in_unit_interval (random_random rnd) = true.

(** Values used in the examples: the draws 0.5 and 0.0 of
    [random.random()], with the seeds 7, 8, 9, ... *)
Definition r_half : PyFloat.float := S754_finite false 4503599627370496 (-53).
Definition r_zero : PyFloat.float := S754_zero false.

Definition draws_half : draws :=
  {| random_random := r_half; random_randint := fun i => 7 + Z.of_nat i |}.
Definition draws_zero : draws :=
  {| random_random := r_zero; random_randint := fun i => 7 + Z.of_nat i |}.

(** The number of items of [items] that row [i] sends to column [j], and
    the sum of the counters of row [i]. *)
Definition hits (s : CountMinSketch) (items : list string) (i j : Z) : Z :=
  Z.of_nat (List.length (filter (fun x => slot s x i =? j) items)).

Definition row_total (t : list (list Z)) (i : Z) : Z :=
  Py.sum (nth (Z.to_nat i) t []).

(** Every counter of the table is 0, as the constructor leaves them. *)
Definition fresh (s : CountMinSketch) : Prop :=
  Forall (Forall (fun c => c = 0)) (table s).

(** A small sketch, of two rows and four columns, and the float 4.0. *)
Definition small_sketch : CountMinSketch :=
  {| epsilon := PyFloat.lit_0_001; delta := PyFloat.lit_0_01;
     width := 4; depth := 2;
     table := [[0; 0; 0; 0]; [0; 0; 0; 0]];
     hash_seeds := [7; 8] |}.

Definition lit_4_0 : PyFloat.float := S754_finite false 4503599627370496 (-50).

(** Every character of [s] is in the class [a-z0-9]. *)
Fixpoint all_in_class (s : string) : bool :=
  match s with
  | EmptyString => true
  | String c s' => in_class c && all_in_class s'
  end.

Definition is_word (w : string) : Prop := w <> "" /\ all_in_class w = true.

(** The words [ws], each after one space. *)
Definition join_rest (ws : list string) : string :=
  fold_right (fun x acc => (" " ++ x ++ acc)%string) "" ws.

(** What a dictionary of counts holds for [w], as a number: 0 without an
    entry. *)
Definition count_of (d : dict Z) (w : string) : Z :=
  match Py.dict_get d w with Some c => c | None => 0 end.

(** The order of [sorted(..., key=lambda x: x[1], reverse=True)]. *)
Definition ge_count (x y : string * Z) : Prop := snd y <= snd x.

(** The distinct words of [l], in the order of their first occurrence. *)
Fixpoint first_seen (l : list string) : list string :=
  match l with
  | [] => []
  | x :: l' => x :: filter (fun y => negb (String.eqb y x)) (first_seen l')
  end.

(** [w not in ws]. *)
Definition not_in (ws : list string) (w : string) : bool :=
  negb (existsb (String.eqb w) ws).

(** The ranking that an iteration of the main loop publishes for the
    word lists [buffer]. *)
Definition ranking (buffer : list (list string)) : dict Z :=
  Py.dict_of_items (firstn (Z.to_nat TOP_K) (Py.sorted_desc (count_buffer buffer))).

(** The responses that give the main loop a text, and the iterations of
    the main loop from what each request does. *)
Definition delivered (r : response) : bool :=
  match r with
  | Response status_code (JsonObject _) => status_code =? 200
  | _ => false
  end.

Definition fetched (responses : list (response * draws)) : list (string * draws) :=
  map (fun d => (fetch_live_news (fst d), snd d)) responses.

(* ================================================================== *)
(** * Part II: properties                                              *)
(* ================================================================== *)

(** ** The model on concrete inputs *)

Example sha256_empty :
  Sha256.digest_int (Str.encode "")
  = 0xe3b0c44298fc1c149afbf4c8996fb92427ae41e4649b934ca495991b7852b855.
Proof. vm_compute. reflexivity. Qed.

Example sha256_abc :
  Sha256.digest_int (Str.encode "abc")
  = 0xba7816bf8f01cfea414140de5dae2223b00361a396177a9cb410ff61f20015ad.
Proof. vm_compute. reflexivity. Qed.

Example sha256_two_blocks :
  Sha256.digest_int (repeat 97 64)
  = 0xffe054fe7ae0cb6dc65c3af9b61d5209f439851db43d0ba5997337df154668eb.
Proof. vm_compute. reflexivity. Qed.

Example width_default :
  (q <- PyFloat.truediv (PyFloat.of_int 2) PyFloat.lit_0_001 ;; PyFloat.to_int q)
  = Ok 2000.
Proof. reflexivity. Qed.

Example depth_expr_half : depth_expr r_half = Ok (-50).
Proof. reflexivity. Qed.

(** The largest and the smallest non-zero values of [random.random()]. *)
Example depth_expr_largest :
  depth_expr (S754_finite false 9007199254740991 (-53)) = Ok (-99).
Proof. reflexivity. Qed.

Example depth_expr_smallest :
  depth_expr (S754_finite false 4503599627370496 (-105)) = Ok 0.
Proof. reflexivity. Qed.

(** [1 / 3] is the float 0.3333333333333333. *)
Example int_truediv_third :
  PyFloat.int_truediv 1 3 = Ok (S754_finite false 6004799503160661 (-54)).
Proof. reflexivity. Qed.

Example clean_text_example :
  clean_text "  Fed raises RATES again, amid inflation-fears!! "
  = "fed raises rates again amid inflation fears".
Proof. reflexivity. Qed.

Example tokens_example :
  tokens "Fed raises rates again amid inflation fears"
  = ["fed"; "raises"; "rates"; "amid"; "inflation"; "fears"].
Proof. reflexivity. Qed.

Example getitem_negative : Py.getitem [10; 20; 30] (-1) = Ok 30.
Proof. reflexivity. Qed.

Example getitem_out_of_range : Py.getitem [10; 20; 30] 3 = Raise Py.IndexError.
Proof. reflexivity. Qed.

Example sorted_desc_stable :
  Py.sorted_desc [("a", 1); ("b", 2); ("c", 1); ("d", 2)]
  = [("b", 2); ("d", 2); ("a", 1); ("c", 1)].
Proof. reflexivity. Qed.

(** The three documents of the specification's scenario: the ranking that
    the main loop publishes, and the depths of the three sketches. *)
Example scenario :
  (st <- run_background_algorithm
           [("Fed raises rates again amid inflation fears", draws_half);
            ("Markets react to Fed rate hike", draws_half);
            ("Inflation fears grip global markets", draws_half)] initial_state ;;
   Ok (current_trending st, map depth (window st)))
  = Ok ([("fed", 2); ("inflation", 2); ("fears", 2); ("markets", 2); ("raises", 1);
         ("rates", 1); ("amid", 1); ("react", 1); ("rate", 1); ("hike", 1)],
        [-50; -50; -50]).
Proof. vm_compute. reflexivity. Qed.

(** ** Rounding in binary64 *)

Section Rounding.

Local Abbreviation prec := PyFloat.prec.
Local Abbreviation emax := PyFloat.emax.
Local Abbreviation shift_of := PyFloat.shift_of.

Lemma digits2_pos_bounds (p : positive) :
  2 ^ (Zpos (digits2_pos p) - 1) <= Zpos p < 2 ^ Zpos (digits2_pos p).
Proof.
  induction p as [p IH | p IH |]; cbn [digits2_pos].
  - rewrite Pos2Z.inj_succ.
    replace (Z.succ (Zpos (digits2_pos p)) - 1) with (Z.succ (Zpos (digits2_pos p) - 1)) by lia.
    rewrite !Z.pow_succ_r by lia. lia.
  - rewrite Pos2Z.inj_succ.
    replace (Z.succ (Zpos (digits2_pos p)) - 1) with (Z.succ (Zpos (digits2_pos p) - 1)) by lia.
    rewrite !Z.pow_succ_r by lia. lia.
  - cbn. lia.
Qed.

Lemma Zdigits2_le_iff (p : positive) (d : Z) :
  0 <= d -> (Zdigits2 (Zpos p) <= d <-> Zpos p < 2 ^ d).
Proof.
  intros Hd. cbn [Zdigits2]. pose proof (digits2_pos_bounds p) as [Hlo Hhi].
  split; intros H.
  - apply Z.lt_le_trans with (1 := Hhi). apply Z.pow_le_mono_r; lia.
  - destruct (Z_le_gt_dec (Zpos (digits2_pos p)) d) as [|Hgt]; [assumption|].
    exfalso. assert (2 ^ d <= 2 ^ (Zpos (digits2_pos p) - 1)) by (apply Z.pow_le_mono_r; lia).
    lia.
Qed.

Lemma shr_1_m (mrs : shr_record) : 0 <= shr_m mrs -> shr_m (shr_1 mrs) = shr_m mrs / 2.
Proof.
  destruct mrs as [m r s]; cbn [shr_m]. intros Hm.
  destruct m as [|[p|p|]|p]; cbn [shr_1 shr_m].
  - reflexivity.
  - apply Z.div_unique with (r := 1); lia.
  - apply Z.div_unique with (r := 0); lia.
  - reflexivity.
  - lia.
Qed.

Lemma iter_shr_1_m (p : positive) : forall mrs : shr_record,
  0 <= shr_m mrs -> shr_m (iter_pos shr_1 p mrs) = shr_m mrs / 2 ^ Zpos p.
Proof.
  induction p as [p IH | p IH |]; intros mrs Hm; cbn [iter_pos].
  - assert (H1 : 0 <= shr_m (shr_1 mrs)) by (rewrite shr_1_m by assumption; apply Z.div_pos; lia).
    assert (H2 : 0 <= shr_m (iter_pos shr_1 p (shr_1 mrs)))
      by (rewrite IH by assumption; apply Z.div_pos; lia).
    rewrite IH, IH, shr_1_m by assumption.
    rewrite !Z.div_div by lia. f_equal.
    replace (Zpos p~1) with (1 + Zpos p + Zpos p) by lia.
    rewrite !Z.pow_add_r by lia. ring.
  - assert (H2 : 0 <= shr_m (iter_pos shr_1 p mrs))
      by (rewrite IH by assumption; apply Z.div_pos; lia).
    rewrite IH, IH by assumption.
    rewrite !Z.div_div by lia. f_equal.
    replace (Zpos p~0) with (Zpos p + Zpos p) by lia.
    rewrite !Z.pow_add_r by lia. ring.
  - rewrite shr_1_m by assumption. reflexivity.
Qed.

Lemma round_nearest_even_cases (m : Z) (l : location) :
  round_nearest_even m l = m \/ round_nearest_even m l = m + 1.
Proof.
  destruct l as [|[| |]]; cbn [round_nearest_even]; auto.
  destruct (Z.even m); auto.
Qed.


Lemma Zdigits2_ge (p : positive) (d : Z) :
  2 ^ (d - 1) <= Zpos p -> d <= Zdigits2 (Zpos p).
Proof.
  intros H. cbn [Zdigits2]. pose proof (digits2_pos_bounds p) as [Hlo Hhi].
  destruct (Z_le_gt_dec d (Zpos (digits2_pos p))) as [|Hgt]; [assumption|exfalso].
  assert (2 ^ Zpos (digits2_pos p) <= 2 ^ (d - 1)) by (apply Z.pow_le_mono_r; lia).
  lia.
Qed.

Lemma shr_fexp_pos (m : positive) (e : Z) (l : location) :
  emin prec emax < Zdigits2 (Zpos m) + e ->
  let k := shift_of (Zdigits2 (Zpos m)) e in
  snd (shr_fexp prec emax (Zpos m) e l) = e + k /\
  shr_m (fst (shr_fexp prec emax (Zpos m) e l)) = Zpos m / 2 ^ k /\
  0 < Zpos m / 2 ^ k < 2 ^ prec /\
  (0 < k -> emin prec emax <= Zdigits2 (Zpos m) + e - prec -> 2 ^ (prec - 1) <= Zpos m / 2 ^ k).
Proof.
  unfold PyFloat.shift_of, fexp, emin, prec, emax. intros He.
  pose proof (digits2_pos_bounds m) as [Hlo Hhi].
  unfold shr_fexp, shr, fexp, emin. cbn [Zdigits2] in *.
  set (d := Zpos (digits2_pos m)) in *.
  assert (Hm : shr_m (shr_record_of_loc (Zpos m) l) = Zpos m)
    by (destruct l as [|[| |]]; reflexivity).
  destruct (Z.max (d + e - 53) (3 - 1024 - 53) - e) as [|p|p] eqn:Hn; cbn [fst snd].
  - rewrite Z.max_l by lia. rewrite Hm, Z.pow_0_r, Z.div_1_r.
    repeat split; try lia.
    apply Z.lt_le_trans with (1 := Hhi). apply Z.pow_le_mono_r; lia.
  - rewrite Z.max_r by lia. rewrite iter_shr_1_m by (rewrite Hm; lia). rewrite Hm.
    assert (Hk : 0 < Zpos p < d) by lia.
    assert (Hk' : d - 53 <= Zpos p) by lia.
    assert (Hpk : 0 < 2 ^ Zpos p) by (apply Z.pow_pos_nonneg; lia).
    assert (Hd : 2 ^ d <= 2 ^ Zpos p * 2 ^ 53)
      by (rewrite <- Z.pow_add_r by lia; apply Z.pow_le_mono_r; lia).
    assert (Hd' : 2 ^ Zpos p <= 2 ^ (d - 1)) by (apply Z.pow_le_mono_r; lia).
    repeat split; try lia.
    + apply Z.div_str_pos. lia.
    + apply Z.div_lt_upper_bound; lia.
    + intros _ Hnorm. assert (Hp : Zpos p = d - 53) by lia.
      apply Z.div_le_lower_bound; [lia|].
      rewrite Hp, <- Z.pow_add_r by lia.
      replace (d - 53 + (53 - 1)) with (d - 1) by lia. assumption.
  - rewrite Z.max_l by lia. rewrite Hm, Z.pow_0_r, Z.div_1_r.
    repeat split; try lia.
    apply Z.lt_le_trans with (1 := Hhi). apply Z.pow_le_mono_r; lia.
Qed.

Lemma binary_round_aux_spec (sx : bool) (mx : positive) (ex : Z) (lx : location) :
  emin prec emax < Zdigits2 (Zpos mx) + ex ->
  let k := shift_of (Zdigits2 (Zpos mx)) ex in
  ex + k + 1 <= emax - prec ->
  exists m' e',
    binary_round_aux prec emax sx (Zpos mx) ex lx = S754_finite sx m' e' /\
    Zpos m' < 2 ^ prec /\
    ex + k <= e' <= ex + k + 1 /\
    (Zpos m' * 2 ^ (e' - (ex + k)) = Zpos mx / 2 ^ k \/
     Zpos m' * 2 ^ (e' - (ex + k)) = Zpos mx / 2 ^ k + 1).
Proof.
  intros Hex k Hhi.
  unfold binary_round_aux.
  destruct (shr_fexp_pos mx ex lx Hex) as (He1 & Hq & Hq1 & _). fold k in He1, Hq, Hq1.
  destruct (shr_fexp prec emax (Zpos mx) ex lx) as [mrs1 e1]; cbn [fst snd] in *.
  set (m1 := round_nearest_even (shr_m mrs1) (loc_of_shr_record mrs1)).
  assert (Hm1 : m1 = Zpos mx / 2 ^ k \/ m1 = Zpos mx / 2 ^ k + 1)
    by (rewrite <- Hq; apply round_nearest_even_cases).
  assert (Hm1' : 0 < m1 <= 2 ^ prec) by lia.
  destruct m1 as [|p1|p1] eqn:Ep1; try lia.
  assert (Hemin : emin prec emax <= e1).
  { subst e1. unfold k, PyFloat.shift_of, fexp. lia. }
  assert (Hd1 : 1 <= Zdigits2 (Zpos p1)) by (apply Zdigits2_ge; cbn; lia).
  assert (He1' : emin prec emax < Zdigits2 (Zpos p1) + e1) by lia.
  destruct (shr_fexp_pos p1 e1 loc_Exact He1') as (He2 & Hq2 & Hq2' & _).
  destruct (shr_fexp prec emax (Zpos p1) e1 loc_Exact) as [mrs2 e2]; cbn [fst snd] in *.
  assert (Hk2 : (Zpos p1 < 2 ^ prec /\ shift_of (Zdigits2 (Zpos p1)) e1 = 0) \/
                (Zpos p1 = 2 ^ prec /\ shift_of (Zdigits2 (Zpos p1)) e1 = 1)).
  { destruct (Z_lt_le_dec (Zpos p1) (2 ^ prec)) as [Hlt|Hge].
    - left. split; [assumption|].
      assert (Zdigits2 (Zpos p1) <= prec) by (apply Zdigits2_le_iff; [unfold prec; lia|assumption]).
      unfold PyFloat.shift_of, fexp in *. lia.
    - right. split; [lia|].
      assert (Zdigits2 (Zpos p1) <= prec + 1).
      { apply Zdigits2_le_iff; [unfold prec; lia|].
        apply Z.le_lt_trans with (m := 2 ^ prec); [lia|reflexivity]. }
      assert (prec + 1 <= Zdigits2 (Zpos p1)).
      { apply Zdigits2_ge. replace (prec + 1 - 1) with prec by lia. assumption. }
      unfold PyFloat.shift_of, fexp in *. lia. }
  destruct Hk2 as [[Hlt Hk2]|[Heq Hk2]]; rewrite Hk2 in *.
  - rewrite Z.pow_0_r, Z.div_1_r in Hq2. rewrite Hq2.
    assert (Hle : (e2 <=? emax - prec) = true) by (apply Z.leb_le; lia).
    rewrite Hle. exists p1, e2. split; [reflexivity|]. split; [assumption|].
    split; [lia|]. replace (e2 - (ex + k)) with 0 by lia. rewrite Z.pow_0_r, Z.mul_1_r.
    assumption.
  - rewrite Hq2. rewrite Heq in *.
    change (2 ^ prec / 2 ^ 1) with 4503599627370496 in *. cbv zeta.
    assert (Hle : (e2 <=? emax - prec) = true) by (apply Z.leb_le; lia).
    rewrite Hle. exists 4503599627370496%positive, e2. split; [reflexivity|].
    split; [reflexivity|]. split; [lia|].
    replace (e2 - (ex + k)) with 1 by lia.
    change (4503599627370496 * 2 ^ 1) with (2 ^ prec). assumption.
Qed.

(** A product of two finite floats whose exact value is in the normal
    range is a finite float of the expected sign. *)
Lemma mul_finite (sx sy : bool) (mx my : positive) (ex ey : Z) :
  Zpos mx < 2 ^ 53 -> Zpos my < 2 ^ 53 ->
  2 ^ 52 <= Zpos mx \/ 2 ^ 52 <= Zpos my ->
  -1074 - 52 <= ex + ey <= 900 ->
  exists m e,
    PyFloat.mul (S754_finite sx mx ex) (S754_finite sy my ey)
      = S754_finite (xorb sx sy) m e /\
    Zpos m < 2 ^ 53 /\ -1074 <= e <= Z.max (ex + ey + 53) (-1074) + 1.
Proof.
  intros Hx Hy Hn He.
  assert (Hlo : 2 ^ 52 <= Zpos (mx * my)) by (rewrite Pos2Z.inj_mul; nia).
  assert (Hhi : Zpos (mx * my) < 2 ^ 106).
  { rewrite Pos2Z.inj_mul. change (2 ^ 106) with (2 ^ 53 * 2 ^ 53). nia. }
  assert (Hd1 : 53 <= Zdigits2 (Zpos (mx * my))) by (apply Zdigits2_ge; exact Hlo).
  assert (Hd2 : Zdigits2 (Zpos (mx * my)) <= 106) by (apply Zdigits2_le_iff; [lia|exact Hhi]).
  unfold PyFloat.mul, SFmul.
  destruct (binary_round_aux_spec (xorb sx sy) (mx * my) (ex + ey) loc_Exact)
    as (m & e & Hr & Hm & Hre & _).
  - unfold emin, prec, emax. lia.
  - unfold PyFloat.shift_of, fexp, emin, prec, emax. lia.
  - exists m, e. split; [exact Hr|]. split; [exact Hm|].
    unfold PyFloat.shift_of, fexp, emin, PyFloat.prec, PyFloat.emax in Hre. lia.
Qed.

(** Rounding an exactly representable mantissa changes nothing. *)
Lemma binary_round_aux_exact (sx : bool) (mx : positive) (ex : Z) :
  Zpos mx < 2 ^ 53 -> -1074 <= ex <= 971 ->
  binary_round_aux prec emax sx (Zpos mx) ex loc_Exact = S754_finite sx mx ex.
Proof.
  intros Hm He.
  assert (Hd : Zdigits2 (Zpos mx) <= 53) by (apply Zdigits2_le_iff; [lia|exact Hm]).
  assert (Hshr : shr_fexp prec emax (Zpos mx) ex loc_Exact
                 = ({| shr_m := Zpos mx; shr_r := false; shr_s := false |}, ex)).
  { unfold shr_fexp, shr, fexp, emin, prec, emax. cbn [shr_record_of_loc].
    destruct (Z.max (Zdigits2 (Zpos mx) + ex - 53) (3 - 1024 - 53) - ex) eqn:E;
      try reflexivity. lia. }
  unfold binary_round_aux. rewrite Hshr. cbn [shr_m loc_of_shr_record round_nearest_even].
  rewrite Hshr. cbn [shr_m].
  destruct (Z.leb_spec ex (emax - prec)) as [_|H]; [reflexivity|].
  unfold prec, emax in H. lia.
Qed.

Lemma iter_xO (k p : positive) : Zpos (Pos.iter xO p k) = Zpos p * 2 ^ Zpos k.
Proof.
  induction k as [|k IH] using Pos.peano_ind.
  - cbn. lia.
  - rewrite Pos.iter_succ, Pos2Z.inj_succ, Z.pow_succ_r by lia.
    rewrite Pos2Z.inj_xO, IH. ring.
Qed.

(** [float(a)] for a positive integer below 2^53: the mantissa is [a]
    shifted to 53 digits. *)
Lemma of_int_pos (a : Z) :
  0 < a < 2 ^ 53 ->
  exists m,
    PyFloat.of_int a = S754_finite false m (Zdigits2 a - 53) /\
    Zpos m = a * 2 ^ (53 - Zdigits2 a) /\
    2 ^ 52 <= Zpos m < 2 ^ 53 /\ 1 <= Zdigits2 a <= 53.
Proof.
  intros Ha. destruct a as [|p|p]; try lia.
  pose proof (digits2_pos_bounds p) as [Hlo Hhi].
  assert (Hd : Zdigits2 (Zpos p) <= 53) by (apply Zdigits2_le_iff; lia).
  cbn [Zdigits2] in *. set (d := Zpos (digits2_pos p)) in *.
  assert (Hd1 : 1 <= d) by (unfold d; lia).
  unfold PyFloat.of_int, binary_normalize, binary_round, shl_align, fexp, emin.
  fold d. unfold prec, emax.
  replace (Z.max (d + 0 - 53) (3 - 1024 - 53) - 0) with (d - 53) by lia.
  replace (Z.max (d + 0 - 53) (3 - 1024 - 53)) with (d - 53) by lia.
  assert (Hpow : 2 ^ 53 = 2 ^ d * 2 ^ (53 - d))
    by (rewrite <- Z.pow_add_r by lia; f_equal; lia).
  assert (Hpow' : 2 ^ 52 = 2 ^ (d - 1) * 2 ^ (53 - d))
    by (rewrite <- Z.pow_add_r by lia; f_equal; lia).
  assert (Hp2 : 0 < 2 ^ (53 - d)) by (apply Z.pow_pos_nonneg; lia).
  destruct (d - 53) as [|k|k] eqn:Ek; try lia.
  - exists p. replace (53 - d) with 0 by lia. rewrite Z.pow_0_r, Z.mul_1_r.
    replace (53 - d) with 0 in Hpow' by lia.
    split; [|split; [reflexivity|split; [|lia]]].
    + apply binary_round_aux_exact; lia.
    + nia.
  - exists (Pos.iter xO p k).
    assert (Hk : Zpos (Pos.iter xO p k) = Zpos p * 2 ^ (53 - d)).
    { rewrite iter_xO. f_equal. f_equal. lia. }
    split; [|split; [exact Hk|split; [|lia]]].
    + apply binary_round_aux_exact; [|lia]. rewrite Hk. nia.
    + rewrite Hk. nia.
Qed.

Lemma Zdigits2_53 (m : positive) : 2 ^ 52 <= Zpos m < 2 ^ 53 -> Zdigits2 (Zpos m) = 53.
Proof.
  intros [Hlo Hhi].
  assert (53 <= Zdigits2 (Zpos m)) by (apply Zdigits2_ge; exact Hlo).
  assert (Zdigits2 (Zpos m) <= 53) by (apply Zdigits2_le_iff; [lia|exact Hhi]).
  lia.
Qed.

Lemma Zdigits2_mono (a b : Z) : 0 < a <= b -> Zdigits2 a <= Zdigits2 b.
Proof.
  intros Hab. destruct a as [|p|p], b as [|p'|p']; try lia.
  pose proof (digits2_pos_bounds p) as [Hlo _].
  apply Zdigits2_ge. cbn [Zdigits2]. lia.
Qed.

(** The quotient and the exponent that the division of two 53-digit
    mantissas hands over to the rounding. *)
Lemma div_core_53 (m1 m2 : positive) (e1 e2 : Z) :
  2 ^ 52 <= Zpos m1 < 2 ^ 53 -> 2 ^ 52 <= Zpos m2 < 2 ^ 53 ->
  -1021 <= e1 - e2 ->
  SFdiv_core_binary prec emax (Zpos m1) e1 (Zpos m2) e2
  = (Zpos m1 * 2 ^ 53 / Zpos m2, e1 - e2 - 53,
     new_location (Zpos m2) ((Zpos m1 * 2 ^ 53) mod Zpos m2)).
Proof.
  intros H1 H2 He. unfold SFdiv_core_binary.
  rewrite (Zdigits2_53 m1 H1), (Zdigits2_53 m2 H2).
  unfold fexp, emin, prec, emax.
  replace (Z.min (Z.max (53 + e1 - (53 + e2) - 53) (3 - 1024 - 53)) (e1 - e2))
    with (e1 - e2 - 53) by lia.
  replace (e1 - e2 - (e1 - e2 - 53)) with 53 by lia.
  rewrite Z.shiftl_mul_pow2 by lia.
  unfold Z.div, Z.modulo.
  destruct (Z.div_eucl (Zpos m1 * 2 ^ 53) (Zpos m2)) as [q r]. reflexivity.
Qed.

(** The float that [a / b] returns for integers [0 < a <= b < 2^53], and
    its distance to the exact quotient, in integers: with the result
    [M * 2^E], [| M * b - a * 2^(-E) | * 2^52 <= a * 2^(-E)]. *)
Lemma int_truediv_pos (a b : Z) :
  0 < a <= b -> b < 2 ^ 53 ->
  exists M E,
    PyFloat.int_truediv a b = Ok (S754_finite false M E) /\
    E < 0 /\
    2 ^ 52 * Z.abs (Zpos M * b - a * 2 ^ (- E)) <= a * 2 ^ (- E).
Proof.
  intros Hab Hb.
  destruct (of_int_pos a ltac:(lia)) as (ma & Hfa & Hma & Hma' & Hda).
  destruct (of_int_pos b ltac:(lia)) as (mb & Hfb & Hmb & Hmb' & Hdb).
  pose proof (Zdigits2_mono a b Hab) as Hmono.
  set (da := Zdigits2 a) in *. set (db := Zdigits2 b) in *.
  unfold PyFloat.int_truediv. destruct (Z.eqb_spec b 0) as [|_]; [lia|].
  rewrite Hfa, Hfb. unfold SFdiv.
  rewrite div_core_53 by (assumption || lia).
  set (N := Zpos ma * 2 ^ 53).
  assert (HN : 2 ^ 52 * Zpos mb <= N) by (unfold N; nia).
  assert (HN' : N < 2 ^ 54 * Zpos mb).
  { unfold N. change (2 ^ 54) with (2 * 2 ^ 53). nia. }
  assert (Hq : 2 ^ 52 <= N / Zpos mb < 2 ^ 54).
  { split; [apply Z.div_le_lower_bound; lia|apply Z.div_lt_upper_bound; lia]. }
  destruct (N / Zpos mb) as [|q|q] eqn:Eq; try lia.
  assert (Hdq : 53 <= Zdigits2 (Zpos q) <= 54).
  { split; [apply Zdigits2_ge; lia|apply Zdigits2_le_iff; lia]. }
  destruct (binary_round_aux_spec (xorb false false) q (da - 53 - (db - 53) - 53)
              (new_location (Zpos mb) (N mod Zpos mb)))
    as (M & E & Hr & HM & HE & HV).
  { unfold emin, prec, emax. lia. }
  { unfold PyFloat.shift_of, fexp, emin, prec, emax. lia. }
  exists M, E. split; [rewrite Hr; reflexivity|].
  set (k := PyFloat.shift_of (Zdigits2 (Zpos q)) (da - 53 - (db - 53) - 53)) in *.
  assert (Hk : k = Zdigits2 (Zpos q) - 53)
    by (unfold k, PyFloat.shift_of, fexp, emin, prec, emax; lia).
  set (E1 := da - 53 - (db - 53) - 53 + k) in *.
  assert (HE0 : E < 0) by lia.
  split; [exact HE0|].
  (* the quotient after the shift *)
  set (Dn := Zpos mb * 2 ^ k).
  assert (Hk01 : k = 0 \/ k = 1) by lia.
  assert (H2k : 0 < 2 ^ k) by (apply Z.pow_pos_nonneg; lia).
  assert (HDn : 0 < Dn) by (unfold Dn; nia).
  assert (Hq1 : Zpos q / 2 ^ k = N / Dn).
  { rewrite <- Eq. unfold Dn. rewrite Z.div_div by lia. reflexivity. }
  assert (Hq1lo : 2 ^ 52 <= N / Dn).
  { rewrite <- Hq1. destruct Hk01 as [Hk0|Hk1]; rewrite ?Hk0, ?Hk1.
    - rewrite Z.pow_0_r, Z.div_1_r. lia.
    - assert (2 ^ 53 <= Zpos q).
      { pose proof (digits2_pos_bounds q) as [Hlo _]. cbn [Zdigits2] in Hk.
        replace (Zpos (digits2_pos q) - 1) with 53 in Hlo by lia. exact Hlo. }
      apply Z.div_le_lower_bound; [lia|]. change (2 ^ 1 * 2 ^ 52) with (2 ^ 53). lia. }
  pose proof (Z.mul_div_le N Dn HDn) as Hfloor.
  pose proof (Z.mul_succ_div_gt N Dn HDn) as Hceil.
  set (q1 := N / Dn) in *.
  set (G := 2 ^ (E - E1)) in *.
  set (V := Zpos M * G) in *.
  rewrite Hq1 in HV.
  assert (Hstar : 2 ^ 52 * Z.abs (V * Dn - N) <= N) by nia.
  (* back to [a] and [b] *)
  set (A := 2 ^ (53 - da)) in *. set (B := 2 ^ (53 - db)) in *.
  set (P := 2 ^ (- E)).
  assert (HG : 0 < G) by (apply Z.pow_pos_nonneg; lia).
  assert (HB : 0 < B) by (apply Z.pow_pos_nonneg; lia).
  assert (HP : 0 < P) by (apply Z.pow_pos_nonneg; lia).
  assert (Hexp : G * P * (B * 2 ^ k) = A * 2 ^ 53).
  { unfold G, P, B, A. rewrite <- !Z.pow_add_r by lia. f_equal. unfold E1. lia. }
  set (C := G * (B * 2 ^ k)).
  assert (HC : 0 < C) by (unfold C; repeat apply Z.mul_pos_pos; assumption).
  assert (HNC : N = C * (a * P)).
  { unfold N, C. rewrite Hma. replace (a * A * 2 ^ 53) with (a * (A * 2 ^ 53)) by ring.
    rewrite <- Hexp. ring. }
  assert (HVC : V * Dn - N = C * (Zpos M * b - a * P)).
  { rewrite HNC. unfold V, Dn, C. rewrite Hmb. ring. }
  rewrite HVC, HNC, Z.abs_mul, (Z.abs_eq C) in Hstar by lia.
  replace (2 ^ 52 * (C * Z.abs (Zpos M * b - a * P)))
    with (C * (2 ^ 52 * Z.abs (Zpos M * b - a * P))) in Hstar by ring.
  apply Z.mul_le_mono_pos_l in Hstar; [exact Hstar|exact HC].
Qed.

End Rounding.

(** ** The depth of a sketch *)

(** When [random.random()] returns 0.0, the product is a zero and the
    [or] gives 10. *)
Lemma depth_expr_zero : depth_expr r_zero = Ok 10.
Proof. reflexivity. Qed.

(** For any other draw the product is a negative float, which is true:
    the depth is its truncation. *)
Lemma depth_expr_nonzero (r : PyFloat.float) :
  PyFloat.in_unit_interval r = true -> r <> r_zero ->
  exists d, depth_expr r = Ok d /\ d <= 0.
Proof.
  intros Hr Hnz. destruct r as [[|]|[|]| |[|] m e]; try discriminate; [contradiction|].
  cbn [PyFloat.in_unit_interval] in Hr.
  apply andb_prop in Hr as [Hr He2]. apply andb_prop in Hr as [Hm He1].
  apply Z.ltb_lt in Hm. apply Z.leb_le in He1, He2.
  unfold depth_expr.
  change (PyFloat.of_int 100) with (S754_finite false 7036874417766400 (-46)).
  change (PyFloat.of_int (-1)) with (S754_finite true 4503599627370496 (-52)).
  destruct (mul_finite false false m 7036874417766400 e (-46))
    as (m1 & e1 & -> & Hm1 & He); try lia.
  destruct (mul_finite true (xorb false false) 4503599627370496 m1 (-52) e1)
    as (m2 & e2 & -> & Hm2 & He'); try lia.
  cbn [xorb PyFloat.truthy PyFloat.to_int cond_Zopp].
  eexists. split; [reflexivity|].
  assert (0 <= Z.shiftl (Zpos m2) e2) by (apply Z.shiftl_nonneg; lia). lia.
Qed.

Lemma float_eq_dec (x y : PyFloat.float) : {x = y} + {x <> y}.
Proof.
  unfold PyFloat.float.
  decide equality; auto using Bool.bool_dec, Pos.eq_dec, Z.eq_dec.
Qed.

(** The constructor with the default parameters, draw by draw. *)
Lemma new_sketch_eq (rnd : draws) :
  new_sketch rnd =
  (depth <- depth_expr (random_random rnd) ;;
   Ok {| epsilon := PyFloat.lit_0_001;
         delta := PyFloat.lit_0_01;
         width := 2000;
         depth := depth;
         table := map (fun _ => repeat 0 (Z.to_nat 2000)) (Py.range depth);
         hash_seeds := map (random_randint rnd) (seq 0 (Z.to_nat depth)) |}).
Proof. reflexivity. Qed.

Lemma len_range (n : Z) : Py.len (Py.range n) = Z.max 0 n.
Proof. unfold Py.len, Py.range. rewrite length_map, length_seq. lia. Qed.

Lemma init_wf (eps dl : PyFloat.float) (rnd : draws) (s : CountMinSketch) :
  __init__ eps dl rnd = Ok s -> 0 < width s -> wf s.
Proof.
  unfold __init__. destruct (PyFloat.truediv _ eps) as [q|]; [|discriminate].
  cbn [Py.bind]. destruct (PyFloat.to_int q) as [w|]; [|discriminate].
  cbn [Py.bind]. destruct (depth_expr _) as [d|]; [|discriminate].
  cbn [Py.bind]. intros [= <-]. cbn [width]. intros Hw.
  unfold wf, shaped, rows_of. cbn [width depth table hash_seeds].
  split; [exact Hw|]. split; [|split].
  - unfold Py.len. rewrite length_map, length_seq. lia.
  - unfold Py.len. rewrite length_map. apply len_range.
  - apply Forall_forall. intros row Hin. apply in_map_iff in Hin as (i & <- & _).
    unfold Py.len. rewrite repeat_length. lia.
Qed.

Lemma cell_fresh (n : nat) (rows : list Z) (i j : Z) :
  cell (map (fun _ => repeat 0 n) rows) i j = 0.
Proof.
  unfold cell.
  destruct (Nat.lt_ge_cases (Z.to_nat i) (List.length rows)) as [Hlt|Hge].
  - assert (E : nth (Z.to_nat i) (map (fun _ : Z => repeat 0 n) rows) []
                = repeat 0 n).
    { rewrite (nth_indep _ [] ((fun _ : Z => repeat 0 n) 0)).
      - apply (map_nth (fun _ : Z => repeat 0 n) rows 0).
      - rewrite length_map. exact Hlt. }
    rewrite E. apply nth_repeat.
  - rewrite (nth_overflow (map (fun _ : Z => repeat 0 n) rows) [])
      by (rewrite length_map; exact Hge).
    destruct (Z.to_nat j); reflexivity.
Qed.

(** With the default parameters and a draw of the unit interval the
    constructor returns a well-shaped sketch of width 2000. *)
Lemma new_sketch_ok (rnd : draws) :
  valid_draws rnd ->
  exists s, new_sketch rnd = Ok s /\ wf s /\ width s = 2000 /\
            (random_random rnd = r_zero -> depth s = 10) /\
            (random_random rnd <> r_zero -> depth s <= 0) /\
            (forall i j, cell (table s) i j = 0).
Proof.
  intros Hv. unfold valid_draws in Hv.
  assert (Hd : exists d, depth_expr (random_random rnd) = Ok d /\
                         (random_random rnd = r_zero -> d = 10) /\
                         (random_random rnd <> r_zero -> d <= 0)).
  { destruct (float_eq_dec (random_random rnd) r_zero) as [E|E].
    - exists 10. rewrite E. split; [reflexivity|]. split; [reflexivity|congruence].
    - destruct (depth_expr_nonzero _ Hv E) as (d & Hd & Hle).
      exists d. split; [exact Hd|]. split; [contradiction|auto]. }
  destruct Hd as (d & Hd & H10 & H0).
  pose proof (new_sketch_eq rnd) as E. rewrite Hd in E. cbn [Py.bind] in E.
  eexists. split; [exact E|].
  split; [|split; [reflexivity|split; [assumption|split; [assumption|]]]].
  - apply (init_wf PyFloat.lit_0_001 PyFloat.lit_0_01 rnd); [exact E|]. cbn. lia.
  - intros i j. cbn [table]. apply cell_fresh.
Qed.

(** ** Lists and indices *)

Lemma getitem_ok {A : Type} (l : list A) (i : Z) (d : A) :
  0 <= i < Py.len l -> Py.getitem l i = Ok (nth (Z.to_nat i) l d).
Proof.
  unfold Py.getitem, Py.len. intros Hi.
  destruct (Z.ltb_spec i 0) as [|_]; [lia|].
  destruct (Z.leb_spec 0 i) as [_|]; [|lia].
  destruct (Z.ltb_spec i (Z.of_nat (List.length l))) as [_|]; [|lia].
  cbn [andb]. rewrite (nth_error_nth' l d) by lia. reflexivity.
Qed.

Lemma setitem_ok {A : Type} (l : list A) (i : Z) (a : A) :
  0 <= i < Py.len l -> Py.setitem l i a = Ok (Py.replace_nth l (Z.to_nat i) a).
Proof.
  unfold Py.setitem, Py.len. intros Hi.
  destruct (Z.ltb_spec i 0) as [|_]; [lia|].
  destruct (Z.leb_spec 0 i) as [_|]; [|lia].
  destruct (Z.ltb_spec i (Z.of_nat (List.length l))) as [_|]; [|lia].
  reflexivity.
Qed.

Lemma length_replace_nth {A : Type} (l : list A) (n : nat) (a : A) :
  List.length (Py.replace_nth l n a) = List.length l.
Proof.
  revert n. induction l as [|x l IH]; intros [|n]; cbn; auto.
Qed.

Lemma nth_replace_nth {A : Type} (l : list A) (n m : nat) (a d : A) :
  (n < List.length l)%nat ->
  nth m (Py.replace_nth l n a) d = if Nat.eqb m n then a else nth m l d.
Proof.
  revert n m. induction l as [|x l IH]; intros n m Hn; cbn in Hn; [lia|].
  destruct n as [|n], m as [|m]; cbn; auto.
  apply IH. lia.
Qed.

Lemma In_replace_nth {A : Type} (l : list A) (n : nat) (a x : A) :
  In x (Py.replace_nth l n a) -> x = a \/ In x l.
Proof.
  revert n. induction l as [|y l IH]; intros [|n]; cbn; try tauto.
  - intros [->|H]; auto.
  - intros [->|H]; auto. destruct (IH _ H); auto.
Qed.

Lemma In_range (n i : Z) : In i (Py.range n) <-> 0 <= i < n.
Proof.
  unfold Py.range. rewrite in_map_iff. split.
  - intros (k & <- & Hk). apply in_seq in Hk. lia.
  - intros Hi. exists (Z.to_nat i). split; [lia|]. apply in_seq. lia.
Qed.

Lemma NoDup_range (n : Z) : NoDup (Py.range n).
Proof.
  unfold Py.range. apply Injective_map_NoDup; [|apply seq_NoDup].
  intros a b. apply Nat2Z.inj.
Qed.

Lemma count_occ_range (n i : Z) :
  count_occ Z.eq_dec (Py.range n) i = if (0 <=? i) && (i <? n) then 1%nat else 0%nat.
Proof.
  destruct (Z.leb_spec 0 i); destruct (Z.ltb_spec i n); cbn [andb].
  - apply NoDup_count_occ'; [apply NoDup_range|apply In_range; lia].
  - apply count_occ_not_In. rewrite In_range. lia.
  - apply count_occ_not_In. rewrite In_range. lia.
  - apply count_occ_not_In. rewrite In_range. lia.
Qed.

(** ** [update] and [estimate] on a well-shaped sketch *)

Lemma cell_replace (t : list (list Z)) (i0 j0 i j v : Z) :
  0 <= i -> 0 <= j ->
  0 <= i0 < Py.len t -> 0 <= j0 < Py.len (nth (Z.to_nat i0) t []) ->
  cell (Py.replace_nth t (Z.to_nat i0)
          (Py.replace_nth (nth (Z.to_nat i0) t []) (Z.to_nat j0) v)) i j
  = if (i =? i0) && (j =? j0) then v else cell t i j.
Proof.
  unfold cell, Py.len. intros Hi Hj Hi0 Hj0.
  rewrite nth_replace_nth by lia.
  destruct (Nat.eqb_spec (Z.to_nat i) (Z.to_nat i0)) as [E|E].
  - assert (i = i0) by lia. subst i0. rewrite Z.eqb_refl. cbn [andb].
    rewrite nth_replace_nth by lia.
    destruct (Nat.eqb_spec (Z.to_nat j) (Z.to_nat j0)) as [E'|E'].
    + assert (j = j0) by lia. subst j0. rewrite Z.eqb_refl. reflexivity.
    + destruct (Z.eqb_spec j j0) as [->|_]; [contradiction|reflexivity].
  - destruct (Z.eqb_spec i i0) as [->|_]; [contradiction|reflexivity].
Qed.

Lemma shaped_replace (s : CountMinSketch) (t : list (list Z)) (i j v : Z) :
  shaped s t -> 0 <= i < Py.len t ->
  shaped s (Py.replace_nth t (Z.to_nat i)
              (Py.replace_nth (nth (Z.to_nat i) t []) (Z.to_nat j) v)).
Proof.
  unfold shaped, Py.len. intros [Hl Hr] Hi. rewrite length_replace_nth.
  split; [exact Hl|]. rewrite Forall_forall in *. intros row Hin.
  apply In_replace_nth in Hin as [->|Hin]; [|auto].
  rewrite length_replace_nth. apply Hr. apply nth_In. lia.
Qed.

(** One successful statement of a loop body: rewrite with its equation and
    run the bind. *)
Ltac run_step E := rewrite E; cbn [Py.bind].

(** The two loops on one sketch of positive width with a seed for each
    row, for one item. *)
Section OneSketch.

Variable s : CountMinSketch.
Variable item : string.
Hypothesis Hw : 0 < width s.
Hypothesis Hseeds : Py.len (hash_seeds s) = rows_of s.

Lemma hash_ok (i : Z) :
  _hash s item (nth (Z.to_nat i) (hash_seeds s) 0) = Ok (slot s item i) /\
  0 <= slot s item i < width s.
Proof.
  unfold _hash, Py.mod_, slot.
  destruct (Z.eqb_spec (width s) 0) as [|_]; [lia|].
  split; [reflexivity|]. apply Z.mod_pos_bound. exact Hw.
Qed.

Lemma update_loop_spec :
  forall (rows : list Z) (t : list (list Z)),
    shaped s t ->
    Forall (fun i => 0 <= i < rows_of s) rows ->
    exists t',
      update_loop s item rows t = Ok t' /\ shaped s t' /\
      forall i j, 0 <= i -> 0 <= j ->
        cell t' i j = cell t i j +
          (if j =? slot s item i then Z.of_nat (count_occ Z.eq_dec rows i) else 0).
Proof.
  induction rows as [|i0 rows IH]; intros t Hsh Hrows.
  - exists t. split; [reflexivity|]. split; [exact Hsh|].
    intros i j _ _. cbn. destruct (j =? slot s item i); lia.
  - inversion Hrows as [|? ? Hi0 Hrows']; subst.
    destruct (hash_ok i0) as [Hh Hslot].
    destruct Hsh as [Hlen Hrow].
    assert (Hrow0 : Py.len (nth (Z.to_nat i0) t []) = width s).
    { rewrite Forall_forall in Hrow. apply Hrow. apply nth_In. unfold Py.len in Hlen. lia. }
    assert (Hi0' : 0 <= i0 < Py.len t) by lia.
    cbn [update_loop].
    run_step (getitem_ok (hash_seeds s) i0 0 ltac:(lia)). run_step Hh.
    run_step (getitem_ok t i0 [] Hi0').
    run_step (getitem_ok (nth (Z.to_nat i0) t []) (slot s item i0) 0 ltac:(lia)).
    run_step (setitem_ok (nth (Z.to_nat i0) t []) (slot s item i0)
                (nth (Z.to_nat (slot s item i0)) (nth (Z.to_nat i0) t []) 0 + 1)
                ltac:(lia)).
    run_step (setitem_ok t i0
                (Py.replace_nth (nth (Z.to_nat i0) t []) (Z.to_nat (slot s item i0))
                   (nth (Z.to_nat (slot s item i0)) (nth (Z.to_nat i0) t []) 0 + 1))
                Hi0').
    pose proof (shaped_replace s t i0 (slot s item i0)
                  (nth (Z.to_nat (slot s item i0)) (nth (Z.to_nat i0) t []) 0 + 1)
                  (conj Hlen Hrow) Hi0') as Hsh1.
    destruct (IH _ Hsh1 Hrows') as (t' & Ht' & Hsh' & Hcell).
    exists t'. split; [exact Ht'|]. split; [exact Hsh'|].
    intros i j Hi Hj. rewrite (Hcell i j Hi Hj).
    rewrite cell_replace by lia.
    cbn [count_occ].
    destruct (Z.eq_dec i0 i) as [->|Hne].
    + rewrite Z.eqb_refl. cbn [andb]. fold (cell t i (slot s item i)).
      destruct (Z.eqb_spec j (slot s item i)) as [->|_]; lia.
    + destruct (Z.eqb_spec i i0) as [->|_]; [contradiction|]. cbn [andb]. reflexivity.
Qed.

Lemma estimate_loop_spec :
  shaped s (table s) ->
  forall (rows : list Z) (acc : list Z),
    Forall (fun i => 0 <= i < rows_of s) rows ->
    estimate_loop s item rows acc = Ok (acc ++ map (counter s item) rows).
Proof.
  intros (Hlen & Hrow). induction rows as [|i0 rows IH]; intros acc Hrows.
  - cbn. rewrite app_nil_r. reflexivity.
  - inversion Hrows as [|? ? Hi0 Hrows']; subst.
    destruct (hash_ok i0) as [Hh Hslot].
    assert (Hrow0 : Py.len (nth (Z.to_nat i0) (table s) []) = width s).
    { rewrite Forall_forall in Hrow. apply Hrow. apply nth_In. unfold Py.len in Hlen. lia. }
    cbn [estimate_loop].
    run_step (getitem_ok (hash_seeds s) i0 0 ltac:(lia)). run_step Hh.
    run_step (getitem_ok (table s) i0 [] ltac:(lia)).
    run_step (getitem_ok (nth (Z.to_nat i0) (table s) []) (slot s item i0) 0 ltac:(lia)).
    rewrite IH by exact Hrows'. rewrite <- app_assoc. reflexivity.
Qed.

End OneSketch.

Lemma Forall_range (n : Z) : Forall (fun i => 0 <= i < Z.max 0 n) (Py.range n).
Proof. apply Forall_forall. intros i Hi. apply In_range in Hi. lia. Qed.

(** [update] on a well-shaped sketch returns, keeps the shape, and adds one
    to exactly the counter that each row selects for the item. *)
Lemma update_ok (s : CountMinSketch) (item : string) :
  wf s ->
  exists s',
    update s item = Ok s' /\ wf s' /\
    width s' = width s /\ depth s' = depth s /\ hash_seeds s' = hash_seeds s /\
    forall i j, 0 <= i < depth s -> 0 <= j ->
      cell (table s') i j = cell (table s) i j + (if j =? slot s item i then 1 else 0).
Proof.
  intros (Hw & Hseeds & Hsh).
  destruct (update_loop_spec s item Hw Hseeds (Py.range (depth s)) (table s) Hsh
              (Forall_range _)) as (t' & Ht' & Hsh' & Hcell).
  exists (set_table s t'). unfold update. rewrite Ht'. cbn [Py.bind].
  split; [reflexivity|]. split; [exact (conj Hw (conj Hseeds Hsh'))|].
  repeat split. intros i j Hi Hj. cbn [set_table table].
  rewrite Hcell by lia. rewrite count_occ_range.
  destruct (Z.leb_spec 0 i); [|lia]. destruct (Z.ltb_spec i (depth s)); [|lia].
  reflexivity.
Qed.

(** [estimate] on a well-shaped sketch is [min] of the counters that the
    rows select for the item. *)
Lemma estimate_eq (s : CountMinSketch) (item : string) :
  wf s -> estimate s item = Py.min (map (counter s item) (Py.range (depth s))).
Proof.
  intros (Hw & Hseeds & Hsh). unfold estimate.
  rewrite (estimate_loop_spec s item Hw Hseeds Hsh _ [] (Forall_range _)). reflexivity.
Qed.

Lemma fold_min_le (l : list Z) (x : Z) : fold_left Z.min l x <= x.
Proof.
  revert x. induction l as [|y l IH]; intros x; cbn; [lia|].
  specialize (IH (Z.min x y)). lia.
Qed.

Lemma fold_min_In (l : list Z) (x y : Z) : In y l -> fold_left Z.min l x <= y.
Proof.
  revert x. induction l as [|z l IH]; intros x; cbn; [tauto|].
  intros [->|H]; [|auto]. pose proof (fold_min_le l (Z.min x y)). lia.
Qed.

Lemma fold_min_ge (l : list Z) (x b : Z) :
  b <= x -> (forall y, In y l -> b <= y) -> b <= fold_left Z.min l x.
Proof.
  revert x. induction l as [|z l IH]; intros x Hx Hl; cbn; [exact Hx|].
  apply IH; [|intros y Hy; apply Hl; right; exact Hy].
  specialize (Hl z (or_introl eq_refl)). lia.
Qed.

Lemma min_ge (l : list Z) (b m : Z) :
  Py.min l = Ok m -> (forall y, In y l -> b <= y) -> b <= m.
Proof.
  destruct l as [|x l]; [discriminate|]. intros [= <-] Hl.
  apply fold_min_ge; [apply Hl; left; reflexivity|].
  intros y Hy. apply Hl. right. exact Hy.
Qed.

Lemma min_In_le (l : list Z) (m y : Z) : Py.min l = Ok m -> In y l -> m <= y.
Proof.
  destruct l as [|x l]; [discriminate|]. intros [= <-] [->|H].
  - apply fold_min_le.
  - apply fold_min_In. exact H.
Qed.

Lemma min_nonempty (l : list Z) : l <> [] -> exists m, Py.min l = Ok m.
Proof. destruct l as [|x l]; [congruence|]. intros _. eexists. reflexivity. Qed.

(** After a sequence of updates of a well-shaped sketch, each counter that
    a row selects for [w] has grown by at least the number of times [w]
    was passed. *)
Lemma update_seq_counters (items : list string) (w : string) :
  forall s, wf s ->
  exists s',
    update_seq s items = Ok s' /\ wf s' /\
    width s' = width s /\ depth s' = depth s /\ hash_seeds s' = hash_seeds s /\
    forall i, 0 <= i < depth s ->
      counter s w i + true_count items w <= counter s' w i.
Proof.
  unfold true_count. induction items as [|x items IH]; intros s Hwf.
  - exists s. split; [reflexivity|]. split; [exact Hwf|]. repeat split.
    intros i _. cbn. lia.
  - destruct (update_ok s x Hwf) as (s1 & Hu & Hwf1 & Hw1 & Hd1 & Hs1 & Hcell).
    destruct (IH s1 Hwf1) as (s' & Hu' & Hwf' & Hw' & Hd' & Hs' & Hcnt).
    exists s'. cbn [update_seq]. rewrite Hu. cbn [Py.bind].
    split; [exact Hu'|]. split; [exact Hwf'|].
    split; [congruence|]. split; [congruence|]. split; [congruence|].
    intros i Hi. specialize (Hcnt i ltac:(lia)).
    assert (Hslot : slot s1 w i = slot s w i) by (unfold slot; rewrite Hs1, Hw1; reflexivity).
    assert (Hslotx : slot s1 x i = slot s x i) by (unfold slot; rewrite Hs1, Hw1; reflexivity).
    assert (Hpos : 0 <= slot s w i).
    { destruct Hwf as (Hw & _). unfold slot. apply Z.mod_pos_bound. exact Hw. }
    unfold counter in *. rewrite Hslot in Hcnt.
    rewrite (Hcell i (slot s w i) Hi Hpos) in Hcnt.
    cbn [count_occ]. destruct (string_dec x w) as [->|Hne].
    + rewrite Z.eqb_refl in Hcnt. lia.
    + destruct (slot s w i =? slot s x i); lia.
Qed.

(** [estimate] is at least the true count, on a well-shaped sketch with at
    least one row. *)
Lemma estimate_ge_true_count (s : CountMinSketch) (items : list string) (w : string) :
  wf s -> 0 < depth s ->
  (forall i, 0 <= i < depth s -> 0 <= counter s w i) ->
  exists s' e,
    update_seq s items = Ok s' /\
    estimate s' w = Ok e /\
    Py.min (map (counter s' w) (Py.range (depth s'))) = Ok e /\
    true_count items w <= e.
Proof.
  intros Hwf Hd H0.
  destruct (update_seq_counters items w s Hwf) as (s' & Hu & Hwf' & Hw' & Hd' & Hs' & Hcnt).
  destruct (min_nonempty (map (counter s' w) (Py.range (depth s')))) as [e He].
  { intros E. apply (f_equal (@List.length Z)) in E.
    rewrite length_map in E. pose proof (len_range (depth s')) as Hl.
    unfold Py.len in Hl. cbn in E. lia. }
  exists s', e. split; [exact Hu|]. rewrite estimate_eq by exact Hwf'.
  split; [exact He|]. split; [exact He|].
  apply (min_ge _ _ _ He). intros y Hy. apply in_map_iff in Hy as (i & <- & Hi).
  apply In_range in Hi. specialize (Hcnt i ltac:(lia)). specialize (H0 i ltac:(lia)). lia.
Qed.

(** A sketch without rows: [update] changes nothing and [estimate] takes
    [min] of the empty list. *)
Lemma set_table_same (s : CountMinSketch) : set_table s (table s) = s.
Proof. destruct s. reflexivity. Qed.

Lemma range_nonpos (n : Z) : n <= 0 -> Py.range n = [].
Proof. intros Hn. unfold Py.range. replace (Z.to_nat n) with 0%nat by lia. reflexivity. Qed.

Lemma update_no_rows (s : CountMinSketch) (item : string) :
  depth s <= 0 -> update s item = Ok s.
Proof.
  intros Hd. unfold update. rewrite range_nonpos by exact Hd. cbn.
  rewrite set_table_same. reflexivity.
Qed.

Lemma update_seq_no_rows (s : CountMinSketch) (items : list string) :
  depth s <= 0 -> update_seq s items = Ok s.
Proof.
  intros Hd. induction items as [|x items IH]; [reflexivity|].
  cbn [update_seq]. rewrite update_no_rows by exact Hd. exact IH.
Qed.

Lemma estimate_no_rows (s : CountMinSketch) (item : string) :
  depth s <= 0 -> estimate s item = Raise Py.ValueError.
Proof. intros Hd. unfold estimate. rewrite range_nonpos by exact Hd. reflexivity. Qed.

(** When the draw is 0.0 the sketch has ten rows and behaves as a
    Count-Min sketch: a fresh one estimates 0, and after any updates the
    estimate is the minimum of the selected counters and at least the true
    count. *)
Lemma zero_draw_estimate_fresh (rnd : draws) (w : string) :
  valid_draws rnd -> random_random rnd = r_zero ->
  exists s, new_sketch rnd = Ok s /\ estimate s w = Ok 0.
Proof.
  intros Hv Hz. destruct (new_sketch_ok rnd Hv) as (s & Hs & Hwf & _ & H10 & _ & Hc).
  specialize (H10 Hz). exists s. split; [exact Hs|].
  rewrite estimate_eq by exact Hwf. rewrite H10.
  assert (E : forall rows, map (counter s w) rows = repeat 0 (List.length rows)).
  { induction rows as [|i rows IH]; [reflexivity|].
    cbn [map List.length repeat]. rewrite IH. unfold counter. rewrite Hc. reflexivity. }
  rewrite E. reflexivity.
Qed.

Lemma zero_draw_estimate_ge_true_count (rnd : draws) (items : list string) (w : string) :
  valid_draws rnd -> random_random rnd = r_zero ->
  exists s s' e,
    new_sketch rnd = Ok s /\ update_seq s items = Ok s' /\
    estimate s' w = Ok e /\
    Py.min (map (counter s' w) (Py.range (depth s'))) = Ok e /\
    true_count items w <= e.
Proof.
  intros Hv Hz. destruct (new_sketch_ok rnd Hv) as (s & Hs & Hwf & _ & H10 & _ & Hc).
  specialize (H10 Hz).
  destruct (estimate_ge_true_count s items w Hwf) as (s' & e & H); [lia| |].
  - intros i _. unfold counter. rewrite Hc. lia.
  - exists s, s', e. split; [exact Hs|exact H].
Qed.

(** ** The claims on the sketch *)

(** Claim C1 does not hold of the code.  C1 says that after any sequence
    of [update] calls [estimate(w)] returns the minimum of the selected
    counters, and that this is at least the number of times [w] was
    passed.  For every draw of [random.random()] other than 0.0 the
    constructor gives the sketch no row, the updates change nothing, and
    [estimate] raises [ValueError] from [min] of an empty list, whatever
    was passed to [update]. *)
Theorem estimate_raises_after_updates (rnd : draws) (items : list string) (w : string) :
  valid_draws rnd -> random_random rnd <> r_zero ->
  (cms <- new_sketch rnd ;; cms <- update_seq cms items ;; estimate cms w)
  = Raise Py.ValueError.
Proof.
  intros Hv Hnz. destruct (new_sketch_ok rnd Hv) as (s & Hs & _ & _ & _ & Hd & _).
  specialize (Hd Hnz). rewrite Hs. cbn [Py.bind].
  rewrite update_seq_no_rows by exact Hd. cbn [Py.bind].
  apply estimate_no_rows. exact Hd.
Qed.

Lemma estimate_raises_after_updates_witness :
  valid_draws draws_half /\ random_random draws_half <> r_zero /\
  (cms <- new_sketch draws_half ;; cms <- update_seq cms ["fed"; "fed"] ;;
   estimate cms "fed") = Raise Py.ValueError.
Proof.
  split; [reflexivity|]. split; [discriminate|].
  apply (estimate_raises_after_updates draws_half ["fed"; "fed"] "fed");
    [reflexivity|discriminate].
Defined.

(** Claim C6 does not hold of the code.  C6 says that [estimate(w)] on a
    sketch that was never updated returns 0 and does not raise.  For every
    draw of [random.random()] other than 0.0 the new sketch has no row and
    [estimate] raises [ValueError]. *)
Theorem estimate_raises_on_new_sketch (rnd : draws) (w : string) :
  valid_draws rnd -> random_random rnd <> r_zero ->
  (cms <- new_sketch rnd ;; estimate cms w) = Raise Py.ValueError.
Proof.
  intros Hv Hnz. destruct (new_sketch_ok rnd Hv) as (s & Hs & _ & _ & _ & Hd & _).
  rewrite Hs. cbn [Py.bind]. apply estimate_no_rows. exact (Hd Hnz).
Qed.

Lemma estimate_raises_on_new_sketch_witness :
  valid_draws draws_half /\ random_random draws_half <> r_zero /\
  (cms <- new_sketch draws_half ;; estimate cms "fed") = Raise Py.ValueError.
Proof.
  split; [reflexivity|]. split; [discriminate|].
  apply (estimate_raises_on_new_sketch draws_half "fed"); [reflexivity|discriminate].
Defined.

(** Claim C2, as amended.  The [or] of the depth expression is reached
    only when [random.random()] returns 0.0: then the depth is 10 and the
    sketch has ten rows and ten seeds.  For every other draw the depth is
    the truncation of a negative float, so it is at most 0, and the sketch
    has no row and no seed. *)
Theorem init_depth (eps dl : PyFloat.float) (rnd : draws) (s : CountMinSketch) :
  valid_draws rnd ->
  __init__ eps dl rnd = Ok s ->
  (random_random rnd = r_zero ->
     depth s = 10 /\ List.length (table s) = 10%nat /\
     List.length (hash_seeds s) = 10%nat) /\
  (random_random rnd <> r_zero ->
     depth s <= 0 /\ table s = [] /\ hash_seeds s = []).
Proof.
  intros Hv. unfold __init__.
  destruct (PyFloat.truediv _ eps) as [q|]; [|discriminate]. cbn [Py.bind].
  destruct (PyFloat.to_int q) as [wd|]; [|discriminate]. cbn [Py.bind].
  destruct (depth_expr (random_random rnd)) as [d|] eqn:Hd; [|discriminate].
  cbn [Py.bind]. intros [= <-]. cbn [depth table hash_seeds]. split.
  - intros Hz. rewrite Hz, depth_expr_zero in Hd. injection Hd as <-.
    split; [reflexivity|]. rewrite !length_map, length_seq. split; reflexivity.
  - intros Hnz. destruct (depth_expr_nonzero _ Hv Hnz) as (d' & Hd' & Hle).
    rewrite Hd in Hd'. injection Hd' as <-.
    split; [exact Hle|]. rewrite range_nonpos by exact Hle.
    replace (Z.to_nat d) with 0%nat by lia. split; reflexivity.
Qed.

Lemma init_depth_witness :
  valid_draws draws_half /\
  __init__ PyFloat.lit_0_001 PyFloat.lit_0_01 draws_half
    = Ok {| epsilon := PyFloat.lit_0_001; delta := PyFloat.lit_0_01;
            width := 2000; depth := -50; table := []; hash_seeds := [] |} /\
  (random_random draws_half <> r_zero ->
   depth {| epsilon := PyFloat.lit_0_001; delta := PyFloat.lit_0_01;
            width := 2000; depth := -50; table := []; hash_seeds := [] |} <= 0 /\
   @nil (list Z) = [] /\ @nil Z = []).
Proof.
  split; [reflexivity|]. split; [reflexivity|].
  apply (init_depth PyFloat.lit_0_001 PyFloat.lit_0_01 draws_half
           {| epsilon := PyFloat.lit_0_001; delta := PyFloat.lit_0_01;
              width := 2000; depth := -50; table := []; hash_seeds := [] |});
    reflexivity.
Defined.

(** Claim C2 as stated fails: with the draw 0.5 the constructor returns a
    sketch of depth -50, without rows, and not of depth 10. *)
Lemma init_depth_minus_50 :
  new_sketch draws_half
  = Ok {| epsilon := PyFloat.lit_0_001; delta := PyFloat.lit_0_01;
          width := 2000; depth := -50; table := []; hash_seeds := [] |}
  /\ ~ (forall s, new_sketch draws_half = Ok s -> depth s = 10).
Proof.
  split; [reflexivity|].
  intros H. specialize (H _ eq_refl). discriminate H.
Qed.

(** ** The claims on [get_trending_words] *)

Lemma merge_window_nil (window : list CountMinSketch) :
  merge_window window [] = Ok [].
Proof.
  induction window as [|cms window IH]; [reflexivity|].
  cbn [merge_window Py.keys map merge_keys Py.bind]. exact IH.
Qed.

(** Claim C4.  Whatever the window holds, [get_trending_words] returns the
    empty list: [combined_counts] starts empty and the inner loop runs over
    the keys it already has, so no word ever enters it and [estimate] is
    never called. *)
Theorem get_trending_words_always_empty (window : list CountMinSketch) :
  get_trending_words window = Ok [].
Proof.
  unfold get_trending_words. rewrite merge_window_nil. reflexivity.
Qed.

(** Claim C5.  When the window holds no snapshot, as when the module is
    loaded, [get_trending_words] returns an empty result and raises
    nothing; so does [get_top_k_words] on the ranking of that state. *)
Theorem top_k_of_empty_window :
  window initial_state = [] /\
  get_trending_words (window initial_state) = Ok [] /\
  get_top_k_words (current_trending initial_state) = Ok [].
Proof. repeat split. Qed.

(** ** [process_text] and the window *)

Lemma update_words_eq (words : list string) :
  forall cms, update_words cms words = update_seq cms (filter kept words).
Proof.
  induction words as [|w words IH]; intros cms; [reflexivity|].
  cbn [update_words filter]. destruct (kept w).
  - cbn [update_seq]. destruct (update cms w) as [cms'|e]; [|reflexivity].
    cbn [Py.bind]. apply IH.
  - apply IH.
Qed.

(** With a draw of the unit interval, building the snapshot of a document
    raises nothing. *)
Lemma snapshot_ok (text : string) (rnd : draws) :
  valid_draws rnd -> exists cms, snapshot text rnd = Ok cms /\ wf cms.
Proof.
  intros Hv. destruct (new_sketch_ok rnd Hv) as (s & Hs & Hwf & _).
  unfold snapshot. rewrite Hs. cbn [Py.bind]. rewrite update_words_eq.
  destruct (update_seq_counters (filter kept (Str.split (clean_text text))) "" s Hwf)
    as (s' & Hu & Hwf' & _).
  exists s'. split; assumption.
Qed.

Lemma process_text_eq (text : string) (rnd : draws) (window : list CountMinSketch) :
  process_text text rnd window = (cms <- snapshot text rnd ;; Ok (push cms window)).
Proof.
  unfold process_text, snapshot, push.
  destruct (new_sketch rnd) as [c|]; [|reflexivity]. cbn [Py.bind].
  destruct (update_words c _) as [c'|]; [|reflexivity]. cbn [Py.bind].
  destruct (WINDOW_SIZE <? Py.len (window ++ [c'])); reflexivity.
Qed.

(** Claim C3 does not hold of the code.  C3 says that [get_trending_words]
    sums, for each word seen in the window, the estimates of all snapshots,
    so that a word of the latest document can be ranked.  Take any document
    and any word [w] it keeps, processed on the empty window with the draw
    0.0, so that the sketch has its ten rows: the snapshot estimates at
    least 1 for [w], and the ranking returned is empty. *)
Theorem get_trending_words_misses_words (text : string) (rnd : draws) (w : string) :
  valid_draws rnd -> random_random rnd = r_zero ->
  In w (tokens text) ->
  exists cms e,
    process_text text rnd [] = Ok [cms] /\
    estimate cms w = Ok e /\ 1 <= e /\
    get_trending_words [cms] = Ok [].
Proof.
  intros Hv Hz Hin.
  destruct (zero_draw_estimate_ge_true_count rnd (tokens text) w Hv Hz)
    as (s & s' & e & Hs & Hu & He & _ & Hcount).
  exists s', e. split; [|split; [exact He|split]].
  - rewrite process_text_eq. unfold snapshot. rewrite Hs. cbn [Py.bind].
    rewrite update_words_eq. fold (tokens text). rewrite Hu. reflexivity.
  - unfold true_count in Hcount.
    apply (count_occ_In string_dec) in Hin. lia.
  - unfold get_trending_words. rewrite merge_window_nil. reflexivity.
Qed.

Lemma get_trending_words_misses_words_witness :
  In "fed" (tokens "Fed raises rates again amid inflation fears") /\
  exists cms e,
    process_text "Fed raises rates again amid inflation fears" draws_zero [] = Ok [cms] /\
    estimate cms "fed" = Ok e /\ 1 <= e /\
    get_trending_words [cms] = Ok [].
Proof.
  assert (Hin : In "fed" (tokens "Fed raises rates again amid inflation fears"))
    by (left; reflexivity).
  split; [exact Hin|].
  apply (get_trending_words_misses_words
           "Fed raises rates again amid inflation fears" draws_zero "fed");
    [reflexivity|reflexivity|exact Hin].
Defined.

Lemma last_n_short {A : Type} (l : list A) :
  (List.length l <= Z.to_nat WINDOW_SIZE)%nat -> last_n l = l.
Proof.
  intros H. unfold last_n.
  replace (List.length l - Z.to_nat WINDOW_SIZE)%nat with 0%nat by lia. reflexivity.
Qed.

Lemma length_last_n {A : Type} (l : list A) :
  List.length (last_n l) = Nat.min (List.length l) (Z.to_nat WINDOW_SIZE).
Proof. unfold last_n. rewrite length_skipn. lia. Qed.

Lemma last_n_app {A : Type} (l l' : list A) :
  last_n (last_n l ++ l') = last_n (l ++ l').
Proof.
  destruct (Nat.le_gt_cases (List.length l) (Z.to_nat WINDOW_SIZE)) as [Hle|Hgt].
  - rewrite (last_n_short l) by exact Hle. reflexivity.
  - unfold last_n at 1 3. rewrite !length_app, length_last_n.
    rewrite Nat.min_r by lia.
    replace (List.length l + List.length l' - Z.to_nat WINDOW_SIZE)%nat
      with ((List.length l - Z.to_nat WINDOW_SIZE) + List.length l')%nat by lia.
    replace (Z.to_nat WINDOW_SIZE + List.length l' - Z.to_nat WINDOW_SIZE)%nat
      with (List.length l')%nat by lia.
    rewrite Nat.add_comm, <- skipn_skipn.
    f_equal. unfold last_n. rewrite skipn_app.
    replace (List.length l - Z.to_nat WINDOW_SIZE - List.length l)%nat with 0%nat by lia.
    reflexivity.
Qed.

(** On a window within the bound, [push] appends and keeps the last
    [WINDOW_SIZE] snapshots. *)
Lemma push_last_n {A : Type} (cms : A) (window : list A) :
  Py.len window <= WINDOW_SIZE -> push cms window = last_n (window ++ [cms]).
Proof.
  unfold push, last_n, Py.len, WINDOW_SIZE. rewrite length_app. cbn [List.length].
  intros Hlen. destruct (Z.ltb_spec 20 (Z.of_nat (List.length window + 1))) as [Hgt|Hle].
  - replace (List.length window + 1 - Z.to_nat 20)%nat with 1%nat by lia.
    destruct (window ++ [cms]); reflexivity.
  - replace (List.length window + 1 - Z.to_nat 20)%nat with 0%nat by lia. reflexivity.
Qed.

Lemma len_last_n_le {A : Type} (l : list A) : Py.len (last_n l) <= WINDOW_SIZE.
Proof. unfold Py.len. rewrite length_last_n. unfold WINDOW_SIZE. lia. Qed.

(** A sequence of [process_text] calls, from a window within the bound:
    every call returns, and the window ends with the last [WINDOW_SIZE]
    of its former snapshots followed by the new ones, in order. *)
Lemma process_all_last_n (docs : list (string * draws)) :
  Forall (fun d => valid_draws (snd d)) docs ->
  forall window, Py.len window <= WINDOW_SIZE ->
  exists sketches,
    Forall2 (fun d cms => snapshot (fst d) (snd d) = Ok cms) docs sketches /\
    process_all docs window = Ok (last_n (window ++ sketches)).
Proof.
  induction 1 as [|[text rnd] docs Hv _ IH]; intros window Hlen.
  - exists []. split; [constructor|]. cbn. rewrite app_nil_r.
    rewrite last_n_short; [reflexivity|]. unfold Py.len, WINDOW_SIZE in *. lia.
  - cbn [snd] in Hv. destruct (snapshot_ok text rnd Hv) as (cms & Hs & _).
    cbn [process_all]. rewrite process_text_eq, Hs. cbn [Py.bind].
    rewrite push_last_n by exact Hlen.
    destruct (IH (last_n (window ++ [cms])) (len_last_n_le _)) as (sketches & Hall & Hrun).
    exists (cms :: sketches). split; [constructor; [exact Hs|exact Hall]|].
    rewrite Hrun, last_n_app, <- app_assoc. reflexivity.
Qed.

(** Claim C8.  From the empty window, any sequence of [process_text] calls
    returns; the window then holds the last [WINDOW_SIZE] snapshots pushed,
    in arrival order; it holds exactly [WINDOW_SIZE] of them once more than
    [WINDOW_SIZE] were pushed; and after each call of the sequence its
    length is at most [WINDOW_SIZE]. *)
Theorem window_keeps_last_pushed (docs : list (string * draws)) :
  Forall (fun d => valid_draws (snd d)) docs ->
  exists sketches,
    Forall2 (fun d cms => snapshot (fst d) (snd d) = Ok cms) docs sketches /\
    process_all docs [] = Ok (last_n sketches) /\
    last_n sketches
      = skipn (List.length sketches - Z.to_nat WINDOW_SIZE) sketches /\
    ((Z.to_nat WINDOW_SIZE < List.length docs)%nat ->
       Py.len (last_n sketches) = WINDOW_SIZE) /\
    (forall k, exists w,
       process_all (firstn k docs) [] = Ok w /\ Py.len w <= WINDOW_SIZE).
Proof.
  intros Hv.
  destruct (process_all_last_n docs Hv []) as (sketches & Hall & Hrun);
    [unfold Py.len, WINDOW_SIZE; cbn; lia|].
  exists sketches. split; [exact Hall|]. split; [exact Hrun|]. split; [reflexivity|].
  split.
  - intros Hlen. unfold Py.len. rewrite length_last_n.
    rewrite <- (Forall2_length Hall). unfold WINDOW_SIZE in *. lia.
  - intros k.
    assert (Hvk : Forall (fun d => valid_draws (snd d)) (firstn k docs)).
    { rewrite <- (firstn_skipn k docs) in Hv. apply Forall_app in Hv. exact (proj1 Hv). }
    destruct (process_all_last_n (firstn k docs) Hvk []) as (sk & _ & Hrunk);
      [unfold Py.len, WINDOW_SIZE; cbn; lia|].
    exists (last_n sk). split; [exact Hrunk|apply len_last_n_le].
Qed.

Lemma window_keeps_last_pushed_witness :
  Forall (fun d => valid_draws (snd d))
         (repeat ("Fed raises rates", draws_half) 20 ++ [("Markets react", draws_zero)]) /\
  exists sketches,
    Forall2 (fun d cms => snapshot (fst d) (snd d) = Ok cms)
            (repeat ("Fed raises rates", draws_half) 20 ++ [("Markets react", draws_zero)])
            sketches /\
    process_all (repeat ("Fed raises rates", draws_half) 20 ++ [("Markets react", draws_zero)]) []
      = Ok (last_n sketches) /\
    Py.len (last_n sketches) = WINDOW_SIZE.
Proof.
  assert (Hv : Forall (fun d => valid_draws (snd d))
                 (repeat ("Fed raises rates", draws_half) 20 ++ [("Markets react", draws_zero)]))
    by (repeat constructor).
  split; [exact Hv|].
  destruct (window_keeps_last_pushed _ Hv) as (sketches & Hall & Hrun & _ & Hlen & _).
  exists sketches. split; [exact Hall|]. split; [exact Hrun|].
  apply Hlen. cbn. lia.
Defined.

(** ** The normaliser *)

Lemma split_space (c : ascii) (s : string) :
  Str.is_space c = true -> Str.split (String c s) = Str.split s.
Proof.
  intros Hc. unfold Str.split. cbn [Str.split_go].
  destruct (Str.split_go s) as [w ws]. rewrite Hc. reflexivity.
Qed.

Lemma split_lstrip (s : string) : Str.split (Str.lstrip s) = Str.split s.
Proof.
  induction s as [|c s IH]; [reflexivity|]. cbn [Str.lstrip].
  destruct (Str.is_space c) eqn:Hc; [|reflexivity].
  rewrite IH. symmetry. apply split_space. exact Hc.
Qed.

Lemma split_go_rstrip (s : string) : Str.split_go (Str.rstrip s) = Str.split_go s.
Proof.
  induction s as [|c s IH]; [reflexivity|]. cbn [Str.rstrip].
  destruct (Str.rstrip s) as [|c' r] eqn:Hr.
  - cbn [Str.split_go] in IH.
    destruct (Str.is_space c) eqn:Hc; cbn [Str.split_go]; rewrite <- IH, ?Hc; reflexivity.
  - change (Str.split_go (String c (String c' r)))
      with (let (w, ws) := Str.split_go (String c' r) in
            if Str.is_space c then (EmptyString, Str.cons_nonempty w ws)
            else (String c w, ws)).
    rewrite IH. reflexivity.
Qed.

(** [strip] does not change what [split] returns. *)
Lemma split_strip (s : string) : Str.split (Str.strip s) = Str.split s.
Proof.
  unfold Str.strip. rewrite <- (split_lstrip s).
  unfold Str.split. rewrite split_go_rstrip. reflexivity.
Qed.

Lemma re_sub_from_true (s : string) :
  re_sub_from true s = re_sub_from false (drop_run s).
Proof.
  induction s as [|c s IH]; [reflexivity|].
  cbn [re_sub_from drop_run]. destruct (in_class c) eqn:Hc.
  - cbn [re_sub_from]. rewrite Hc. reflexivity.
  - exact IH.
Qed.

Lemma length_drop_run (s : string) : (String.length (drop_run s) <= String.length s)%nat.
Proof.
  induction s as [|c s IH]; [reflexivity|].
  cbn [drop_run]. destruct (in_class c); cbn [String.length]; lia.
Qed.

Lemma spec_replace_runs_fuel_eq (fuel : nat) :
  forall s, (String.length s <= fuel)%nat ->
  spec_replace_runs_fuel fuel s = re_sub s.
Proof.
  unfold re_sub. induction fuel as [|fuel IH]; intros [|c s] Hlen; cbn [String.length] in Hlen;
    try reflexivity; try lia.
  cbn [spec_replace_runs_fuel re_sub_from]. destruct (in_class c).
  - rewrite IH by lia. reflexivity.
  - rewrite IH by (pose proof (length_drop_run s); lia).
    rewrite re_sub_from_true. reflexivity.
Qed.

Lemma kept_spec (w : string) : kept w = negb (spec_dropped w).
Proof.
  unfold kept, spec_dropped. destruct (in_STOPWORDS w); cbn [negb andb orb].
  - rewrite orb_true_r. reflexivity.
  - rewrite orb_false_r.
    destruct (Z.ltb_spec 2 (Z.of_nat (String.length w)));
      destruct (Nat.leb_spec (String.length w) 2); cbn [negb]; try reflexivity; lia.
Qed.

(** The words that the code keeps are those of the specification's
    normaliser. *)
Lemma tokens_spec (text : string) : tokens text = spec_normalize text.
Proof.
  unfold tokens, spec_normalize, clean_text, spec_replace_runs.
  rewrite split_strip, spec_replace_runs_fuel_eq by reflexivity.
  apply filter_ext. exact kept_spec.
Qed.

Lemma tokens_kept (text w : string) :
  In w (tokens text) ->
  (2 < String.length w)%nat /\ ~ In w STOPWORDS.
Proof.
  unfold tokens. intros Hin. apply filter_In in Hin as [_ Hk].
  unfold kept in Hk. apply andb_prop in Hk as [Hs Hl].
  apply Z.ltb_lt in Hl. split; [lia|].
  intros Hw. apply negb_true_iff in Hs. unfold in_STOPWORDS in Hs.
  assert (existsb (String.eqb w) STOPWORDS = true).
  { apply existsb_exists. exists w. split; [exact Hw|apply String.eqb_refl]. }
  congruence.
Qed.

Lemma len_push {A : Type} (cms : A) (window : list A) :
  Py.len (push cms window)
  = if Py.len window <? WINDOW_SIZE then Py.len window + 1 else Py.len window.
Proof.
  unfold push, Py.len, WINDOW_SIZE. rewrite length_app. cbn [List.length].
  destruct (Z.ltb_spec 20 (Z.of_nat (List.length window + 1)));
    destruct (Z.ltb_spec (Z.of_nat (List.length window)) 20); try lia.
  - destruct window as [|c window]; cbn [List.length app tl] in *; [lia|].
    rewrite length_app. cbn [List.length]. lia.
  - rewrite length_app. cbn [List.length]. lia.
Qed.

(** Claim C10.  The words that the code keeps are those of the
    normaliser of the specification; the empty text has none; every kept
    word is longer than 2 and is not a stopword.  With a draw of the unit
    interval [process_text] returns on every text and pushes the snapshot
    of the document.  A document without kept words is pushed like any
    other, its snapshot being the sketch just constructed, not updated:
    the window grows by one when it held fewer than [WINDOW_SIZE]
    snapshots, and on a full window the oldest snapshot leaves, which
    keeps the length at [WINDOW_SIZE]. *)
Theorem normalize_and_push (text : string) (rnd : draws) (window : list CountMinSketch) :
  valid_draws rnd ->
  tokens text = spec_normalize text /\
  tokens "" = [] /\
  (forall w, In w (tokens text) -> (2 < String.length w)%nat /\ ~ In w STOPWORDS) /\
  (exists cms,
     snapshot text rnd = Ok cms /\
     process_text text rnd window = Ok (push cms window)) /\
  (tokens text = [] ->
   exists cms,
     new_sketch rnd = Ok cms /\
     process_text text rnd window = Ok (push cms window) /\
     (Py.len window < WINDOW_SIZE -> Py.len (push cms window) = Py.len window + 1) /\
     (WINDOW_SIZE <= Py.len window -> Py.len (push cms window) = Py.len window)).
Proof.
  intros Hv. split; [apply tokens_spec|]. split; [reflexivity|].
  split; [apply tokens_kept|]. split.
  { destruct (snapshot_ok text rnd Hv) as (cms & Hs & _). exists cms.
    split; [exact Hs|]. rewrite process_text_eq, Hs. reflexivity. }
  intros Hnone. destruct (new_sketch_ok rnd Hv) as (cms & Hs & _).
  exists cms. split; [exact Hs|]. split.
  - rewrite process_text_eq. unfold snapshot. rewrite Hs. cbn [Py.bind].
    rewrite update_words_eq. fold (tokens text). rewrite Hnone. reflexivity.
  - rewrite len_push. split; intros Hlen.
    + destruct (Z.ltb_spec (Py.len window) WINDOW_SIZE); [reflexivity|lia].
    + destruct (Z.ltb_spec (Py.len window) WINDOW_SIZE); [lia|reflexivity].
Qed.

Lemma normalize_and_push_witness :
  valid_draws draws_half /\
  tokens "The and of; it's on!" = [] /\
  exists cms,
    new_sketch draws_half = Ok cms /\
    process_text "The and of; it's on!" draws_half [] = Ok (push cms []) /\
    Py.len (push cms []) = 1.
Proof.
  split; [reflexivity|]. split; [reflexivity|].
  destruct (normalize_and_push "The and of; it's on!" draws_half [])
    as (_ & _ & _ & _ & H); [reflexivity|].
  destruct (H eq_refl) as (cms & Hs & Hp & Hlt & _).
  exists cms. split; [exact Hs|]. split; [exact Hp|].
  apply Hlt. reflexivity.
Defined.

(** On a window that already holds [WINDOW_SIZE] snapshots a document
    made of stopwords is pushed as well; the oldest snapshot leaves and
    the window keeps [WINDOW_SIZE] snapshots. *)
Lemma stopword_document_on_full_window :
  tokens "The and of; it's on!" = [] /\
  (w20 <- process_all (repeat ("Fed raises rates", draws_half) 20) [] ;;
   w21 <- process_text "The and of; it's on!" draws_half w20 ;;
   Ok (Py.len w20, Py.len w21)) = Ok (20, 20).
Proof. split; vm_compute; reflexivity. Qed.

(** ** The main loop *)

(** A text of this file holds code points below 256 only: standard output
    encodes it, and [print] returns. *)
Lemma print_ok (s : string) : print s = Ok tt.
Proof.
  unfold print. replace (encodable s) with true; [reflexivity|].
  induction s as [|c s IH]; [reflexivity|]. cbn [encodable]. rewrite <- IH.
  destruct c as [[] [] [] [] [] [] [] []]; reflexivity.
Qed.

Lemma loop_body_ok (content : string) (rnd : draws) (st : state) :
  valid_draws rnd ->
  exists st',
    loop_body content rnd st = Ok st' /\
    forall rnd' st0,
      valid_draws rnd' ->
      all_words_buffer st0 = all_words_buffer st ->
      current_trending st0 = current_trending st ->
      exists st0',
        loop_body content rnd' st0 = Ok st0' /\
        all_words_buffer st0' = all_words_buffer st' /\
        current_trending st0' = current_trending st'.
Proof.
  intros Hv. destruct content as [|c content].
  - exists st. split; [reflexivity|]. intros rnd' st0 _ Hb Hc.
    exists st0. split; [reflexivity|]. split; assumption.
  - destruct (snapshot_ok (String c content) rnd Hv) as (cms & Hs & _).
    unfold loop_body. rewrite print_ok, process_text_eq, Hs. cbn [Py.bind].
    eexists. split; [reflexivity|]. intros rnd' st0 Hv' Hb _.
    destruct (snapshot_ok (String c content) rnd' Hv') as (cms' & Hs' & _).
    rewrite process_text_eq, Hs'. cbn [Py.bind].
    eexists. split; [reflexivity|]. cbn [all_words_buffer current_trending].
    rewrite Hb. split; reflexivity.
Qed.

Lemma run_independent_of_draws (feed1 : list (string * draws)) :
  forall (feed2 : list (string * draws)) (st1 st2 : state),
    map fst feed1 = map fst feed2 ->
    Forall (fun d => valid_draws (snd d)) feed1 ->
    Forall (fun d => valid_draws (snd d)) feed2 ->
    all_words_buffer st1 = all_words_buffer st2 ->
    current_trending st1 = current_trending st2 ->
    exists st1' st2',
      run_background_algorithm feed1 st1 = Ok st1' /\
      run_background_algorithm feed2 st2 = Ok st2' /\
      all_words_buffer st1' = all_words_buffer st2' /\
      current_trending st1' = current_trending st2'.
Proof.
  induction feed1 as [|[content rnd1] feed1 IH]; intros [|[content' rnd2] feed2] st1 st2 Hm Hv1 Hv2 Hb Hc;
    try discriminate Hm.
  - exists st1, st2. repeat split; assumption.
  - cbn [map fst] in Hm. injection Hm as <- Hm.
    inversion Hv1 as [|? ? Hr1 Hv1']; subst. inversion Hv2 as [|? ? Hr2 Hv2']; subst.
    cbn [snd] in Hr1, Hr2.
    destruct (loop_body_ok content rnd1 st1 Hr1) as (st1a & Hl1 & Hrel).
    destruct (Hrel rnd2 st2 Hr2 (eq_sym Hb) (eq_sym Hc)) as (st2a & Hl2 & Hb' & Hc').
    destruct (IH feed2 st1a st2a Hm Hv1' Hv2' (eq_sym Hb') (eq_sym Hc'))
      as (st1' & st2' & Hr1' & Hr2' & Hbf & Hcf).
    exists st1', st2'. cbn [run_background_algorithm].
    rewrite Hl1, Hl2. cbn [Py.bind]. repeat split; assumption.
Qed.

(** An iteration whose message is printed pushes the sketch and the words
    of the text, and publishes the ranking of the new buffer. *)
Lemma loop_body_printed (c : ascii) (content : string) (rnd : draws) (st : state) :
  printable (String c content) -> valid_draws rnd ->
  exists cms,
    snapshot (String c content) rnd = Ok cms /\
    loop_body (String c content) rnd st
    = Ok {| window := push cms (window st);
            all_words_buffer := push (tokens (String c content)) (all_words_buffer st);
            current_trending :=
              Py.dict_of_items
                (firstn (Z.to_nat TOP_K)
                   (Py.sorted_desc
                      (count_buffer
                         (push (tokens (String c content)) (all_words_buffer st))))) |}.
Proof.
  unfold printable. intros Hp Hv.
  destruct (snapshot_ok (String c content) rnd Hv) as (cms & Hs & _).
  exists cms. split; [exact Hs|].
  unfold loop_body. rewrite Hp, process_text_eq, Hs. reflexivity.
Qed.

(** An iteration whose message cannot be printed raises what [print]
    raises, and returns no state: nothing was pushed. *)
Lemma loop_body_print_raises (c : ascii) (content : string) (rnd : draws) (st : state)
    (e : Py.exn) :
  print (substring 0 250 (String c content)) = Raise e ->
  loop_body (String c content) rnd st = Raise e.
Proof. intros Hp. unfold loop_body. rewrite Hp. reflexivity. Qed.

(** The main loop keeps two windows in step: the sketches pushed by
    [process_text] and the word lists of [all_words_buffer].  Each holds
    the last [WINDOW_SIZE] items pushed, in arrival order. *)
Lemma loop_body_push (c : ascii) (content : string) (rnd : draws) (st : state) :
  valid_draws rnd ->
  exists cms,
    snapshot (String c content) rnd = Ok cms /\
    loop_body (String c content) rnd st
    = Ok {| window := push cms (window st);
            all_words_buffer := push (tokens (String c content)) (all_words_buffer st);
            current_trending :=
              Py.dict_of_items
                (firstn (Z.to_nat TOP_K)
                   (Py.sorted_desc
                      (count_buffer
                         (push (tokens (String c content)) (all_words_buffer st))))) |}.
Proof.
  intros Hv. apply loop_body_printed; [apply print_ok|exact Hv].
Qed.

Lemma main_loop_windows (feed : list (string * draws)) :
  Forall (fun d => valid_draws (snd d)) feed ->
  Forall (fun d => printable (fst d)) (documents feed) ->
  forall st,
    Py.len (window st) <= WINDOW_SIZE ->
    Py.len (all_words_buffer st) <= WINDOW_SIZE ->
    exists st' sketches,
      run_background_algorithm feed st = Ok st' /\
      Forall2 (fun d cms => snapshot (fst d) (snd d) = Ok cms) (documents feed) sketches /\
      window st' = last_n (window st ++ sketches) /\
      all_words_buffer st'
      = last_n (all_words_buffer st ++ map (fun d => tokens (fst d)) (documents feed)).
Proof.
  induction 1 as [|[content rnd] feed Hv _ IH]; intros Hp st Hw Hb.
  - exists st, []. split; [reflexivity|]. split; [constructor|].
    cbn [documents filter map]. rewrite !app_nil_r.
    rewrite !last_n_short; [split; reflexivity| |]; unfold Py.len, WINDOW_SIZE in *; lia.
  - cbn [snd] in Hv. destruct content as [|c content].
    + change (documents ((EmptyString, rnd) :: feed)) with (documents feed) in Hp.
      destruct (IH Hp st Hw Hb) as (st' & sketches & Hrun & Hall & Hwin & Hbuf).
      exists st', sketches. split; [exact Hrun|]. split; [exact Hall|].
      split; [exact Hwin|exact Hbuf].
    + change (documents ((String c content, rnd) :: feed))
        with ((String c content, rnd) :: documents feed) in Hp.
      inversion Hp as [|? ? Hp1 Hp2]; subst. cbn [fst] in Hp1.
      destruct (loop_body_printed c content rnd st Hp1 Hv) as (cms & Hs & Hl).
      cbn [run_background_algorithm]. rewrite Hl. cbn [Py.bind].
      match goal with |- context [run_background_algorithm feed ?s] => set (st1 := s) end.
      destruct (IH Hp2 st1) as (st' & sketches & Hrun & Hall & Hwin & Hbuf).
      { unfold st1. cbn [window]. rewrite push_last_n by exact Hw. apply len_last_n_le. }
      { unfold st1. cbn [all_words_buffer]. rewrite push_last_n by exact Hb.
        unfold Py.len. rewrite length_last_n. unfold WINDOW_SIZE. lia. }
      exists st', (cms :: sketches). split; [exact Hrun|].
      change (documents ((String c content, rnd) :: feed))
        with ((String c content, rnd) :: documents feed).
      split; [constructor; [exact Hs|exact Hall]|].
      rewrite Hwin, Hbuf. unfold st1. cbn [window all_words_buffer map fst].
      rewrite !push_last_n by assumption. rewrite !last_n_app, <- !app_assoc.
      split; reflexivity.
Qed.

(** Claim C7, as amended.  Two runs of the main loop on the same sequence
    of fetched texts, whatever values each draws from [random], both
    return and end with the same ranking [current_trending], hence with
    the same probabilities from [get_top_k_words]: the ranking is computed
    from the words kept in [all_words_buffer] and reads no sketch.  The
    sketches themselves depend on the draws. *)
Theorem ranking_independent_of_draws (feed1 feed2 : list (string * draws)) :
  map fst feed1 = map fst feed2 ->
  Forall (fun d => valid_draws (snd d)) feed1 ->
  Forall (fun d => valid_draws (snd d)) feed2 ->
  exists st1 st2,
    run_background_algorithm feed1 initial_state = Ok st1 /\
    run_background_algorithm feed2 initial_state = Ok st2 /\
    current_trending st1 = current_trending st2 /\
    get_top_k_words (current_trending st1) = get_top_k_words (current_trending st2).
Proof.
  intros Hm Hv1 Hv2.
  destruct (run_independent_of_draws feed1 feed2 initial_state initial_state
              Hm Hv1 Hv2 eq_refl eq_refl) as (st1 & st2 & H1 & H2 & _ & Hc).
  exists st1, st2. split; [exact H1|]. split; [exact H2|]. split; [exact Hc|].
  rewrite Hc. reflexivity.
Qed.

Lemma ranking_independent_of_draws_witness :
  exists st1 st2,
    run_background_algorithm
      [("Fed raises rates again amid inflation fears", draws_half);
       ("Markets react to Fed rate hike", draws_zero)] initial_state = Ok st1 /\
    run_background_algorithm
      [("Fed raises rates again amid inflation fears", draws_zero);
       ("Markets react to Fed rate hike", draws_half)] initial_state = Ok st2 /\
    current_trending st1 = current_trending st2 /\
    get_top_k_words (current_trending st1) = get_top_k_words (current_trending st2).
Proof.
  apply ranking_independent_of_draws; [reflexivity| |]; repeat constructor.
Defined.

(** Claim C7 as stated fails in its last part: the constructor does not
    derive the sketch from the configuration alone.  With the same
    [epsilon] and [delta], the draws 0.0 and 0.5 give sketches of depth 10
    and -50, and two sequences of seeds give different [hash_seeds]. *)
Lemma sketch_construction_depends_on_draws :
  ~ (forall eps dl rnd1 rnd2,
       valid_draws rnd1 -> valid_draws rnd2 ->
       __init__ eps dl rnd1 = __init__ eps dl rnd2).
Proof.
  intros H.
  specialize (H PyFloat.lit_0_001 PyFloat.lit_0_01 draws_zero draws_half eq_refl eq_refl).
  apply (f_equal (fun r => match r with Ok s => depth s | Raise _ => 0 end)) in H.
  vm_compute in H. discriminate H.
Qed.

(** ** The probabilities of [get_top_k_words] *)

Lemma to_Q_neg_exp (M : positive) (E : Z) :
  E < 0 ->
  (PyFloat.to_Q (S754_finite false M E) == Zpos M # Z.to_pos (2 ^ (- E)))%Q.
Proof.
  intros HE. unfold PyFloat.to_Q. cbn [cond_Zopp].
  destruct E as [|p|p]; try lia.
  change (- Zneg p) with (Zpos p).
  assert (Hpow : (Qpower 2 (Zneg p) == / inject_Z (2 ^ Zpos p))%Q).
  { rewrite Zpower_Qpower by lia. reflexivity. }
  rewrite Hpow.
  assert (Hp : 0 < 2 ^ Zpos p) by (apply Z.pow_pos_nonneg; lia).
  destruct (2 ^ Zpos p) as [|pp|pp]; try lia.
  cbn [Z.to_pos]. unfold Qeq, Qmult, Qinv, inject_Z. cbn. lia.
Qed.

(** [a / b] for integers [0 <= a <= b < 2^53], [b > 0], is within the
    tolerance, relatively, of the exact quotient. *)
Lemma int_truediv_error (a b : Z) :
  0 <= a <= b -> 0 < b < 2 ^ 53 ->
  exists p,
    PyFloat.int_truediv a b = Ok p /\
    (- (tolerance * (inject_Z a / inject_Z b)) <= PyFloat.to_Q p - inject_Z a / inject_Z b
     /\ PyFloat.to_Q p - inject_Z a / inject_Z b <= tolerance * (inject_Z a / inject_Z b))%Q.
Proof.
  intros Ha Hb. destruct (Z.eq_dec a 0) as [->|Hnz].
  - exists (S754_zero false). split.
    + destruct (of_int_pos b ltac:(lia)) as (mb & Hfb & _).
      unfold PyFloat.int_truediv. destruct (Z.eqb_spec b 0) as [|_]; [lia|].
      rewrite Hfb. reflexivity.
    + cbn [PyFloat.to_Q]. unfold Qdiv. rewrite !Qmult_0_l, Qmult_0_r.
      split; apply Qle_refl.
  - destruct (int_truediv_pos a b ltac:(lia) ltac:(lia)) as (M & E & Hdiv & HE & Herr).
    exists (S754_finite false M E). split; [exact Hdiv|].
    rewrite (to_Q_neg_exp M E HE).
    assert (HP : 0 < 2 ^ (- E)) by (apply Z.pow_pos_nonneg; lia).
    destruct (2 ^ (- E)) as [|pp|pp]; try lia. cbn [Z.to_pos].
    destruct b as [|pb|pb]; try lia.
    assert (H1 : 2 ^ 52 * (Zpos M * Zpos pb - a * Zpos pp) <= a * Zpos pp) by lia.
    assert (H2 : - (a * Zpos pp) <= 2 ^ 52 * (Zpos M * Zpos pb - a * Zpos pp)) by lia.
    change (2 ^ 52) with 4503599627370496 in H1, H2.
    clear Herr Hdiv HP Ha Hb HE Hnz.
    apply (Z.mul_le_mono_nonneg_r _ _ (Zpos pb)) in H1; [|lia].
    apply (Z.mul_le_mono_nonneg_r _ _ (Zpos pb)) in H2; [|lia].
    unfold tolerance, Qdiv, Qminus, Qle, Qplus, Qopp, Qmult, Qinv, inject_Z.
    cbn [Qnum Qden]. rewrite !Pos2Z.inj_mul. split; lia.
Qed.

Lemma dict_set_new {V : Type} (d : dict V) (k : string) (v : V) :
  ~ In k (Py.keys d) -> Py.dict_set d k v = d ++ [(k, v)].
Proof.
  induction d as [|[k' v'] d IH]; intros Hk; [reflexivity|].
  cbn [Py.dict_set]. cbn [Py.keys map fst In] in Hk.
  destruct (String.eqb_spec k' k) as [->|_]; [tauto|].
  cbn [app]. f_equal. apply IH. unfold Py.keys. tauto.
Qed.

Lemma fold_add (l : list Z) (x : Z) : fold_left Z.add l x = x + fold_left Z.add l 0.
Proof.
  revert x. induction l as [|y l IH]; intros x; cbn [fold_left]; [lia|].
  rewrite (IH (x + y)), (IH (0 + y)). lia.
Qed.

Lemma sum_cons (x : Z) (l : list Z) : Py.sum (x :: l) = x + Py.sum l.
Proof. unfold Py.sum. cbn [fold_left]. rewrite fold_add. lia. Qed.

Lemma sum_nonneg (l : list Z) : (forall c, In c l -> 0 <= c) -> 0 <= Py.sum l.
Proof.
  induction l as [|x l IH]; intros H; [unfold Py.sum; cbn; lia|].
  rewrite sum_cons. specialize (H x (or_introl eq_refl)) as Hx.
  assert (0 <= Py.sum l) by (apply IH; intros c Hc; apply H; right; exact Hc). lia.
Qed.

Lemma In_le_sum (l : list Z) (c : Z) :
  (forall c, In c l -> 0 <= c) -> In c l -> c <= Py.sum l.
Proof.
  induction l as [|x l IH]; intros H Hin; [destruct Hin|].
  rewrite sum_cons.
  assert (Hl : forall c, In c l -> 0 <= c) by (intros c' Hc; apply H; right; exact Hc).
  pose proof (sum_nonneg l Hl). specialize (H x (or_introl eq_refl)) as Hx.
  destruct Hin as [->|Hin]; [lia|]. specialize (IH Hl Hin). lia.
Qed.

(** The comprehension of [get_top_k_words] on a dictionary: the same keys
    in the same order, each with its quotient. *)
Lemma probabilities_spec (total : Z) (items : list (string * Z)) :
  0 < total < 2 ^ 53 ->
  (forall c, In c (Py.values items) -> 0 <= c <= total) ->
  forall acc : dict PyFloat.float,
    NoDup (Py.keys acc ++ Py.keys items) ->
    exists ps,
      probabilities items total acc = Ok (acc ++ ps) /\
      Py.keys ps = Py.keys items /\
      Forall2 (fun count p => PyFloat.int_truediv count total = Ok p)
              (Py.values items) (Py.values ps).
Proof.
  intros Ht. induction items as [|[word count] items IH]; intros Hc acc Hnd.
  - exists []. rewrite app_nil_r. repeat split. constructor.
  - cbn [probabilities].
    destruct (int_truediv_error count total) as (p & Hp & _); [|lia|].
    { apply Hc. left. reflexivity. }
    rewrite Hp. cbn [Py.bind].
    cbn [Py.keys map fst] in Hnd.
    rewrite dict_set_new by (apply NoDup_remove_2 in Hnd; intros Hin; apply Hnd;
                             apply in_or_app; left; exact Hin).
    destruct (IH (fun c H => Hc c (or_intror H)) (acc ++ [(word, p)])) as (ps & Hps & Hk & Hall).
    { unfold Py.keys in *. rewrite map_app, <- app_assoc. exact Hnd. }
    exists ((word, p) :: ps). rewrite Hps, <- app_assoc.
    split; [reflexivity|]. split.
    + unfold Py.keys in *. cbn [map fst]. f_equal. exact Hk.
    + unfold Py.values in *. cbn [map snd]. constructor; assumption.
Qed.

Lemma sum_of_quotients (total : Z) (counts : list Z) (ps : list PyFloat.float) :
  0 < total < 2 ^ 53 ->
  (forall c, In c counts -> 0 <= c <= total) ->
  Forall2 (fun count p => PyFloat.int_truediv count total = Ok p) counts ps ->
  (- (tolerance * (inject_Z (Py.sum counts) / inject_Z total))
     <= Qsum (map PyFloat.to_Q ps) - inject_Z (Py.sum counts) / inject_Z total
   /\ Qsum (map PyFloat.to_Q ps) - inject_Z (Py.sum counts) / inject_Z total
     <= tolerance * (inject_Z (Py.sum counts) / inject_Z total))%Q.
Proof.
  intros Ht Hc Hall. induction Hall as [|c p counts ps Hp Hall IH].
  - unfold Py.sum. cbn. unfold Qdiv. rewrite Qmult_0_l. split; lra.
  - destruct (int_truediv_error c total) as (p' & Hp' & Hlo & Hhi); [|lia|].
    { apply Hc. left. reflexivity. }
    rewrite Hp in Hp'. injection Hp' as <-.
    destruct (IH (fun c H => Hc c (or_intror H))) as [IHlo IHhi].
    rewrite sum_cons. cbn [map Qsum fold_right].
    assert (Hsplit : (inject_Z (c + Py.sum counts) / inject_Z total
                      == inject_Z c / inject_Z total
                         + inject_Z (Py.sum counts) / inject_Z total)%Q).
    { rewrite inject_Z_plus. unfold Qdiv. ring. }
    rewrite Hsplit. fold (Qsum (map PyFloat.to_Q ps)). split; lra.
Qed.

(** Claim C9.  [current_trending] is a dictionary of word counts: its keys
    are distinct and its values are not negative; their sum is taken below
    2^53, so that the counts and their sum are floats exactly.  Whenever
    [get_top_k_words] returns a mapping that is not empty, the sum of the
    counts is positive, the mapping has the keys of [current_trending] in
    the same order, each probability is the float [count / total], and the
    probabilities sum to 1 within [tolerance], which is 2^-52. *)
Theorem probabilities_sum_to_one (current_trending : dict Z) (probs : dict PyFloat.float) :
  NoDup (Py.keys current_trending) ->
  (forall c, In c (Py.values current_trending) -> 0 <= c) ->
  Py.sum (Py.values current_trending) < 2 ^ 53 ->
  get_top_k_words current_trending = Ok probs ->
  probs <> [] ->
  0 < Py.sum (Py.values current_trending) /\
  Py.keys probs = Py.keys current_trending /\
  Forall2 (fun count p =>
             PyFloat.int_truediv count (Py.sum (Py.values current_trending)) = Ok p)
          (Py.values current_trending) (Py.values probs) /\
  (Qabs (Qsum (map PyFloat.to_Q (Py.values probs)) - 1) <= tolerance)%Q.
Proof.
  intros Hnd Hnn Hlt Hget Hne.
  unfold get_top_k_words in Hget.
  destruct current_trending as [|wc ct]; [injection Hget as <-; contradiction|].
  set (d := wc :: ct) in *. set (total := Py.sum (Py.values d)) in *.
  destruct (Z.ltb_spec 0 total) as [Hpos|_]; [|injection Hget as <-; contradiction].
  assert (Hc : forall c, In c (Py.values d) -> 0 <= c <= total).
  { intros c Hin. split; [apply Hnn; exact Hin|apply In_le_sum; assumption]. }
  destruct (probabilities_spec total d (conj Hpos Hlt) Hc []) as (ps & Hps & Hk & Hall);
    [exact Hnd|].
  rewrite Hps in Hget. cbn [app] in Hget. injection Hget as <-.
  split; [exact Hpos|]. split; [exact Hk|]. split; [exact Hall|].
  destruct (sum_of_quotients total _ _ (conj Hpos Hlt) Hc Hall) as [Hlo Hhi].
  fold total in Hlo, Hhi.
  assert (Hone : (inject_Z total / inject_Z total == 1)%Q).
  { apply Qmult_inv_r. intros H. unfold Qeq, inject_Z in H. cbn [Qnum Qden] in H. lia. }
  rewrite Hone in Hlo, Hhi.
  apply Qabs_Qle_condition. split; lra.
Qed.

Lemma probabilities_sum_to_one_witness :
  NoDup (Py.keys [("fed", 2); ("inflation", 2); ("hike", 1)]) /\
  get_top_k_words [("fed", 2); ("inflation", 2); ("hike", 1)]
    = Ok [("fed", S754_finite false 7205759403792794 (-54));
          ("inflation", S754_finite false 7205759403792794 (-54));
          ("hike", S754_finite false 7205759403792794 (-55))] /\
  (Qabs (Qsum (map PyFloat.to_Q
                 [S754_finite false 7205759403792794 (-54);
                  S754_finite false 7205759403792794 (-54);
                  S754_finite false 7205759403792794 (-55)]) - 1) <= tolerance)%Q.
Proof.
  assert (Hnd : NoDup (Py.keys [("fed", 2); ("inflation", 2); ("hike", 1)])).
  { repeat (constructor; [cbn; intuition discriminate|]). constructor. }
  split; [exact Hnd|]. split; [reflexivity|].
  apply (probabilities_sum_to_one
           [("fed", 2); ("inflation", 2); ("hike", 1)]
           [("fed", S754_finite false 7205759403792794 (-54));
            ("inflation", S754_finite false 7205759403792794 (-54));
            ("hike", S754_finite false 7205759403792794 (-55))]).
  - exact Hnd.
  - cbn. intros c [<-|[<-|[<-|[]]]]; lia.
  - reflexivity.
  - reflexivity.
  - discriminate.
Defined.

(** The dictionary that the main loop stores in [current_trending] always
    has distinct keys and counts of at least 1. *)
Lemma keys_dict_set {V : Type} (d : dict V) (k : string) (v : V) :
  Py.keys (Py.dict_set d k v)
  = if in_dec string_dec k (Py.keys d) then Py.keys d else Py.keys d ++ [k].
Proof.
  induction d as [|[k' v'] d IH]; [reflexivity|].
  cbn [Py.dict_set]. unfold Py.keys in *. cbn [map fst].
  destruct (String.eqb_spec k' k) as [->|Hne].
  - cbn [map fst]. destruct (in_dec string_dec k (k :: map fst d)) as [_|Hn];
      [reflexivity|]. exfalso. apply Hn. left. reflexivity.
  - cbn [map fst]. rewrite IH.
    destruct (in_dec string_dec k (map fst d)) as [Hin|Hnin];
      destruct (in_dec string_dec k (k' :: map fst d)) as [Hin'|Hnin'];
      try reflexivity.
    + exfalso. apply Hnin'. right. exact Hin.
    + destruct Hin' as [E|Hin']; [congruence|contradiction].
Qed.

Lemma NoDup_dict_set {V : Type} (d : dict V) (k : string) (v : V) :
  NoDup (Py.keys d) -> NoDup (Py.keys (Py.dict_set d k v)).
Proof.
  intros Hnd. rewrite keys_dict_set.
  destruct (in_dec string_dec k (Py.keys d)) as [_|Hnin]; [exact Hnd|].
  apply NoDup_app; [exact Hnd|repeat constructor; intros []|].
  intros x Hx [<-|[]]. contradiction.
Qed.

Lemma values_dict_set {V : Type} (d : dict V) (k : string) (v x : V) :
  In x (Py.values (Py.dict_set d k v)) -> x = v \/ In x (Py.values d).
Proof.
  unfold Py.values. induction d as [|[k' v'] d IH]; cbn [Py.dict_set map snd In].
  - intros [<-|[]]. left. reflexivity.
  - destruct (String.eqb k' k); cbn [map snd In].
    + intros [<-|H]; auto.
    + intros [<-|H]; auto. destruct (IH H); auto.
Qed.

Lemma dict_of_items_inv {V : Type} (l : list (string * V)) :
  forall d : dict V,
    NoDup (Py.keys d) ->
    NoDup (Py.keys (fold_left (fun d kv => Py.dict_set d (fst kv) (snd kv)) l d)) /\
    forall x, In x (Py.values (fold_left (fun d kv => Py.dict_set d (fst kv) (snd kv)) l d)) ->
              In x (Py.values d) \/ In x (map snd l).
Proof.
  induction l as [|[k v] l IH]; intros d Hnd; cbn [fold_left fst snd].
  - split; [exact Hnd|]. intros x Hx. left. exact Hx.
  - destruct (IH (Py.dict_set d k v) (NoDup_dict_set d k v Hnd)) as [Hnd' Hval].
    split; [exact Hnd'|]. intros x Hx. cbn [map snd In].
    destruct (Hval x Hx) as [H|H]; [|auto].
    apply values_dict_set in H as [->|H]; auto.
Qed.

Lemma In_firstn {A : Type} (n : nat) (l : list A) (x : A) : In x (firstn n l) -> In x l.
Proof.
  intros H. rewrite <- (firstn_skipn n l). apply in_or_app. left. exact H.
Qed.

Lemma In_insert_desc (x y : string * Z) (l : list (string * Z)) :
  In y (Py.insert_desc x l) -> y = x \/ In y l.
Proof.
  induction l as [|z l IH]; cbn [Py.insert_desc In].
  - intros [<-|[]]. left. reflexivity.
  - destruct (snd x <? snd z); cbn [In].
    + intros [<-|H]; auto. destruct (IH H); auto.
    + intros [<-|[<-|H]]; auto.
Qed.

Lemma In_sorted_desc (y : string * Z) (l : list (string * Z)) :
  In y (Py.sorted_desc l) -> In y l.
Proof.
  unfold Py.sorted_desc. induction l as [|x l IH]; cbn [fold_right In]; [tauto|].
  intros H. apply In_insert_desc in H as [->|H]; auto.
Qed.

Lemma defaultdict_add_values (d : dict Z) (w : string) :
  (forall c, In c (Py.values d) -> 1 <= c) ->
  forall c, In c (Py.values (Py.defaultdict_add d w 1)) -> 1 <= c.
Proof.
  intros Hd c Hc. unfold Py.defaultdict_add in Hc.
  destruct (Py.dict_get d w) as [v|] eqn:Hg.
  - apply values_dict_set in Hc as [->|Hc]; [|auto].
    assert (In v (Py.values d)).
    { clear Hd. unfold Py.values. induction d as [|[k' v'] d IH]; [discriminate|].
      cbn [Py.dict_get] in Hg. destruct (String.eqb k' w).
      - injection Hg as ->. left. reflexivity.
      - right. auto. }
    specialize (Hd v H). lia.
  - apply values_dict_set in Hc as [->|Hc]; [lia|auto].
Qed.

Lemma count_buffer_values (buffer : list (list string)) :
  forall c, In c (Py.values (count_buffer buffer)) -> 1 <= c.
Proof.
  unfold count_buffer.
  assert (H : forall buf d, (forall c, In c (Py.values d) -> 1 <= c) ->
                            forall c, In c (Py.values (fold_left count_words buf d)) -> 1 <= c).
  { induction buf as [|ws buf IH]; intros d Hd; [exact Hd|].
    cbn [fold_left]. apply IH. unfold count_words. clear IH buf.
    revert d Hd. induction ws as [|w ws IHw]; intros d Hd; [exact Hd|].
    cbn [fold_left]. apply IHw. apply defaultdict_add_values. exact Hd. }
  apply H. intros c [].
Qed.

Lemma loop_body_current_trending (c : ascii) (content : string) (rnd : draws)
    (st st' : state) :
  loop_body (String c content) rnd st = Ok st' ->
  exists buffer,
    current_trending st'
    = Py.dict_of_items (firstn (Z.to_nat TOP_K) (Py.sorted_desc (count_buffer buffer))).
Proof.
  unfold loop_body. rewrite print_ok. cbn [Py.bind].
  destruct (process_text _ _ _); [|discriminate].
  cbn [Py.bind]. intros H. eexists.
  apply (f_equal (fun r => match r with Ok s => current_trending s | Raise _ => [] end)) in H.
  cbn [current_trending] in H. symmetry. exact H.
Qed.

Lemma current_trending_inv (feed : list (string * draws)) :
  forall st st',
    NoDup (Py.keys (current_trending st)) ->
    (forall c, In c (Py.values (current_trending st)) -> 0 <= c) ->
    run_background_algorithm feed st = Ok st' ->
    NoDup (Py.keys (current_trending st')) /\
    (forall c, In c (Py.values (current_trending st')) -> 0 <= c).
Proof.
  induction feed as [|[content rnd] feed IH]; intros st st' Hnd Hnn Hrun.
  - injection Hrun as <-. split; assumption.
  - cbn [run_background_algorithm] in Hrun.
    destruct (loop_body content rnd st) as [st1|] eqn:Hl; [|discriminate Hrun].
    cbn [Py.bind] in Hrun.
    destruct content as [|c content].
    + injection Hl as <-. apply (IH st st'); assumption.
    + destruct (loop_body_current_trending c content rnd st st1 Hl) as (buffer & E).
      apply (IH st1 st'); [| |exact Hrun]; rewrite E.
      * apply dict_of_items_inv. constructor.
      * intros x Hx. apply dict_of_items_inv in Hx; [|constructor].
        destruct Hx as [[]|Hx]. apply in_map_iff in Hx as (kv & <- & Hkv).
        apply In_firstn, In_sorted_desc in Hkv.
        assert (1 <= snd kv); [|lia].
        apply (count_buffer_values buffer (snd kv)). unfold Py.values.
        apply in_map. exact Hkv.
Qed.

(** ** More on the sketch: the counters after a sequence of updates *)


Lemma hits_nonneg (s : CountMinSketch) (items : list string) (i j : Z) :
  0 <= hits s items i j <= Py.len items.
Proof.
  unfold hits, Py.len. pose proof (filter_length_le (fun x => slot s x i =? j) items). lia.
Qed.

Lemma hits_cons (s : CountMinSketch) (x : string) (items : list string) (i j : Z) :
  hits s (x :: items) i j = (if j =? slot s x i then 1 else 0) + hits s items i j.
Proof.
  unfold hits. cbn [filter]. rewrite (Z.eqb_sym j).
  destruct (slot s x i =? j); cbn [List.length]; lia.
Qed.

Lemma hits_perm (s : CountMinSketch) (items items' : list string) (i j : Z) :
  Permutation items items' -> hits s items i j = hits s items' i j.
Proof.
  induction 1 as [|x l l' _ IH|x y l|l l' l'' _ IH1 _ IH2].
  - reflexivity.
  - rewrite !hits_cons, IH. reflexivity.
  - rewrite !hits_cons. lia.
  - congruence.
Qed.

Lemma hits_true_count (s : CountMinSketch) (items : list string) (w : string) (i : Z) :
  true_count items w <= hits s items i (slot s w i).
Proof.
  unfold true_count. induction items as [|x items IH]; [unfold hits; cbn; lia|].
  rewrite hits_cons. cbn [count_occ]. destruct (string_dec x w) as [->|_].
  - rewrite Z.eqb_refl. lia.
  - destruct (slot s w i =? slot s x i); lia.
Qed.

Lemma hits_no_collision (s : CountMinSketch) (items : list string) (w : string) (i : Z) :
  (forall x, In x items -> slot s x i = slot s w i -> x = w) ->
  hits s items i (slot s w i) = true_count items w.
Proof.
  unfold true_count. induction items as [|x items IH]; intros H; [reflexivity|].
  rewrite hits_cons. cbn [count_occ].
  rewrite IH by (intros y Hy; apply H; right; exact Hy).
  destruct (string_dec x w) as [->|Hne].
  - rewrite Z.eqb_refl. lia.
  - destruct (Z.eqb_spec (slot s w i) (slot s x i)) as [E|_]; [|lia].
    exfalso. apply Hne. apply H; [left; reflexivity|congruence].
Qed.

(** [update] in terms of the table alone. *)
Lemma update_table (s : CountMinSketch) (item : string) :
  wf s ->
  exists t,
    update s item = Ok (set_table s t) /\ shaped s t /\
    forall i j, 0 <= i < depth s -> 0 <= j ->
      cell t i j = cell (table s) i j + (if j =? slot s item i then 1 else 0).
Proof.
  intros (Hw & Hseeds & Hsh).
  destruct (update_loop_spec s item Hw Hseeds (Py.range (depth s)) (table s) Hsh
              (Forall_range _)) as (t' & Ht' & Hsh' & Hcell).
  exists t'. unfold update. rewrite Ht'. cbn [Py.bind].
  split; [reflexivity|]. split; [exact Hsh'|].
  intros i j Hi Hj. rewrite Hcell by lia. rewrite count_occ_range.
  destruct (Z.leb_spec 0 i); [|lia]. destruct (Z.ltb_spec i (depth s)); [|lia].
  reflexivity.
Qed.

Lemma update_seq_table (items : list string) :
  forall s, wf s ->
  exists t,
    update_seq s items = Ok (set_table s t) /\ shaped s t /\
    forall i j, 0 <= i < depth s -> 0 <= j ->
      cell t i j = cell (table s) i j + hits s items i j.
Proof.
  induction items as [|x items IH]; intros s Hwf.
  - exists (table s). cbn [update_seq]. rewrite set_table_same.
    split; [reflexivity|]. split; [apply Hwf|]. intros i j _ _. unfold hits. cbn. lia.
  - destruct (update_table s x Hwf) as (t1 & Hu & Hsh1 & Hc1).
    assert (Hwf1 : wf (set_table s t1)).
    { destruct Hwf as (Hw & Hseeds & _). exact (conj Hw (conj Hseeds Hsh1)). }
    destruct (IH (set_table s t1) Hwf1) as (t & Hus & Hsh & Hc).
    exists t. cbn [update_seq]. rewrite Hu. cbn [Py.bind].
    split; [exact Hus|]. split; [exact Hsh|].
    intros i j Hi Hj. specialize (Hc i j Hi Hj). cbn [set_table table] in Hc.
    rewrite Hc, (Hc1 i j Hi Hj), hits_cons.
    change (hits (set_table s t1) items i j) with (hits s items i j). lia.
Qed.

Lemma shaped_ext (s : CountMinSketch) (t1 t2 : list (list Z)) :
  shaped s t1 -> shaped s t2 ->
  (forall i j, 0 <= i < rows_of s -> 0 <= j < width s -> cell t1 i j = cell t2 i j) ->
  t1 = t2.
Proof.
  unfold shaped, Py.len. intros [Hl1 Hr1] [Hl2 Hr2] Hcell.
  apply (nth_ext _ _ [] []); [lia|]. intros n Hn.
  rewrite Forall_forall in Hr1, Hr2.
  assert (H1 : Py.len (nth n t1 []) = width s) by (apply Hr1, nth_In; lia).
  assert (H2 : Py.len (nth n t2 []) = width s) by (apply Hr2, nth_In; lia).
  unfold Py.len in H1, H2.
  apply (nth_ext _ _ 0 0); [lia|]. intros m Hm.
  specialize (Hcell (Z.of_nat n) (Z.of_nat m)). unfold cell in Hcell.
  rewrite !Nat2Z.id in Hcell. apply Hcell; lia.
Qed.


Lemma fresh_cell (s : CountMinSketch) (i j : Z) : fresh s -> cell (table s) i j = 0.
Proof.
  unfold fresh, cell. intros H.
  destruct (Nat.lt_ge_cases (Z.to_nat i) (List.length (table s))) as [Hi|Hi].
  - rewrite Forall_forall in H. specialize (H _ (nth_In _ [] Hi)).
    destruct (Nat.lt_ge_cases (Z.to_nat j) (List.length (nth (Z.to_nat i) (table s) [])))
      as [Hj|Hj].
    + rewrite Forall_forall in H. apply H. apply nth_In. exact Hj.
    + apply nth_overflow. exact Hj.
  - rewrite (nth_overflow (table s)) by exact Hi. destruct (Z.to_nat j); reflexivity.
Qed.

Lemma slot_range (s : CountMinSketch) (item : string) (i : Z) :
  0 < width s -> 0 <= slot s item i < width s.
Proof. intros Hw. unfold slot. apply Z.mod_pos_bound. exact Hw. Qed.

Lemma sum_replace_nth (l : list Z) (n : nat) (v : Z) :
  (n < List.length l)%nat ->
  Py.sum (Py.replace_nth l n v) = Py.sum l - nth n l 0 + v.
Proof.
  revert n. induction l as [|x l IH]; intros n Hn; cbn [List.length] in Hn; [lia|].
  destruct n as [|n]; cbn [Py.replace_nth nth]; rewrite !sum_cons.
  - lia.
  - rewrite IH by lia. lia.
Qed.

(** One update adds one to the total of each row. *)
Lemma update_row_total (s : CountMinSketch) (item : string) :
  wf s ->
  exists t,
    update s item = Ok (set_table s t) /\ shaped s t /\
    forall i, 0 <= i < depth s -> row_total t i = row_total (table s) i + 1.
Proof.
  intros Hwf. destruct (update_table s item Hwf) as (t & Hu & Hsh & Hc).
  exists t. split; [exact Hu|]. split; [exact Hsh|]. intros i Hi.
  destruct Hwf as (Hw & _ & Hsh0).
  pose proof (slot_range s item i Hw) as Hslot.
  assert (Hlen : forall t0, shaped s t0 ->
            List.length (nth (Z.to_nat i) t0 []) = Z.to_nat (width s)).
  { intros t0 [Hl Hr]. rewrite Forall_forall in Hr.
    assert (H : Py.len (nth (Z.to_nat i) t0 []) = width s).
    { apply Hr, nth_In. unfold Py.len, rows_of in Hl. lia. }
    unfold Py.len in H. lia. }
  unfold row_total.
  assert (E : nth (Z.to_nat i) t []
              = Py.replace_nth (nth (Z.to_nat i) (table s) [])
                  (Z.to_nat (slot s item i))
                  (nth (Z.to_nat (slot s item i)) (nth (Z.to_nat i) (table s) []) 0 + 1)).
  { apply (nth_ext _ _ 0 0).
    - rewrite length_replace_nth, !Hlen by assumption. reflexivity.
    - intros m Hm. rewrite Hlen in Hm by assumption.
      rewrite nth_replace_nth by (rewrite Hlen by assumption; lia).
      specialize (Hc i (Z.of_nat m) Hi ltac:(lia)). unfold cell in Hc.
      rewrite Nat2Z.id in Hc. rewrite Hc.
      destruct (Nat.eqb_spec m (Z.to_nat (slot s item i))) as [->|Hne].
      + rewrite Z2Nat.id by lia. rewrite Z.eqb_refl. reflexivity.
      + destruct (Z.eqb_spec (Z.of_nat m) (slot s item i)) as [E|_]; [|lia].
        exfalso. apply Hne. rewrite <- E. rewrite Nat2Z.id. reflexivity. }
  rewrite E, sum_replace_nth by (rewrite Hlen by assumption; lia). lia.
Qed.

Lemma map_counter_hits (s s' : CountMinSketch) (items : list string) (w : string) :
  0 < width s -> width s' = width s -> hash_seeds s' = hash_seeds s ->
  (forall i j, 0 <= i < depth s -> 0 <= j ->
     cell (table s') i j = cell (table s) i j + hits s items i j) ->
  fresh s ->
  map (counter s' w) (Py.range (depth s))
  = map (fun i => hits s items i (slot s w i)) (Py.range (depth s)).
Proof.
  intros Hw Hw' Hs' Hc Hf. apply map_ext_in. intros i Hi. apply In_range in Hi.
  unfold counter.
  assert (E : slot s' w i = slot s w i) by (unfold slot; rewrite Hs', Hw'; reflexivity).
  rewrite E, Hc by (pose proof (slot_range s w i Hw); lia).
  rewrite fresh_cell by exact Hf. lia.
Qed.

Lemma range_nonempty (n : Z) : 0 < n -> Py.range n <> [].
Proof.
  intros Hn E. apply (f_equal (@List.length Z)) in E.
  pose proof (len_range n) as Hl. unfold Py.len in Hl. cbn in E. lia.
Qed.


(** Property X1.  [_hash] returns a column index of the sign of [width]
    and smaller than it in absolute value; it raises [ZeroDivisionError]
    exactly when the width is 0. *)
Theorem hash_index_range (self : CountMinSketch) (item : string) (seed : Z) :
  (width self = 0 /\ _hash self item seed = Raise Py.ZeroDivisionError) \/
  (exists index,
     _hash self item seed = Ok index /\
     ((0 < width self /\ 0 <= index < width self) \/
      (width self < 0 /\ width self < index <= 0))).
Proof.
  unfold _hash, Py.mod_. destruct (Z.eqb_spec (width self) 0) as [E|E].
  - left. split; [exact E|reflexivity].
  - right. eexists. split; [reflexivity|].
    destruct (Z.lt_total (width self) 0) as [Hn|[Hz|Hp]]; [right|contradiction|left].
    + split; [exact Hn|]. apply Z.mod_neg_bound. exact Hn.
    + split; [exact Hp|]. apply Z.mod_pos_bound. exact Hp.
Qed.

(** Property X2.  After any sequence of [update] calls on a well-shaped
    sketch nothing was raised, the shape, the width, the depth and the
    seeds are unchanged, and each counter has grown by the number of items
    that its row sends to its column. *)
Theorem update_seq_cells (s : CountMinSketch) (items : list string) :
  wf s ->
  exists s',
    update_seq s items = Ok s' /\ wf s' /\
    width s' = width s /\ depth s' = depth s /\ hash_seeds s' = hash_seeds s /\
    forall i j, 0 <= i < depth s -> 0 <= j ->
      cell (table s') i j = cell (table s) i j + hits s items i j.
Proof.
  intros Hwf. destruct (update_seq_table items s Hwf) as (t & Hu & Hsh & Hc).
  exists (set_table s t). split; [exact Hu|].
  destruct Hwf as (Hw & Hseeds & _).
  split; [exact (conj Hw (conj Hseeds Hsh))|]. repeat split. exact Hc.
Qed.

Lemma update_seq_cells_witness :
  wf small_sketch /\
  exists s',
    update_seq small_sketch ["fed"; "rates"; "fed"] = Ok s' /\
    forall i j, 0 <= i < 2 -> 0 <= j ->
      cell (table s') i j = 0 + hits small_sketch ["fed"; "rates"; "fed"] i j.
Proof.
  assert (H : wf small_sketch).
  { unfold wf, shaped. cbn. split; [lia|]. split; [reflexivity|].
    split; [reflexivity|]. repeat constructor. }
  split; [exact H|].
  destruct (update_seq_cells small_sketch ["fed"; "rates"; "fed"] H)
    as (s' & Hu & _ & _ & _ & _ & Hc).
  exists s'. split; [exact Hu|]. intros i j Hi Hj. rewrite (Hc i j Hi Hj).
  f_equal. unfold cell. cbn [small_sketch table].
  destruct (Z.to_nat i) as [|[|[|?]]]; destruct (Z.to_nat j) as [|[|[|[|[|?]]]]]; reflexivity.
Defined.

(** Property X3.  Each [update] adds exactly one to each row: after a
    sequence of updates on a well-shaped sketch the sum of the counters of
    every row has grown by the number of updates. *)
Theorem update_seq_row_totals (items : list string) :
  forall s, wf s ->
  exists s',
    update_seq s items = Ok s' /\
    forall i, 0 <= i < depth s ->
      row_total (table s') i = row_total (table s) i + Py.len items.
Proof.
  induction items as [|x items IH]; intros s Hwf.
  - exists s. split; [reflexivity|]. intros i _. unfold Py.len. cbn. lia.
  - destruct (update_row_total s x Hwf) as (t & Hu & Hsh & Hr).
    assert (Hwf1 : wf (set_table s t)).
    { destruct Hwf as (Hw & Hseeds & _). exact (conj Hw (conj Hseeds Hsh)). }
    destruct (IH _ Hwf1) as (s' & Hu' & Hr').
    exists s'. cbn [update_seq]. rewrite Hu. cbn [Py.bind].
    split; [exact Hu'|]. intros i Hi.
    rewrite (Hr' i Hi). cbn [set_table table]. rewrite (Hr i Hi).
    unfold Py.len. cbn [List.length]. lia.
Qed.

Lemma update_seq_row_totals_witness :
  wf small_sketch /\
  exists s',
    update_seq small_sketch ["fed"; "rates"; "fed"] = Ok s' /\
    forall i, 0 <= i < 2 -> row_total (table s') i = 0 + 3.
Proof.
  assert (H : wf small_sketch).
  { unfold wf, shaped. cbn. split; [lia|]. split; [reflexivity|].
    split; [reflexivity|]. repeat constructor. }
  split; [exact H|].
  destruct (update_seq_row_totals ["fed"; "rates"; "fed"] small_sketch H) as (s' & Hu & Hr).
  exists s'. split; [exact Hu|]. intros i Hi. rewrite (Hr i Hi).
  f_equal. unfold row_total. cbn [small_sketch table].
  destruct (Z.to_nat i) as [|[|[|?]]]; reflexivity.
Defined.

Lemma estimate_min_hits (s : CountMinSketch) (items : list string) (w : string) :
  wf s -> 0 < depth s -> fresh s ->
  exists s' e,
    update_seq s items = Ok s' /\
    estimate s' w = Ok e /\
    Py.min (map (fun i => hits s items i (slot s w i)) (Py.range (depth s))) = Ok e.
Proof.
  intros Hwf Hd Hf. destruct (update_seq_table items s Hwf) as (t & Hu & Hsh & Hc).
  destruct Hwf as (Hw & Hseeds & Hsh0).
  assert (Hwf' : wf (set_table s t)) by exact (conj Hw (conj Hseeds Hsh)).
  destruct (min_nonempty (map (fun i => hits s items i (slot s w i)) (Py.range (depth s))))
    as [e He].
  { intros E. apply map_eq_nil in E. exact (range_nonempty _ Hd E). }
  exists (set_table s t), e. split; [exact Hu|]. split; [|exact He].
  rewrite estimate_eq by exact Hwf'. cbn [set_table depth].
  rewrite (map_counter_hits s (set_table s t) items w Hw eq_refl eq_refl Hc Hf).
  exact He.
Qed.

(** Property X4.  On a well-shaped sketch with at least one row whose
    counters start at 0, [estimate(w)] after a sequence of updates returns
    the smallest, over the rows, of the number of items that the row sends
    to the column of [w].  So it is at least the number of times [w] was
    passed and at most the number of updates. *)
Theorem estimate_between (s : CountMinSketch) (items : list string) (w : string) :
  wf s -> 0 < depth s -> fresh s ->
  exists s' e,
    update_seq s items = Ok s' /\
    estimate s' w = Ok e /\
    Py.min (map (fun i => hits s items i (slot s w i)) (Py.range (depth s))) = Ok e /\
    true_count items w <= e <= Py.len items.
Proof.
  intros Hwf Hd Hf.
  destruct (estimate_min_hits s items w Hwf Hd Hf) as (s' & e & Hu & Hest & He).
  exists s', e. split; [exact Hu|]. split; [exact Hest|]. split; [exact He|]. split.
  - apply (min_ge _ _ _ He). intros y Hy. apply in_map_iff in Hy as (i & <- & _).
    apply hits_true_count.
  - assert (Hin : In (hits s items 0 (slot s w 0))
                     (map (fun i => hits s items i (slot s w i)) (Py.range (depth s)))).
    { apply in_map_iff. exists 0. split; [reflexivity|]. apply In_range. lia. }
    pose proof (min_In_le _ _ _ He Hin). pose proof (hits_nonneg s items 0 (slot s w 0)). lia.
Qed.

Lemma estimate_between_witness :
  wf small_sketch /\ 0 < depth small_sketch /\ fresh small_sketch /\
  exists s' e,
    update_seq small_sketch ["fed"; "rates"; "fed"] = Ok s' /\
    estimate s' "fed" = Ok e /\ 2 <= e <= 3.
Proof.
  assert (H : wf small_sketch).
  { unfold wf, shaped. cbn. split; [lia|]. split; [reflexivity|].
    split; [reflexivity|]. repeat constructor. }
  assert (Hf : fresh small_sketch) by (repeat constructor).
  split; [exact H|]. split; [reflexivity|]. split; [exact Hf|].
  destruct (estimate_between small_sketch ["fed"; "rates"; "fed"] "fed" H eq_refl Hf)
    as (s' & e & Hu & He & _ & Hb).
  exists s', e. split; [exact Hu|]. split; [exact He|]. exact Hb.
Defined.

(** Property X5.  When some row sends no other item to the column of [w],
    the estimate is exact: [estimate(w)] is the number of times [w] was
    passed. *)
Theorem estimate_exact_without_collision
    (s : CountMinSketch) (items : list string) (w : string) (i : Z) :
  wf s -> fresh s -> 0 <= i < depth s ->
  (forall x, In x items -> slot s x i = slot s w i -> x = w) ->
  exists s',
    update_seq s items = Ok s' /\ estimate s' w = Ok (true_count items w).
Proof.
  intros Hwf Hf Hi Hno.
  destruct (estimate_min_hits s items w Hwf ltac:(lia) Hf) as (s' & e & Hu & He & Hm).
  exists s'. split; [exact Hu|]. rewrite He. f_equal.
  assert (Hin : In (hits s items i (slot s w i))
                   (map (fun i => hits s items i (slot s w i)) (Py.range (depth s)))).
  { apply in_map_iff. exists i. split; [reflexivity|]. apply In_range. exact Hi. }
  pose proof (min_In_le _ _ _ Hm Hin) as Hle.
  rewrite hits_no_collision in Hle by exact Hno.
  assert (Hge : true_count items w <= e).
  { apply (min_ge _ _ _ Hm). intros y Hy. apply in_map_iff in Hy as (k & <- & _).
    apply hits_true_count. }
  lia.
Qed.

Lemma estimate_exact_without_collision_witness :
  wf small_sketch /\ fresh small_sketch /\
  exists s',
    update_seq small_sketch ["fed"; "fed"] = Ok s' /\ estimate s' "fed" = Ok 2.
Proof.
  assert (H : wf small_sketch).
  { unfold wf, shaped. cbn. split; [lia|]. split; [reflexivity|].
    split; [reflexivity|]. repeat constructor. }
  assert (Hf : fresh small_sketch) by (repeat constructor).
  split; [exact H|]. split; [exact Hf|].
  apply (estimate_exact_without_collision small_sketch ["fed"; "fed"] "fed" 0 H Hf).
  - cbn. lia.
  - intros x [<-|[<-|[]]] _; reflexivity.
Defined.

(** Property X6.  The order of the updates does not matter: two sequences
    with the same items, each as many times, leave the same sketch. *)
Theorem update_seq_permutation (s : CountMinSketch) (items items' : list string) :
  wf s -> Permutation items items' ->
  exists s', update_seq s items = Ok s' /\ update_seq s items' = Ok s'.
Proof.
  intros Hwf Hp.
  destruct (update_seq_table items s Hwf) as (t & Hu & Hsh & Hc).
  destruct (update_seq_table items' s Hwf) as (t' & Hu' & Hsh' & Hc').
  exists (set_table s t). split; [exact Hu|]. rewrite Hu'. do 2 f_equal.
  apply (shaped_ext s); [exact Hsh'|exact Hsh|].
  intros i j Hi Hj. unfold rows_of in Hi.
  rewrite Hc, Hc' by lia. rewrite (hits_perm s items items' i j Hp). reflexivity.
Qed.

Lemma update_seq_permutation_witness :
  wf small_sketch /\ Permutation ["fed"; "rates"] ["rates"; "fed"] /\
  exists s',
    update_seq small_sketch ["fed"; "rates"] = Ok s' /\
    update_seq small_sketch ["rates"; "fed"] = Ok s'.
Proof.
  assert (H : wf small_sketch).
  { unfold wf, shaped. cbn. split; [lia|]. split; [reflexivity|].
    split; [reflexivity|]. repeat constructor. }
  split; [exact H|]. split; [apply perm_swap|].
  apply (update_seq_permutation small_sketch ["fed"; "rates"] ["rates"; "fed"] H).
  apply perm_swap.
Defined.

Lemma init_fields (eps dl : PyFloat.float) (rnd : draws) (s : CountMinSketch) :
  __init__ eps dl rnd = Ok s ->
  exists d,
    depth_expr (random_random rnd) = Ok d /\ depth s = d /\
    table s = map (fun _ => repeat 0 (Z.to_nat (width s))) (Py.range d) /\
    hash_seeds s = map (random_randint rnd) (seq 0 (Z.to_nat d)).
Proof.
  unfold __init__. destruct (PyFloat.truediv _ eps) as [q|]; [|discriminate].
  cbn [Py.bind]. destruct (PyFloat.to_int q) as [w|]; [|discriminate].
  cbn [Py.bind]. destruct (depth_expr _) as [d|]; [|discriminate].
  cbn [Py.bind]. intros [= <-]. exists d. repeat split.
Qed.

Lemma init_fresh (eps dl : PyFloat.float) (rnd : draws) (s : CountMinSketch) :
  __init__ eps dl rnd = Ok s -> fresh s.
Proof.
  intros H. destruct (init_fields _ _ _ _ H) as (d & _ & _ & Ht & _).
  unfold fresh. rewrite Ht. apply Forall_forall. intros row Hin.
  apply in_map_iff in Hin as (i & <- & _). apply Forall_forall.
  intros c Hc. apply repeat_spec in Hc. exact Hc.
Qed.

Lemma getitem_head {A : Type} (x : A) (l : list A) : Py.getitem (x :: l) 0 = Ok x.
Proof.
  unfold Py.getitem, Py.len. cbn [List.length].
  destruct (Z.ltb_spec 0 (Z.of_nat (S (List.length l)))); [reflexivity|lia].
Qed.

Lemma getitem_nil {A : Type} (i : Z) : Py.getitem (@nil A) i = Raise Py.IndexError.
Proof.
  unfold Py.getitem, Py.len. cbn [List.length].
  destruct (i <? 0); cbn [Z.of_nat].
  - destruct (Z.leb_spec 0 (0 + i)), (Z.ltb_spec (0 + i) 0); cbn [andb]; try reflexivity; lia.
  - destruct (Z.leb_spec 0 i), (Z.ltb_spec i 0); cbn [andb]; try reflexivity; lia.
Qed.

(** Property X7.  A sketch built with an [epsilon] for which [int(2 /
    epsilon)] is not positive (an [epsilon] above 2, or a negative one),
    when the draw 0.0 gives it rows, cannot be used: [update] and
    [estimate] raise [ZeroDivisionError] from the [%] of [_hash] when the
    width is 0, and [IndexError] from the empty rows when it is negative. *)
Theorem nonpositive_width_raises
    (eps dl : PyFloat.float) (rnd : draws) (s : CountMinSketch) (item : string) :
  __init__ eps dl rnd = Ok s -> random_random rnd = r_zero -> width s <= 0 ->
  exists e,
    update s item = Raise e /\ estimate s item = Raise e /\
    e = (if width s =? 0 then Py.ZeroDivisionError else Py.IndexError).
Proof.
  intros Hinit Hz Hw. destruct (init_fields _ _ _ _ Hinit) as (d & Hd & Hds & Ht & Hs).
  rewrite Hz, depth_expr_zero in Hd. injection Hd as <-.
  replace (Z.to_nat (width s)) with 0%nat in Ht by lia.
  change (Py.range 10) with (0 :: map Z.of_nat (seq 1 9)) in Ht.
  change (seq 0 (Z.to_nat 10)) with (0%nat :: seq 1 9) in Hs.
  cbn [map repeat] in Ht, Hs.
  unfold update, estimate. rewrite Hds.
  change (Py.range 10) with (0 :: map Z.of_nat (seq 1 9)).
  cbn [update_loop estimate_loop]. rewrite Hs, !getitem_head. cbn [Py.bind].
  unfold _hash, Py.mod_. destruct (Z.eqb_spec (width s) 0) as [E|E].
  - exists Py.ZeroDivisionError. repeat split.
  - cbn [Py.bind]. rewrite Ht, !getitem_head. cbn [Py.bind].
    rewrite !getitem_nil. exists Py.IndexError. repeat split.
Qed.

Lemma nonpositive_width_raises_witness :
  exists s,
    __init__ lit_4_0 PyFloat.lit_0_01 draws_zero = Ok s /\ width s = 0 /\
    update s "fed" = Raise Py.ZeroDivisionError /\
    estimate s "fed" = Raise Py.ZeroDivisionError.
Proof.
  eexists. split; [reflexivity|]. split; [reflexivity|].
  destruct (nonpositive_width_raises lit_4_0 PyFloat.lit_0_01 draws_zero _ "fed" eq_refl eq_refl)
    as (e & Hu & He & ->).
  - cbn. lia.
  - split; [exact Hu|exact He].
Defined.

(** Property X8.  With the draw 0.0 the sketch that [process_text] builds
    for a document answers [estimate(w)] with a number between the
    occurrences of [w] among the words kept from the document and the
    number of words kept. *)
Theorem snapshot_estimate_bounds (text : string) (rnd : draws) (w : string) :
  valid_draws rnd -> random_random rnd = r_zero ->
  exists cms e,
    snapshot text rnd = Ok cms /\ estimate cms w = Ok e /\
    true_count (tokens text) w <= e <= Py.len (tokens text).
Proof.
  intros Hv Hz. destruct (new_sketch_ok rnd Hv) as (s & Hs & Hwf & _ & H10 & _ & _).
  specialize (H10 Hz).
  destruct (estimate_min_hits s (tokens text) w Hwf ltac:(lia) (init_fresh _ _ _ _ Hs))
    as (s' & e & Hu & He & Hm).
  exists s', e. split.
  - unfold snapshot. rewrite Hs. cbn [Py.bind]. rewrite update_words_eq. exact Hu.
  - split; [exact He|]. split.
    + apply (min_ge _ _ _ Hm). intros y Hy. apply in_map_iff in Hy as (i & <- & _).
      apply hits_true_count.
    + assert (Hin : In (hits s (tokens text) 0 (slot s w 0))
                       (map (fun i => hits s (tokens text) i (slot s w i))
                            (Py.range (depth s)))).
      { apply in_map_iff. exists 0. split; [reflexivity|]. apply In_range. lia. }
      pose proof (min_In_le _ _ _ Hm Hin).
      pose proof (hits_nonneg s (tokens text) 0 (slot s w 0)). lia.
Qed.

Lemma snapshot_estimate_bounds_witness :
  valid_draws draws_zero /\
  exists cms e,
    snapshot "Fed raises rates; the Fed holds" draws_zero = Ok cms /\
    estimate cms "fed" = Ok e /\ 2 <= e <= 5.
Proof.
  split; [reflexivity|].
  destruct (snapshot_estimate_bounds "Fed raises rates; the Fed holds" draws_zero "fed"
              eq_refl eq_refl) as (cms & e & Hs & He & Hb).
  exists cms, e. split; [exact Hs|]. split; [exact He|]. exact Hb.
Defined.

(** ** More on [clean_text] *)


Lemma in_class_not_space (c : ascii) : in_class c = true -> Str.is_space c = false.
Proof.
  unfold in_class, Str.is_space. set (n := Str.code c). intros H.
  destruct (Z.leb_spec 97 n), (Z.leb_spec n 122), (Z.leb_spec 48 n), (Z.leb_spec n 57);
    cbn in H; try discriminate;
    destruct (Z.leb_spec 9 n), (Z.leb_spec n 13), (Z.leb_spec 28 n), (Z.leb_spec n 32),
      (Z.eqb_spec n 133), (Z.eqb_spec n 160); cbn; try reflexivity; lia.
Qed.

Lemma in_class_lower_char (c : ascii) : in_class c = true -> Str.lower_char c = c.
Proof.
  unfold in_class, Str.lower_char, Str.is_upper. set (n := Str.code c). intros H.
  destruct (Z.leb_spec 97 n), (Z.leb_spec n 122), (Z.leb_spec 48 n), (Z.leb_spec n 57);
    cbn in H; try discriminate;
    destruct (Z.leb_spec 65 n), (Z.leb_spec n 90), (Z.leb_spec 192 n), (Z.leb_spec n 222);
    cbn; try reflexivity; lia.
Qed.

Lemma lower_char_idem (c : ascii) : Str.lower_char (Str.lower_char c) = Str.lower_char c.
Proof. destruct c as [[] [] [] [] [] [] [] []]; reflexivity. Qed.

Lemma lower_idem (s : string) : Str.lower (Str.lower s) = Str.lower s.
Proof.
  induction s as [|c s IH]; [reflexivity|].
  cbn [Str.lower]. rewrite lower_char_idem, IH. reflexivity.
Qed.

Lemma lower_app (a b : string) :
  Str.lower (a ++ b)%string = (Str.lower a ++ Str.lower b)%string.
Proof.
  induction a as [|c a IH]; [reflexivity|].
  cbn [Str.lower String.append]. rewrite IH. reflexivity.
Qed.


Lemma length_re_sub_from (b : bool) (s : string) :
  (String.length (re_sub_from b s) <= String.length s)%nat.
Proof.
  revert b. induction s as [|c s IH]; intros b; [reflexivity|].
  cbn [re_sub_from]. destruct (in_class c); [|destruct b]; cbn [String.length].
  - specialize (IH false). lia.
  - specialize (IH true). lia.
  - specialize (IH true). lia.
Qed.

(** The substitution changes nothing in its own result. *)
Lemma re_sub_from_idem (s : string) :
  forall b, re_sub_from b (re_sub_from b s) = re_sub_from b s.
Proof.
  induction s as [|c s IH]; intros b; [reflexivity|].
  cbn [re_sub_from]. destruct (in_class c) eqn:Hc.
  - cbn [re_sub_from]. rewrite Hc, IH. reflexivity.
  - destruct b.
    + apply IH.
    + cbn [re_sub_from]. change (in_class " "%char) with false. cbn iota.
      rewrite IH. reflexivity.
Qed.

(** A string that the substitution leaves alone when it starts inside a
    run starts with a character of the class, or is empty. *)
Lemma fixed_true_inv (s : string) :
  re_sub_from true s = s ->
  re_sub_from false s = s /\ Str.lstrip s = s /\
  match s with EmptyString => True | String c _ => in_class c = true end.
Proof.
  destruct s as [|c s]; [intros _; repeat split|].
  cbn [re_sub_from Str.lstrip]. destruct (in_class c) eqn:Hc.
  - intros H. rewrite (in_class_not_space c Hc). repeat split. exact H.
  - intros H. apply (f_equal String.length) in H. cbn [String.length] in H.
    pose proof (length_re_sub_from true s). lia.
Qed.

Lemma fixed_false_inv (c : ascii) (s : string) :
  re_sub_from false (String c s) = String c s ->
  (in_class c = true /\ re_sub_from false s = s) \/
  (in_class c = false /\ c = " "%char /\ re_sub_from true s = s).
Proof.
  cbn [re_sub_from]. destruct (in_class c) eqn:Hc.
  - intros [= H]. left. split; [reflexivity|exact H].
  - intros [= H1 H2]. right. split; [reflexivity|]. split; [symmetry; exact H1|exact H2].
Qed.

Lemma fixed_lstrip (s : string) :
  re_sub_from false s = s -> re_sub_from true (Str.lstrip s) = Str.lstrip s.
Proof.
  destruct s as [|c s]; [reflexivity|]. intros H.
  destruct (fixed_false_inv c s H) as [[Hc Hs]|(Hc & -> & Hs)].
  - cbn [Str.lstrip]. rewrite (in_class_not_space c Hc).
    cbn [re_sub_from]. rewrite Hc, Hs. reflexivity.
  - change (Str.lstrip (String " " s)) with (Str.lstrip s).
    destruct (fixed_true_inv s Hs) as (_ & -> & _). exact Hs.
Qed.

Lemma rstrip_cons (c : ascii) (s : string) :
  Str.rstrip (String c s)
  = match Str.rstrip s with
    | EmptyString => if Str.is_space c then EmptyString else String c EmptyString
    | r => String c r
    end.
Proof. reflexivity. Qed.

Lemma re_sub_from_class (b : bool) (c : ascii) (s : string) :
  in_class c = true -> re_sub_from b (String c s) = String c (re_sub_from false s).
Proof. intros Hc. cbn [re_sub_from]. rewrite Hc. reflexivity. Qed.

Lemma re_sub_from_blank (s : string) :
  re_sub_from false (String " " s) = String " " (re_sub_from true s).
Proof. reflexivity. Qed.

Lemma fixed_rstrip (s : string) :
  (re_sub_from false s = s -> re_sub_from false (Str.rstrip s) = Str.rstrip s) /\
  (re_sub_from true s = s -> re_sub_from true (Str.rstrip s) = Str.rstrip s).
Proof.
  induction s as [|c s [IHf IHt]]; [split; reflexivity|].
  assert (Hclass : in_class c = true -> re_sub_from false s = s ->
                   forall b, re_sub_from b (Str.rstrip (String c s)) = Str.rstrip (String c s)).
  { intros Hc Hs b. rewrite rstrip_cons. specialize (IHf Hs).
    rewrite (in_class_not_space c Hc).
    destruct (Str.rstrip s) as [|c' r]; rewrite (re_sub_from_class b c _ Hc).
    - reflexivity.
    - rewrite IHf. reflexivity. }
  split; intros H.
  - destruct (fixed_false_inv c s H) as [[Hc Hs]|(Hc & -> & Hs)].
    + apply Hclass; assumption.
    + rewrite rstrip_cons. specialize (IHt Hs).
      destruct (Str.rstrip s) as [|c' r]; [reflexivity|].
      rewrite re_sub_from_blank, IHt. reflexivity.
  - destruct (fixed_true_inv _ H) as (Hf & _ & Hc).
    destruct (fixed_false_inv c s Hf) as [[_ Hs]|(Hc' & _)]; [|congruence].
    apply Hclass; assumption.
Qed.

Lemma fixed_lower (s : string) :
  (re_sub_from false s = s -> Str.lower s = s) /\
  (re_sub_from true s = s -> Str.lower s = s).
Proof.
  induction s as [|c s [IHf IHt]]; [split; reflexivity|].
  assert (Hf : re_sub_from false (String c s) = String c s -> Str.lower (String c s) = String c s).
  { intros H. cbn [Str.lower].
    destruct (fixed_false_inv c s H) as [[Hc Hs]|(Hc & -> & Hs)].
    - rewrite (in_class_lower_char c Hc), (IHf Hs). reflexivity.
    - rewrite (IHt Hs). reflexivity. }
  split; [exact Hf|]. intros H. apply Hf. apply (fixed_true_inv _ H).
Qed.

Lemma rstrip_idem (s : string) : Str.rstrip (Str.rstrip s) = Str.rstrip s.
Proof.
  induction s as [|c s IH]; [reflexivity|].
  rewrite rstrip_cons. destruct (Str.rstrip s) as [|c' r] eqn:Hr.
  - destruct (Str.is_space c) eqn:Hc; [reflexivity|].
    cbn [Str.rstrip]. rewrite Hc. reflexivity.
  - rewrite rstrip_cons, IH. reflexivity.
Qed.

(** The cleaned text is a fixed point of each step of [clean_text]. *)
Lemma clean_text_fixed (text : string) :
  re_sub_from true (clean_text text) = clean_text text /\
  Str.rstrip (clean_text text) = clean_text text.
Proof.
  unfold clean_text, Str.strip. split; [|apply rstrip_idem].
  apply fixed_rstrip. apply fixed_lstrip. apply re_sub_from_idem.
Qed.


Lemma concat_rest (w : string) (ws : list string) :
  String.concat " " (w :: ws) = (w ++ join_rest ws)%string.
Proof.
  revert w. induction ws as [|x ws IH]; intros w.
  - cbn. induction w as [|c w IHw]; [reflexivity|]. cbn. rewrite <- IHw. reflexivity.
  - change (String.concat " " (w :: x :: ws)) with (w ++ " " ++ String.concat " " (x :: ws))%string.
    rewrite IH. reflexivity.
Qed.

Lemma rstrip_fixed_inv (c : ascii) (s : string) :
  Str.rstrip (String c s) = String c s ->
  Str.rstrip s = s /\ (s = "" -> Str.is_space c = false).
Proof.
  rewrite rstrip_cons. destruct (Str.rstrip s) as [|c' r] eqn:Hr.
  - destruct (Str.is_space c); [discriminate|]. intros [= <-]. split; [exact Hr|reflexivity].
  - intros [= <-]. split; [reflexivity|discriminate].
Qed.

Lemma split_go_fixed (s : string) :
  Str.rstrip s = s ->
  (re_sub_from false s = s ->
   s = (fst (Str.split_go s) ++ join_rest (snd (Str.split_go s)))%string /\
   all_in_class (fst (Str.split_go s)) = true /\
   Forall is_word (snd (Str.split_go s))) /\
  (re_sub_from true s = s ->
   s = "" \/ fst (Str.split_go s) <> "").
Proof.
  induction s as [|c s IH]; intros Hr.
  - split; intros _; [|left; reflexivity]. cbn. repeat split. constructor.
  - destruct (rstrip_fixed_inv c s Hr) as [Hr' Hne]. specialize (IH Hr').
    destruct IH as [IHf IHt]. cbn [Str.split_go].
    destruct (Str.split_go s) as [w ws] eqn:Hg. cbn [fst snd] in *.
    split; intros H.
    + destruct (fixed_false_inv c s H) as [[Hc Hs]|(Hc & -> & Hs)].
      * rewrite (in_class_not_space c Hc). cbn [fst snd].
        destruct (IHf Hs) as (E & Hw & Hws).
        split; [cbn [String.append]; rewrite <- E; reflexivity|].
        split; [cbn [all_in_class]; rewrite Hc, Hw; reflexivity|exact Hws].
      * change (Str.is_space " "%char) with true. cbn iota. cbn [fst snd].
        destruct (fixed_true_inv s Hs) as (Hsf & _ & _).
        destruct (IHf Hsf) as (E & Hw & Hws).
        destruct (IHt Hs) as [->|Hwne]; [specialize (Hne eq_refl); discriminate|].
        destruct w as [|c' w]; [congruence|]. cbn [Str.cons_nonempty].
        split; [cbn [join_rest fold_right String.append]; rewrite E at 1; reflexivity|].
        split; [reflexivity|]. constructor; [split; [discriminate|exact Hw]|exact Hws].
    + right. destruct (fixed_true_inv _ H) as (_ & _ & Hc).
      rewrite (in_class_not_space c Hc). cbn [fst]. discriminate.
Qed.


(** Property X9.  The cleaned text is made of the characters [a-z0-9] and
    of single spaces between words: it is its own words joined by one
    space, and each word is a non-empty string of characters of the class. *)
Theorem clean_text_words (text : string) :
  clean_text text = String.concat " " (Str.split (clean_text text)) /\
  Forall (fun w => w <> "" /\ all_in_class w = true) (Str.split (clean_text text)).
Proof.
  destruct (clean_text_fixed text) as [Ht Hr].
  destruct (fixed_true_inv _ Ht) as (Hf & _ & _).
  destruct (split_go_fixed _ Hr) as [Hsf Hst].
  destruct (Hsf Hf) as (E & Hw & Hws). specialize (Hst Ht).
  unfold Str.split. destruct (Str.split_go (clean_text text)) as [w ws]. cbn [fst snd] in *.
  destruct w as [|c w].
  - destruct Hst as [Hs|Hs]; [|congruence].
    rewrite Hs in E. destruct ws as [|x ws]; [|discriminate E].
    cbn [Str.cons_nonempty]. split; [rewrite Hs; reflexivity|constructor].
  - cbn [Str.cons_nonempty]. rewrite concat_rest. split; [exact E|].
    constructor; [split; [discriminate|exact Hw]|exact Hws].
Qed.

(** Property X10.  Cleaning a cleaned text changes nothing, and the case
    of the input does not matter. *)
Theorem clean_text_idempotent (text : string) :
  clean_text (clean_text text) = clean_text text /\
  clean_text (Str.lower text) = clean_text text.
Proof.
  split.
  - destruct (clean_text_fixed text) as [Ht Hr].
    destruct (fixed_true_inv _ Ht) as (Hf & Hl & _).
    destruct (fixed_lower (clean_text text)) as [Hlow _].
    set (t := clean_text text) in *. unfold clean_text at 1.
    rewrite (Hlow Hf). unfold re_sub. rewrite Hf. unfold Str.strip. rewrite Hl. exact Hr.
  - unfold clean_text. rewrite lower_idem. reflexivity.
Qed.


Lemma split_re_sub_flag (s : string) :
  Str.split (re_sub_from true s) = Str.split (re_sub_from false s).
Proof.
  destruct s as [|c s]; [reflexivity|]. cbn [re_sub_from].
  destruct (in_class c); [reflexivity|].
  symmetry. apply split_space. reflexivity.
Qed.

Lemma split_cons_word (c : ascii) (s : string) :
  Str.is_space c = false ->
  Str.split_go (String c s) = (String c (fst (Str.split_go s)), snd (Str.split_go s)).
Proof.
  intros Hc. cbn [Str.split_go]. destruct (Str.split_go s) as [w ws]. rewrite Hc. reflexivity.
Qed.

Lemma split_cons_blank (s : string) :
  Str.split_go (String " " s) = (EmptyString, Str.split s).
Proof.
  cbn [Str.split_go]. unfold Str.split. destruct (Str.split_go s) as [w ws]. reflexivity.
Qed.

Lemma split_re_sub_app (x y : string) :
  Str.split_go (re_sub_from false (x ++ String " " y)%string)
  = (fst (Str.split_go (re_sub_from false x)),
     snd (Str.split_go (re_sub_from false x)) ++ Str.split (re_sub_from true y)) /\
  Str.split (re_sub_from true (x ++ String " " y)%string)
  = Str.split (re_sub_from true x) ++ Str.split (re_sub_from true y).
Proof.
  induction x as [|c x [IHf IHt]].
  - cbn [String.append]. rewrite re_sub_from_blank, split_cons_blank. split; reflexivity.
  - cbn [String.append]. destruct (in_class c) eqn:Hc.
    + assert (E : forall b,
                Str.split_go (re_sub_from b (String c (x ++ String " " y)))
                = (String c (fst (Str.split_go (re_sub_from false x))),
                   snd (Str.split_go (re_sub_from false x))
                   ++ Str.split (re_sub_from true y))).
      { intros b. rewrite (re_sub_from_class b c _ Hc).
        rewrite (split_cons_word c _ (in_class_not_space c Hc)), IHf. reflexivity. }
      assert (E' : forall b,
                Str.split_go (re_sub_from b (String c x))
                = (String c (fst (Str.split_go (re_sub_from false x))),
                   snd (Str.split_go (re_sub_from false x)))).
      { intros b. rewrite (re_sub_from_class b c _ Hc).
        apply (split_cons_word c _ (in_class_not_space c Hc)). }
      split.
      * rewrite E, E'. reflexivity.
      * unfold Str.split. rewrite E, E'. reflexivity.
    + split.
      * cbn [re_sub_from]. rewrite Hc. rewrite !split_cons_blank, IHt. reflexivity.
      * cbn [re_sub_from]. rewrite Hc. exact IHt.
Qed.

(** The words kept from [title ++ " " ++ text] are those of the title
    followed by those of the text: the space keeps the last word of the
    one and the first word of the other apart. *)
Lemma tokens_app (title text : string) :
  tokens (title ++ " " ++ text)%string = tokens title ++ tokens text.
Proof.
  unfold tokens, clean_text. rewrite !split_strip, lower_app.
  change (Str.lower (" " ++ text)%string) with (String " " (Str.lower text)).
  unfold re_sub. destruct (split_re_sub_app (Str.lower title) (Str.lower text)) as [E _].
  unfold Str.split at 1. rewrite E. rewrite <- filter_app. f_equal.
  rewrite split_re_sub_flag. unfold Str.split at 2.
  destruct (Str.split_go (re_sub_from false (Str.lower title))) as [w ws]. cbn [fst snd].
  destruct w; reflexivity.
Qed.

(** ** The ranking of the main loop *)


Lemma dict_get_dict_set {V : Type} (d : dict V) (k k' : string) (v : V) :
  Py.dict_get (Py.dict_set d k v) k'
  = if String.eqb k k' then Some v else Py.dict_get d k'.
Proof.
  induction d as [|[k0 v0] d IH]; cbn [Py.dict_set Py.dict_get].
  - reflexivity.
  - destruct (String.eqb_spec k0 k) as [->|Hne]; cbn [Py.dict_get].
    + destruct (String.eqb k k'); reflexivity.
    + rewrite IH. destruct (String.eqb_spec k0 k') as [->|_]; [|reflexivity].
      destruct (String.eqb_spec k k') as [->|_]; [contradiction|reflexivity].
Qed.

Lemma dict_get_In {V : Type} (d : dict V) (k : string) (v : V) :
  Py.dict_get d k = Some v -> In (k, v) d.
Proof.
  induction d as [|[k0 v0] d IH]; cbn [Py.dict_get]; [discriminate|].
  destruct (String.eqb_spec k0 k) as [->|_].
  - intros [= ->]. left. reflexivity.
  - intros H. right. exact (IH H).
Qed.

Lemma In_dict_get {V : Type} (d : dict V) (k : string) (v : V) :
  NoDup (Py.keys d) -> In (k, v) d -> Py.dict_get d k = Some v.
Proof.
  induction d as [|[k0 v0] d IH]; cbn [Py.keys map fst Py.dict_get]; [intros _ []|].
  intros Hnd [[= -> ->]|Hin].
  - rewrite String.eqb_refl. reflexivity.
  - inversion Hnd as [|? ? Hnotin Hnd']; subst.
    destruct (String.eqb_spec k0 k) as [->|_]; [|exact (IH Hnd' Hin)].
    exfalso. apply Hnotin. change k with (fst (k, v)). apply in_map. exact Hin.
Qed.

Lemma dict_get_defaultdict_add (d : dict Z) (k k' : string) (n : Z) :
  Py.dict_get (Py.defaultdict_add d k n) k'
  = if String.eqb k k'
    then Some (match Py.dict_get d k with Some v => v + n | None => n end)
    else Py.dict_get d k'.
Proof.
  unfold Py.defaultdict_add.
  destruct (Py.dict_get d k); rewrite dict_get_dict_set; reflexivity.
Qed.

Lemma NoDup_defaultdict_add (d : dict Z) (k : string) (n : Z) :
  NoDup (Py.keys d) -> NoDup (Py.keys (Py.defaultdict_add d k n)).
Proof.
  intros H. unfold Py.defaultdict_add. destruct (Py.dict_get d k); apply NoDup_dict_set; exact H.
Qed.

Lemma count_words_spec (article_words : list string) :
  forall freq_map : dict Z,
    NoDup (Py.keys freq_map) ->
    (forall w c, Py.dict_get freq_map w = Some c -> 1 <= c) ->
    NoDup (Py.keys (count_words freq_map article_words)) /\
    (forall w c, Py.dict_get (count_words freq_map article_words) w = Some c -> 1 <= c) /\
    forall w, count_of (count_words freq_map article_words) w
              = count_of freq_map w + true_count article_words w.
Proof.
  unfold count_words, true_count.
  induction article_words as [|x ws IH]; intros fm Hnd Hpos; cbn [fold_left].
  - split; [exact Hnd|]. split; [exact Hpos|]. intros w. cbn. lia.
  - destruct (IH (Py.defaultdict_add fm x 1)) as (Hnd' & Hpos' & Hc).
    + apply NoDup_defaultdict_add. exact Hnd.
    + intros w c. rewrite dict_get_defaultdict_add.
      destruct (String.eqb x w); [|apply Hpos].
      intros [= <-]. destruct (Py.dict_get fm x) as [v|] eqn:E; [|lia].
      specialize (Hpos _ _ E). lia.
    + split; [exact Hnd'|]. split; [exact Hpos'|]. intros w. rewrite Hc.
      unfold count_of. rewrite dict_get_defaultdict_add. cbn [count_occ].
      destruct (string_dec x w) as [->|Hne].
      * rewrite String.eqb_refl. destruct (Py.dict_get fm w); lia.
      * destruct (String.eqb_spec x w) as [->|_]; [contradiction|]. lia.
Qed.

Lemma true_count_app (l l' : list string) (w : string) :
  true_count (l ++ l') w = true_count l w + true_count l' w.
Proof. unfold true_count. rewrite count_occ_app. lia. Qed.

Lemma count_buffer_spec (buffer : list (list string)) :
  forall freq_map : dict Z,
    NoDup (Py.keys freq_map) ->
    (forall w c, Py.dict_get freq_map w = Some c -> 1 <= c) ->
    NoDup (Py.keys (fold_left count_words buffer freq_map)) /\
    (forall w c, Py.dict_get (fold_left count_words buffer freq_map) w = Some c -> 1 <= c) /\
    forall w, count_of (fold_left count_words buffer freq_map) w
              = count_of freq_map w + true_count (List.concat buffer) w.
Proof.
  induction buffer as [|ws buffer IH]; intros fm Hnd Hpos; cbn [fold_left List.concat].
  - split; [exact Hnd|]. split; [exact Hpos|]. intros w. cbn. lia.
  - destruct (count_words_spec ws fm Hnd Hpos) as (Hnd1 & Hpos1 & Hc1).
    destruct (IH _ Hnd1 Hpos1) as (Hnd' & Hpos' & Hc).
    split; [exact Hnd'|]. split; [exact Hpos'|]. intros w.
    rewrite Hc, Hc1, true_count_app. lia.
Qed.

Lemma count_buffer_get (buffer : list (list string)) (w : string) :
  Py.dict_get (count_buffer buffer) w
  = if true_count (List.concat buffer) w =? 0 then None
    else Some (true_count (List.concat buffer) w).
Proof.
  destruct (count_buffer_spec buffer [] (NoDup_nil _)) as (_ & Hpos & Hc).
  { intros ? ? [=]. }
  specialize (Hc w). unfold count_buffer, count_of in *. cbn [Py.dict_get] in Hc.
  destruct (Py.dict_get (fold_left count_words buffer []) w) as [c|] eqn:E.
  - specialize (Hpos _ _ E). destruct (Z.eqb_spec (true_count (List.concat buffer) w) 0); [lia|].
    f_equal. lia.
  - destruct (Z.eqb_spec (true_count (List.concat buffer) w) 0); [reflexivity|lia].
Qed.

Lemma NoDup_count_buffer (buffer : list (list string)) :
  NoDup (Py.keys (count_buffer buffer)).
Proof.
  apply (count_buffer_spec buffer [] (NoDup_nil _)). intros ? ? [=].
Qed.


Lemma insert_desc_perm (x : string * Z) (l : list (string * Z)) :
  Permutation (Py.insert_desc x l) (x :: l).
Proof.
  induction l as [|y l IH]; cbn [Py.insert_desc]; [reflexivity|].
  destruct (snd x <? snd y); [|reflexivity].
  rewrite IH. apply perm_swap.
Qed.

Lemma sorted_desc_perm (l : list (string * Z)) : Permutation (Py.sorted_desc l) l.
Proof.
  unfold Py.sorted_desc. induction l as [|x l IH]; cbn [fold_right]; [reflexivity|].
  rewrite insert_desc_perm, IH. reflexivity.
Qed.

Lemma insert_desc_sorted (x : string * Z) (l : list (string * Z)) :
  StronglySorted ge_count l -> StronglySorted ge_count (Py.insert_desc x l).
Proof.
  induction 1 as [|y l Hl IH Hy]; cbn [Py.insert_desc].
  - constructor; constructor.
  - destruct (Z.ltb_spec (snd x) (snd y)) as [Hlt|Hge].
    + constructor; [exact IH|].
      apply Forall_forall. intros z Hz.
      apply (Permutation_in _ (insert_desc_perm x l)) in Hz. destruct Hz as [<-|Hz].
      * unfold ge_count. lia.
      * rewrite Forall_forall in Hy. apply Hy. exact Hz.
    + constructor; [constructor; assumption|].
      constructor; [exact Hge|].
      apply Forall_forall. intros z Hz. rewrite Forall_forall in Hy.
      specialize (Hy z Hz). unfold ge_count in *. lia.
Qed.

Lemma sorted_desc_sorted (l : list (string * Z)) : StronglySorted ge_count (Py.sorted_desc l).
Proof.
  unfold Py.sorted_desc. induction l as [|x l IH]; cbn [fold_right]; [constructor|].
  apply insert_desc_sorted. exact IH.
Qed.

Lemma insert_desc_filter (c : Z) (x : string * Z) (l : list (string * Z)) :
  filter (fun p => snd p =? c) (Py.insert_desc x l)
  = filter (fun p => snd p =? c) (x :: l).
Proof.
  induction l as [|y l IH]; cbn [Py.insert_desc]; [reflexivity|].
  destruct (Z.ltb_spec (snd x) (snd y)) as [Hlt|Hge]; [|reflexivity].
  cbn [filter] in *. rewrite IH.
  destruct (Z.eqb_spec (snd x) c), (Z.eqb_spec (snd y) c); try reflexivity. lia.
Qed.

(** The sort is stable: the entries of each count keep their order. *)
Lemma sorted_desc_stable_filter (c : Z) (l : list (string * Z)) :
  filter (fun p => snd p =? c) (Py.sorted_desc l) = filter (fun p => snd p =? c) l.
Proof.
  unfold Py.sorted_desc. induction l as [|x l IH]; cbn [fold_right]; [reflexivity|].
  rewrite insert_desc_filter. cbn [filter]. rewrite IH. reflexivity.
Qed.

Lemma StronglySorted_app_inv {A : Type} (R : A -> A -> Prop) (l1 l2 : list A) :
  StronglySorted R (l1 ++ l2) ->
  StronglySorted R l1 /\ forall x y, In x l1 -> In y l2 -> R x y.
Proof.
  induction l1 as [|a l1 IH]; cbn [app]; intros H.
  - split; [constructor|]. intros x y [].
  - inversion H as [|? ? Hs Hf]; subst. destruct (IH Hs) as [IH1 IH2].
    rewrite Forall_app in Hf. destruct Hf as [Hf1 Hf2]. split.
    + constructor; assumption.
    + intros x y [<-|Hx] Hy; [|exact (IH2 x y Hx Hy)].
      rewrite Forall_forall in Hf2. exact (Hf2 y Hy).
Qed.

Lemma dict_of_items_NoDup {V : Type} (l : list (string * V)) :
  NoDup (map fst l) -> Py.dict_of_items l = l.
Proof.
  unfold Py.dict_of_items.
  assert (H : forall d : dict V, NoDup (Py.keys d ++ map fst l) ->
            fold_left (fun d kv => Py.dict_set d (fst kv) (snd kv)) l d = d ++ l).
  { induction l as [|[k v] l IH]; intros d Hnd; cbn [fold_left].
    - rewrite app_nil_r. reflexivity.
    - cbn [fst snd map] in *. rewrite dict_set_new.
      + rewrite IH.
        * rewrite <- app_assoc. reflexivity.
        * unfold Py.keys in *. rewrite map_app. cbn [map fst]. rewrite <- app_assoc. exact Hnd.
      + apply NoDup_remove_2 in Hnd. intros Hin. apply Hnd. apply in_or_app. left. exact Hin. }
  intros Hnd. apply (H []). exact Hnd.
Qed.

Lemma NoDup_firstn {A : Type} (n : nat) (l : list A) : NoDup l -> NoDup (firstn n l).
Proof.
  intros H. rewrite <- (firstn_skipn n l) in H. apply NoDup_app_remove_r in H. exact H.
Qed.

Lemma ranking_eq (buffer : list (list string)) :
  ranking buffer = firstn (Z.to_nat TOP_K) (Py.sorted_desc (count_buffer buffer)) /\
  NoDup (Py.keys (ranking buffer)).
Proof.
  assert (Hnd : NoDup (map fst (firstn (Z.to_nat TOP_K)
                                  (Py.sorted_desc (count_buffer buffer))))).
  { rewrite <- firstn_map. apply NoDup_firstn.
    apply (Permutation_NoDup (l := map fst (count_buffer buffer))).
    - apply Permutation_map. symmetry. apply sorted_desc_perm.
    - apply NoDup_count_buffer. }
  unfold ranking. rewrite dict_of_items_NoDup by exact Hnd. split; [reflexivity|exact Hnd].
Qed.

(** Property X11.  The ranking published for a buffer has at most [TOP_K]
    distinct words, each with its exact number of occurrences in the
    buffer, in order of non-increasing count; a word of the buffer that is
    left out occurs no more often than any ranked word, and only when
    [TOP_K] words are ranked. *)
Theorem ranking_top_k (buffer : list (list string)) :
  Py.len (ranking buffer) <= TOP_K /\
  NoDup (Py.keys (ranking buffer)) /\
  StronglySorted (fun x y => snd y <= snd x) (ranking buffer) /\
  (forall w c, In (w, c) (ranking buffer) ->
     c = true_count (List.concat buffer) w /\ 1 <= c) /\
  (forall w, In w (List.concat buffer) -> ~ In w (Py.keys (ranking buffer)) ->
     Py.len (ranking buffer) = TOP_K /\
     forall w' c', In (w', c') (ranking buffer) -> true_count (List.concat buffer) w <= c').
Proof.
  destruct (ranking_eq buffer) as [E Hnd]. set (S := Py.sorted_desc (count_buffer buffer)) in *.
  pose proof (sorted_desc_sorted (count_buffer buffer)) as Hs. fold S in Hs.
  rewrite <- (firstn_skipn (Z.to_nat TOP_K) S) in Hs.
  apply StronglySorted_app_inv in Hs as [Hs1 Hs2].
  assert (Hin : forall w c, In (w, c) S -> c = true_count (List.concat buffer) w /\ 1 <= c).
  { intros w c H. apply (Permutation_in _ (sorted_desc_perm _)) in H.
    apply (In_dict_get _ _ _ (NoDup_count_buffer buffer)) in H.
    rewrite count_buffer_get in H.
    destruct (Z.eqb_spec (true_count (List.concat buffer) w) 0); [discriminate|].
    injection H as <-. split; [reflexivity|]. unfold true_count in *. lia. }
  split; [|split; [exact Hnd|split; [|split]]].
  - rewrite E. unfold Py.len. rewrite length_firstn. unfold TOP_K. lia.
  - rewrite E. exact Hs1.
  - intros w c H. rewrite E in H. apply Hin. apply (In_firstn _ _ _ H).
  - intros w Hw Hnot.
    assert (Hc : true_count (List.concat buffer) w <> 0).
    { unfold true_count. rewrite (count_occ_In string_dec) in Hw. lia. }
    assert (HinS : In (w, true_count (List.concat buffer) w) S).
    { apply (Permutation_in _ (Permutation_sym (sorted_desc_perm _))).
      apply dict_get_In. rewrite count_buffer_get.
      destruct (Z.eqb_spec (true_count (List.concat buffer) w) 0); [contradiction|reflexivity]. }
    rewrite <- (firstn_skipn (Z.to_nat TOP_K) S) in HinS.
    apply in_app_or in HinS as [H|H].
    { exfalso. apply Hnot. rewrite E.
      change w with (fst (w, true_count (List.concat buffer) w)). apply in_map. exact H. }
    split.
    + rewrite E. unfold Py.len. rewrite length_firstn.
      assert (Z.to_nat TOP_K < List.length S)%nat.
      { destruct (Nat.lt_ge_cases (Z.to_nat TOP_K) (List.length S)) as [Hlt|Hge]; [exact Hlt|].
        rewrite skipn_all2 in H by exact Hge. destruct H. }
      unfold TOP_K in *. lia.
    + intros w' c' H'. rewrite E in H'. exact (Hs2 _ _ H' H).
Qed.

Lemma not_in_spec (ws : list string) (w : string) : not_in ws w = true <-> ~ In w ws.
Proof.
  unfold not_in. rewrite negb_true_iff. split.
  - intros H Hin. assert (E : existsb (String.eqb w) ws = true).
    { apply existsb_exists. exists w. split; [exact Hin|apply String.eqb_refl]. }
    congruence.
  - intros H. destruct (existsb (String.eqb w) ws) eqn:E; [|reflexivity].
    apply existsb_exists in E as (y & Hy & Heq). apply String.eqb_eq in Heq. subst y.
    contradiction.
Qed.

Lemma filter_filter {A : Type} (f g : A -> bool) (l : list A) :
  filter f (filter g l) = filter (fun x => g x && f x) l.
Proof.
  induction l as [|x l IH]; [reflexivity|]. cbn [filter].
  destruct (g x); cbn [filter andb]; [destruct (f x)|]; rewrite IH; reflexivity.
Qed.

Lemma keys_defaultdict_add (d : dict Z) (k : string) (n : Z) :
  Py.keys (Py.defaultdict_add d k n)
  = if not_in (Py.keys d) k then Py.keys d ++ [k] else Py.keys d.
Proof.
  unfold Py.defaultdict_add.
  assert (E : forall v, Py.keys (Py.dict_set d k v)
                        = if not_in (Py.keys d) k then Py.keys d ++ [k] else Py.keys d).
  { intros v. rewrite keys_dict_set. destruct (in_dec string_dec k (Py.keys d)) as [Hin|Hnin].
    - destruct (not_in (Py.keys d) k) eqn:E; [|reflexivity].
      apply not_in_spec in E. contradiction.
    - apply not_in_spec in Hnin. rewrite Hnin. reflexivity. }
  destruct (Py.dict_get d k); apply E.
Qed.

Lemma bool_ext (a b : bool) : (a = true <-> b = true) -> a = b.
Proof. destruct a, b; intros [H1 H2]; try reflexivity; [symmetry; auto|auto]. Qed.

Lemma keys_count_words (article_words : list string) :
  forall freq_map : dict Z,
    Py.keys (count_words freq_map article_words)
    = Py.keys freq_map ++ filter (not_in (Py.keys freq_map)) (first_seen article_words).
Proof.
  unfold count_words.
  induction article_words as [|x ws IH]; intros fm; cbn [fold_left first_seen filter].
  - rewrite app_nil_r. reflexivity.
  - rewrite IH, keys_defaultdict_add, filter_filter.
    destruct (not_in (Py.keys fm) x) eqn:Hx.
    + rewrite <- app_assoc. cbn [app]. do 2 f_equal.
      apply filter_ext. intros y. unfold not_in. rewrite existsb_app. cbn [existsb].
      rewrite orb_false_r, negb_orb, andb_comm. reflexivity.
    + f_equal. apply filter_ext. intros y.
      destruct (String.eqb_spec y x) as [->|_]; cbn [negb andb]; [|reflexivity].
      rewrite Hx. reflexivity.
Qed.

Lemma first_seen_app (l l' : list string) :
  first_seen (l ++ l') = first_seen l ++ filter (not_in (first_seen l)) (first_seen l').
Proof.
  induction l as [|x l IH]; cbn [app first_seen].
  - symmetry. apply forallb_filter_id. apply forallb_forall. reflexivity.
  - rewrite IH, filter_app, filter_filter. cbn [app]. do 2 f_equal.
    apply filter_ext. intros y. apply bool_ext.
    rewrite andb_true_iff, negb_true_iff, String.eqb_neq, !not_in_spec.
    cbn [In]. rewrite filter_In, negb_true_iff, String.eqb_neq.
    split.
    + intros [H1 H2] [H|[H3 _]]; [congruence|contradiction].
    + intros H. split; [|intros Hx; apply H; left; congruence].
      intros Hy. apply H. destruct (string_dec x y) as [E|E]; [left; exact E|].
      right. split; [exact Hy|congruence].
Qed.

Lemma keys_count_buffer_from (buffer : list (list string)) :
  forall freq_map : dict Z,
    Py.keys (fold_left count_words buffer freq_map)
    = Py.keys freq_map
      ++ filter (not_in (Py.keys freq_map)) (first_seen (List.concat buffer)).
Proof.
  induction buffer as [|ws buffer IH]; intros fm; cbn [fold_left List.concat first_seen filter].
  - rewrite app_nil_r. reflexivity.
  - rewrite IH, keys_count_words, first_seen_app, filter_app, filter_filter, <- app_assoc.
    do 2 f_equal. apply filter_ext. intros y. apply bool_ext.
    rewrite andb_true_iff, !not_in_spec, in_app_iff, filter_In, not_in_spec.
    split.
    + intros H. split; intros Hy; apply H.
      * destruct (in_dec string_dec y (Py.keys fm)) as [Hin|Hnin]; [left; exact Hin|].
        right. split; assumption.
      * left. exact Hy.
    + intros [H1 H2] [H|[H _]]; contradiction.
Qed.

(** The keys of [freq_map] are the distinct words of the buffer, in the
    order of their first occurrence. *)
Lemma keys_count_buffer (buffer : list (list string)) :
  Py.keys (count_buffer buffer) = first_seen (List.concat buffer).
Proof.
  unfold count_buffer. rewrite keys_count_buffer_from. cbn [Py.keys map app].
  apply forallb_filter_id. apply forallb_forall. reflexivity.
Qed.

Lemma map_fst_filter_count (d : dict Z) (c : Z) :
  NoDup (Py.keys d) ->
  map fst (filter (fun p => snd p =? c) d)
  = filter (fun w => count_of d w =? c) (Py.keys d).
Proof.
  unfold Py.keys.
  assert (H : forall d0 : dict Z, (forall p, In p d0 -> count_of d (fst p) = snd p) ->
            map fst (filter (fun p => snd p =? c) d0)
            = filter (fun w => count_of d w =? c) (map fst d0)).
  { induction d0 as [|p d0 IH]; intros Hd0; [reflexivity|].
    cbn [filter map]. rewrite (Hd0 p (or_introl eq_refl)).
    destruct (snd p =? c); cbn [map]; rewrite IH by (intros q Hq; apply Hd0; right; exact Hq);
      reflexivity. }
  intros Hnd. apply H. intros [w v] Hin. cbn [fst snd]. unfold count_of.
  rewrite (In_dict_get d w v Hnd Hin). reflexivity.
Qed.

Lemma count_of_count_buffer (buffer : list (list string)) (w : string) :
  count_of (count_buffer buffer) w = true_count (List.concat buffer) w.
Proof.
  unfold count_of. rewrite count_buffer_get.
  destruct (Z.eqb_spec (true_count (List.concat buffer) w) 0) as [E|_]; [|reflexivity].
  symmetry. exact E.
Qed.

(** Property X12.  [freq_map] holds, for each word of the buffered word
    lists, the number of its occurrences, and no entry for any other word;
    its keys are the distinct words in the order of their first
    occurrence. *)
Theorem count_buffer_exact (buffer : list (list string)) :
  Py.keys (count_buffer buffer) = first_seen (List.concat buffer) /\
  NoDup (Py.keys (count_buffer buffer)) /\
  forall w,
    Py.dict_get (count_buffer buffer) w
    = if true_count (List.concat buffer) w =? 0 then None
      else Some (true_count (List.concat buffer) w).
Proof.
  split; [apply keys_count_buffer|]. split; [apply NoDup_count_buffer|apply count_buffer_get].
Qed.

(** Property X13.  The ranking is the first [TOP_K] entries of the stable
    sort of [freq_map] by decreasing count: the counts do not increase
    along it, and the words of each count follow one another in the order
    of their first occurrence in the buffer. *)
Theorem trending_order (buffer : list (list string)) :
  ranking buffer = firstn (Z.to_nat TOP_K) (Py.sorted_desc (count_buffer buffer)) /\
  Permutation (Py.sorted_desc (count_buffer buffer)) (count_buffer buffer) /\
  StronglySorted (fun x y => snd y <= snd x) (Py.sorted_desc (count_buffer buffer)) /\
  forall c,
    map fst (filter (fun p => snd p =? c) (Py.sorted_desc (count_buffer buffer)))
    = filter (fun w => true_count (List.concat buffer) w =? c)
             (first_seen (List.concat buffer)).
Proof.
  split; [apply ranking_eq|]. split; [apply sorted_desc_perm|].
  split; [apply sorted_desc_sorted|]. intros c.
  rewrite sorted_desc_stable_filter, map_fst_filter_count by apply NoDup_count_buffer.
  rewrite keys_count_buffer. apply filter_ext. intros w.
  rewrite count_of_count_buffer. reflexivity.
Qed.


(** ** The fetched texts, the run of the main loop and the probabilities *)


Lemma append_nonempty (a b : string) : (a ++ " " ++ b)%string <> "".
Proof. destruct a; discriminate. Qed.

Lemma fetch_live_news_delivered (r : response) :
  fetch_live_news r = "" <-> delivered r = false.
Proof.
  destruct r as [|status [|data|]]; cbn [fetch_live_news delivered]; try tauto.
  - destruct (status =? 200); cbn [negb]; tauto.
  - destruct (Z.eqb_spec status 200); cbn [negb]; [|tauto].
    split; [|discriminate]. intros H. exfalso. exact (append_nonempty _ _ H).
  - destruct (status =? 200); cbn [negb]; tauto.
Qed.

Lemma loop_body_ranking (c : ascii) (content : string) (rnd : draws) (st : state) :
  valid_draws rnd ->
  exists cms,
    snapshot (String c content) rnd = Ok cms /\
    loop_body (String c content) rnd st
    = Ok {| window := push cms (window st);
            all_words_buffer := push (tokens (String c content)) (all_words_buffer st);
            current_trending :=
              ranking (push (tokens (String c content)) (all_words_buffer st)) |}.
Proof. apply loop_body_push. Qed.

Lemma run_trending (feed : list (string * draws)) :
  Forall (fun d => valid_draws (snd d)) feed ->
  Forall (fun d => printable (fst d)) (documents feed) ->
  forall st st',
    current_trending st = ranking (all_words_buffer st) ->
    run_background_algorithm feed st = Ok st' ->
    current_trending st' = ranking (all_words_buffer st').
Proof.
  induction 1 as [|[content rnd] feed Hv _ IH]; intros Hp st st' Hinv;
    cbn [run_background_algorithm].
  - intros [= <-]. exact Hinv.
  - cbn [snd] in Hv. destruct content as [|c content].
    + change (documents ((EmptyString, rnd) :: feed)) with (documents feed) in Hp.
      cbn [loop_body Py.bind]. apply (IH Hp). exact Hinv.
    + change (documents ((String c content, rnd) :: feed))
        with ((String c content, rnd) :: documents feed) in Hp.
      inversion Hp as [|? ? Hp1 Hp2]; subst. cbn [fst] in Hp1.
      destruct (loop_body_printed c content rnd st Hp1 Hv) as (cms & _ & ->).
      cbn [Py.bind]. apply (IH Hp2). reflexivity.
Qed.

Lemma run_skips_empty (feed : list (string * draws)) :
  forall st, run_background_algorithm feed st = run_background_algorithm (documents feed) st.
Proof.
  induction feed as [|[content rnd] feed IH]; intros st; [reflexivity|].
  destruct content as [|c content].
  - cbn [run_background_algorithm loop_body Py.bind]. rewrite IH. reflexivity.
  - change (documents ((String c content, rnd) :: feed))
      with ((String c content, rnd) :: documents feed).
    cbn [run_background_algorithm].
    destruct (loop_body (String c content) rnd st) as [st1|e]; [|reflexivity].
    cbn [Py.bind]. apply IH.
Qed.

Lemma get_top_k_words_cases (d : dict Z) :
  NoDup (Py.keys d) ->
  (forall c, In c (Py.values d) -> 0 <= c) ->
  Py.sum (Py.values d) < 2 ^ 53 ->
  (Py.sum (Py.values d) = 0 /\ get_top_k_words d = Ok []) \/
  (0 < Py.sum (Py.values d) /\
   exists probs,
     get_top_k_words d = Ok probs /\
     probabilities d (Py.sum (Py.values d)) [] = Ok probs /\
     d <> [] /\
     Py.keys probs = Py.keys d /\
     Forall2 (fun count p => PyFloat.int_truediv count (Py.sum (Py.values d)) = Ok p)
             (Py.values d) (Py.values probs)).
Proof.
  intros Hnd Hnn Hlt. pose proof (sum_nonneg _ Hnn) as H0.
  destruct (Z.eq_dec (Py.sum (Py.values d)) 0) as [Hz|Hnz].
  - left. split; [exact Hz|]. unfold get_top_k_words. destruct d as [|wc d]; [reflexivity|].
    rewrite Hz. reflexivity.
  - right. split; [lia|].
    assert (Hc : forall c, In c (Py.values d) -> 0 <= c <= Py.sum (Py.values d)).
    { intros c Hin. split; [apply Hnn; exact Hin|apply In_le_sum; assumption]. }
    destruct (probabilities_spec (Py.sum (Py.values d)) d ltac:(lia) Hc [] Hnd)
      as (ps & Hps & Hk & Hall).
    cbn [app] in Hps. exists ps.
    assert (Hne : d <> []) by (intros ->; apply Hnz; reflexivity).
    split; [|repeat split; assumption].
    unfold get_top_k_words. destruct d as [|wc d]; [contradiction|].
    destruct (Z.ltb_spec 0 (Py.sum (Py.values (wc :: d)))); [exact Hps|lia].
Qed.

Lemma Forall2_keys_values {V W : Type} (R : V -> W -> Prop) (d : dict V) :
  forall ps : dict W,
    Py.keys ps = Py.keys d ->
    Forall2 R (Py.values d) (Py.values ps) ->
    forall w c, In (w, c) d -> exists p, In (w, p) ps /\ R c p.
Proof.
  unfold Py.keys, Py.values.
  induction d as [|[k v] d IH]; intros [|[k' p'] ps] Hk Hall w c Hin;
    cbn [map fst snd] in *; try discriminate; [destruct Hin|].
  injection Hk as -> Hk. inversion Hall as [|? ? ? ? Hr Hall']; subst.
  destruct Hin as [[= -> ->]|Hin].
  - exists p'. split; [left; reflexivity|exact Hr].
  - destruct (IH ps Hk Hall' w c Hin) as (p & Hp & Hrp).
    exists p. split; [right; exact Hp|exact Hrp].
Qed.


Lemma Forall2_skipn {A B : Type} (R : A -> B -> Prop) (n : nat) :
  forall l l', Forall2 R l l' -> Forall2 R (skipn n l) (skipn n l').
Proof.
  induction n as [|n IH]; intros l l' H; [exact H|].
  destruct H as [|x y l l' _ H]; [constructor|]. cbn [skipn]. apply IH. exact H.
Qed.

Lemma Forall2_last_n {A B : Type} (R : A -> B -> Prop) (l : list A) (l' : list B) :
  Forall2 R l l' -> Forall2 R (last_n l) (last_n l').
Proof.
  intros H. unfold last_n. rewrite (Forall2_length H). apply Forall2_skipn. exact H.
Qed.

(** Property X14.  When the message of every text received is printed,
    a run of the main loop from the initial state returns; it ends with
    the word lists of the last [WINDOW_SIZE] texts received (the
    iterations without a text are skipped), with the sketches of the same
    texts in the window, and with the ranking of exactly these word
    lists.  (A text that standard output cannot encode ends the loop
    instead: [print] raises before anything is pushed.) *)
Theorem run_closed_form (feed : list (string * draws)) :
  Forall (fun d => valid_draws (snd d)) feed ->
  Forall (fun d => printable (fst d)) (documents feed) ->
  exists st',
    run_background_algorithm feed initial_state = Ok st' /\
    all_words_buffer st' = last_n (map (fun d => tokens (fst d)) (documents feed)) /\
    current_trending st' = ranking (all_words_buffer st') /\
    Forall2 (fun d cms => snapshot (fst d) (snd d) = Ok cms)
            (last_n (documents feed)) (window st') /\
    Py.len (window st') = Py.len (all_words_buffer st') /\
    Py.len (all_words_buffer st') <= WINDOW_SIZE.
Proof.
  intros Hv Hp.
  destruct (main_loop_windows feed Hv Hp initial_state)
    as (st' & sketches & Hrun & Hall & Hw & Hb).
  { cbn. unfold WINDOW_SIZE. lia. }
  { cbn. unfold WINDOW_SIZE. lia. }
  cbn [initial_state window all_words_buffer app] in Hw, Hb.
  exists st'. split; [exact Hrun|]. split; [exact Hb|]. split; [|split; [|split]].
  - apply (run_trending feed Hv Hp initial_state st'); [reflexivity|exact Hrun].
  - rewrite Hw. apply Forall2_last_n. exact Hall.
  - rewrite Hw, Hb. unfold Py.len. rewrite !length_last_n, length_map.
    rewrite (Forall2_length Hall). reflexivity.
  - rewrite Hb. apply len_last_n_le.
Qed.

Lemma run_closed_form_witness :
  Forall (fun d => printable (fst d))
         (documents
            [("Fed raises rates again amid inflation fears", draws_half);
             ("", draws_zero);
             ("Markets react to Fed rate hike", draws_zero)]) /\
  exists st',
    run_background_algorithm
      [("Fed raises rates again amid inflation fears", draws_half);
       ("", draws_zero);
       ("Markets react to Fed rate hike", draws_zero)] initial_state = Ok st' /\
    all_words_buffer st'
    = [["fed"; "raises"; "rates"; "amid"; "inflation"; "fears"];
       ["markets"; "react"; "fed"; "rate"; "hike"]] /\
    current_trending st' = ranking (all_words_buffer st').
Proof.
  assert (Hp : Forall (fun d => printable (fst d))
                 (documents
                    [("Fed raises rates again amid inflation fears", draws_half);
                     ("", draws_zero);
                     ("Markets react to Fed rate hike", draws_zero)])).
  { repeat constructor. }
  split; [exact Hp|].
  destruct (run_closed_form
              [("Fed raises rates again amid inflation fears", draws_half);
               ("", draws_zero);
               ("Markets react to Fed rate hike", draws_zero)])
    as (st' & Hrun & Hb & Hc & _).
  { repeat constructor. }
  { exact Hp. }
  exists st'. split; [exact Hrun|]. split; [exact Hb|exact Hc].
Defined.

(** Property X15.  On a dictionary of word counts (distinct keys, counts
    that are not negative, their sum below 2^53) [get_top_k_words] raises
    nothing: the test [total > 0] keeps the division from a zero divisor.
    It returns the empty dictionary when all counts are 0, and otherwise
    one probability for each word, in the same order. *)
Theorem get_top_k_words_returns (d : dict Z) :
  NoDup (Py.keys d) ->
  (forall c, In c (Py.values d) -> 0 <= c) ->
  Py.sum (Py.values d) < 2 ^ 53 ->
  exists probs,
    get_top_k_words d = Ok probs /\
    ((Py.sum (Py.values d) = 0 /\ probs = []) \/
     (0 < Py.sum (Py.values d) /\ Py.keys probs = Py.keys d)).
Proof.
  intros Hnd Hnn Hlt.
  destruct (get_top_k_words_cases d Hnd Hnn Hlt) as [[Hz Hg]|(Hp & probs & Hg & _ & _ & Hk & _)].
  - exists []. split; [exact Hg|]. left. split; [exact Hz|reflexivity].
  - exists probs. split; [exact Hg|]. right. split; [exact Hp|exact Hk].
Qed.

Lemma get_top_k_words_returns_witness :
  NoDup (Py.keys [("fed", 0); ("rates", 0)]) /\
  exists probs,
    get_top_k_words [("fed", 0); ("rates", 0)] = Ok probs /\
    ((Py.sum (Py.values [("fed", 0); ("rates", 0)]) = 0 /\ probs = []) \/
     (0 < Py.sum (Py.values [("fed", 0); ("rates", 0)]) /\
      Py.keys probs = Py.keys [("fed", 0); ("rates", 0)])).
Proof.
  assert (Hnd : NoDup (Py.keys [("fed", 0); ("rates", 0)])).
  { repeat (constructor; [cbn; intuition discriminate|]). constructor. }
  split; [exact Hnd|].
  apply (get_top_k_words_returns [("fed", 0); ("rates", 0)] Hnd).
  - cbn. intros c [<-|[<-|[]]]; lia.
  - reflexivity.
Defined.

(** Property X16.  Each probability that [get_top_k_words] returns is the
    exact share [count / total] of its word up to a relative error of
    [tolerance], which is 2^-52. *)
Theorem probability_accuracy (d : dict Z) (probs : dict PyFloat.float)
    (w : string) (c : Z) :
  NoDup (Py.keys d) ->
  (forall c, In c (Py.values d) -> 0 <= c) ->
  Py.sum (Py.values d) < 2 ^ 53 ->
  get_top_k_words d = Ok probs ->
  In (w, c) d -> 0 < Py.sum (Py.values d) ->
  exists p,
    Py.dict_get probs w = Some p /\
    (Qabs (PyFloat.to_Q p - inject_Z c / inject_Z (Py.sum (Py.values d)))
     <= tolerance * (inject_Z c / inject_Z (Py.sum (Py.values d))))%Q.
Proof.
  intros Hnd Hnn Hlt Hget Hin Hpos.
  assert (Hcv : In c (Py.values d)).
  { unfold Py.values. change c with (snd (w, c)). apply in_map. exact Hin. }
  pose proof (In_le_sum _ _ Hnn Hcv) as Hle. pose proof (Hnn c Hcv) as Hc.
  destruct (get_top_k_words_cases d Hnd Hnn Hlt)
    as [[Hz _]|(Hp & probs' & Hg & _ & _ & Hk & Hall)]; [lia|].
  rewrite Hget in Hg. injection Hg as <-.
  destruct (Forall2_keys_values _ d probs Hk Hall w c Hin) as (p & Hinp & Hdiv).
  exists p. split.
  - apply In_dict_get; [rewrite Hk; exact Hnd|exact Hinp].
  - destruct (int_truediv_error c (Py.sum (Py.values d))) as (p' & Hp' & Hlo & Hhi); [lia|lia|].
    rewrite Hdiv in Hp'. injection Hp' as <-.
    apply Qabs_Qle_condition. split; assumption.
Qed.

Lemma probability_accuracy_witness :
  get_top_k_words [("fed", 2); ("inflation", 1)]
  = Ok [("fed", S754_finite false 6004799503160661 (-53));
        ("inflation", S754_finite false 6004799503160661 (-54))] /\
  exists p,
    Py.dict_get [("fed", S754_finite false 6004799503160661 (-53));
                 ("inflation", S754_finite false 6004799503160661 (-54))] "fed" = Some p /\
    (Qabs (PyFloat.to_Q p - inject_Z 2 / inject_Z 3) <= tolerance * (inject_Z 2 / inject_Z 3))%Q.
Proof.
  split; [reflexivity|].
  apply (probability_accuracy [("fed", 2); ("inflation", 1)]
           [("fed", S754_finite false 6004799503160661 (-53));
            ("inflation", S754_finite false 6004799503160661 (-54))] "fed" 2).
  - repeat (constructor; [cbn; intuition discriminate|]). constructor.
  - cbn. intros c [<-|[<-|[]]]; lia.
  - reflexivity.
  - reflexivity.
  - left. reflexivity.
  - reflexivity.
Defined.

(** Property X17.  A response of status 200 whose body is a JSON object
    always gives the main loop a text that is not empty, even without a
    title and a text.  When the message of that text is printed, the
    iteration pushes a sketch and the words of the title followed by the
    words of the text, and publishes the ranking of the new buffer. *)
Theorem tick_on_object (data : dict json) (rnd : draws) (st : state) :
  valid_draws rnd ->
  printable (fetch_live_news (Response 200 (JsonObject data))) ->
  fetch_live_news (Response 200 (JsonObject data)) <> "" /\
  exists cms,
    loop_body (fetch_live_news (Response 200 (JsonObject data))) rnd st
    = Ok {| window := push cms (window st);
            all_words_buffer :=
              push (tokens (format (get data "title" (JString "")))
                    ++ tokens (format (get data "text" (JString ""))))
                   (all_words_buffer st);
            current_trending :=
              ranking
                (push (tokens (format (get data "title" (JString "")))
                       ++ tokens (format (get data "text" (JString ""))))
                      (all_words_buffer st)) |}.
Proof.
  cbn [fetch_live_news Z.eqb Pos.eqb negb]. intros Hv Hp.
  split; [apply append_nonempty|].
  rewrite <- tokens_app.
  destruct (format (get data "title" (JString "")) ++ " "
            ++ format (get data "text" (JString "")))%string as [|c content] eqn:E.
  - exfalso. exact (append_nonempty _ _ E).
  - destruct (loop_body_printed c content rnd st Hp Hv) as (cms & _ & Hl).
    exists cms. exact Hl.
Qed.

Lemma tick_on_object_witness :
  valid_draws draws_half /\
  printable (fetch_live_news (Response 200 (JsonObject [("id", JInt 7)]))) /\
  exists cms,
    loop_body (fetch_live_news (Response 200 (JsonObject [("id", JInt 7)]))) draws_half
              initial_state
    = Ok {| window := [cms]; all_words_buffer := [[]]; current_trending := [] |}.
Proof.
  split; [reflexivity|]. split; [reflexivity|].
  destruct (tick_on_object [("id", JInt 7)] draws_half initial_state eq_refl eq_refl)
    as (_ & cms & H).
  exists cms. exact H.
Defined.

(** Property X18.  The iterations whose request raises, whose status is
    not 200 or whose body is not a JSON object change nothing: the run is
    the run on the delivered responses alone. *)
Theorem failed_fetches_change_nothing (responses : list (response * draws)) (st : state) :
  run_background_algorithm (fetched responses) st
  = run_background_algorithm
      (fetched (filter (fun d => delivered (fst d)) responses)) st.
Proof.
  rewrite run_skips_empty. f_equal. unfold fetched, documents.
  induction responses as [|[r rnd] responses IH]; [reflexivity|].
  cbn [map filter fst snd].
  destruct (delivered r) eqn:Hd.
  - destruct (fetch_live_news r) as [|c content] eqn:E.
    + apply fetch_live_news_delivered in E. congruence.
    + cbn [String.eqb negb map fst snd]. rewrite E, IH. reflexivity.
  - apply fetch_live_news_delivered in Hd. rewrite Hd. cbn [String.eqb negb]. exact IH.
Qed.

(** Property X19.  On the dictionary of counts that the background process
    saved, [calculate_word_probabilities] of the application returns what
    [get_top_k_words] returns for it; without the file, or with a file
    that it cannot read, it returns the empty dictionary. *)
Theorem calculate_word_probabilities_agrees {A : Type} (news_articles : A) (d : dict Z) :
  NoDup (Py.keys d) ->
  (forall c, In c (Py.values d) -> 0 <= c) ->
  Py.sum (Py.values d) < 2 ^ 53 ->
  get_top_k_words d = Ok (calculate_word_probabilities news_articles (Counts d)) /\
  calculate_word_probabilities news_articles NoFile = [] /\
  calculate_word_probabilities news_articles Unreadable = [].
Proof.
  intros Hnd Hnn Hlt. split; [|split; reflexivity].
  destruct (get_top_k_words_cases d Hnd Hnn Hlt)
    as [[Hz Hg]|(Hp & probs & Hg & Hprob & Hne & _)].
  - rewrite Hg. unfold calculate_word_probabilities.
    destruct d as [|wc d]; [reflexivity|]. rewrite Hz. reflexivity.
  - rewrite Hg. unfold calculate_word_probabilities.
    destruct d as [|wc d]; [contradiction|].
    destruct (Z.ltb_spec 0 (Py.sum (Py.values (wc :: d)))); [|lia].
    rewrite Hprob. reflexivity.
Qed.

Lemma calculate_word_probabilities_agrees_witness :
  get_top_k_words [("fed", 2); ("inflation", 1)]
  = Ok (calculate_word_probabilities tt (Counts [("fed", 2); ("inflation", 1)])).
Proof.
  apply (calculate_word_probabilities_agrees tt [("fed", 2); ("inflation", 1)]).
  - repeat (constructor; [cbn; intuition discriminate|]). constructor.
  - cbn. intros c [<-|[<-|[]]]; lia.
  - reflexivity.
Defined.
